(** * terraform-j2md: the plan-to-markdown pipeline of [internal/terraform/plan.go]

    A shallow embedding of [plan.go] and the proofs of its specification.

    The Go file decodes a Terraform plan, sorts the resource changes into
    four address lists, re-indents JSON held in strings, and renders a
    markdown report through a [text/template].  The embedding follows the
    file function by function:

    - Go values of type [any] coming out of [encoding/json] are the
      inductive [value]; a [map[string]any] is a [gmap string value];
    - a Go [(T, error)] result is [result T]; [fmt.Errorf("...: %w", err)]
      is [ErrWrap];
    - the packages the file imports ([encoding/json], [terraform-json],
      [terraform-json/sanitize], [go-difflib], [strings]) are not part of
      the repository: their functions are the fields of the classes of
      section "Imported packages", and the theorems hold for every
      implementation of them.  Section "Reference implementation" gives one
      executable implementation, used to run the pipeline on examples;
    - the template [planTemplateBody] is kept as the string it is in the
      source, parsed and executed by a small model of [text/template];
      what [Render] writes to its [io.Writer] is returned with the error;
    - a method [m] of the Go type [T] is named [T__m]. *)

From Stdlib Require Import Ascii.
From stdpp Require Import base option list strings gmap sorting.

Set Default Proof Using "Type".

(** ** Characters that cannot be written inside a string literal *)

Definition LF : string := String "010"%char EmptyString.
Definition DQUOTE : string := String "034"%char EmptyString.
Definition BACKSLASH : string := String "092"%char EmptyString.

(** ** Errors and results *)

(** A Go [error]: either one produced by an imported package, or one built
    here by [fmt.Errorf(prefix + "%w", cause)]. *)
Inductive error :=
| ErrLib (msg : string)
| ErrWrap (prefix : string) (cause : error).

Inductive result (A : Type) :=
| Ok (a : A)
| Err (e : error).
Arguments Ok {A} a.
Arguments Err {A} e.

Global Instance result_ret : MRet result := λ A a, Ok a.
Global Instance result_bind : MBind result :=
  λ A B f m, match m with Ok a => f a | Err e => Err e end.
Global Instance result_fmap : FMap result :=
  λ A B f m, match m with Ok a => Ok (f a) | Err e => Err e end.

Definition is_Ok {A} (r : result A) : Prop := ∃ a, r = Ok a.

(** Sequencing the results stored in a map: the map of the values when all
    of them are [Ok], the first error met by the fold otherwise (Go ranges
    over a map in an unspecified order, too). *)
Definition map_sequence {A} (m : gmap string (result A)) : result (gmap string A) :=
  map_fold (λ k r acc,
              match acc, r with
              | Ok m', Ok a => Ok (<[k:=a]> m')
              | Err e, _ => Err e
              | Ok _, Err e => Err e
              end) (Ok ∅) m.

(** ** JSON values, as [encoding/json] decodes them into [any] *)

(** A [float64], held as its 64-bit IEEE-754 pattern; the program never
    computes with numbers. *)
Definition float64 := Z.

#[warnings="-register-all"]
Inductive value :=
| VNull                              (* nil *)
| VBool (b : bool)                   (* bool *)
| VNumber (f : float64)              (* float64 *)
| VString (s : string)               (* string *)
| VArray (x : list value)            (* []any *)
| VObject (x : gmap string value).   (* map[string]any *)

(** The number of nodes of a value. *)
Fixpoint value_size (v : value) : nat :=
  match v with
  | VArray x => S (sum_list (value_size <$> x))
  | VObject x => S (map_fold (λ _ n acc, n + acc) 0 (value_size <$> x))
  | _ => 1
  end.

(** ** Imported packages *)

(** *** github.com/hashicorp/terraform-json *)
Module tfjson.

Definition Action := string.
Definition Actions := list Action.

(** The fields of [tfjson.Change], [tfjson.ResourceChange] and
    [tfjson.Plan] that [plan.go] reads.  [Actions_], [Change_] and [Type_]
    are the Go fields [Actions], [Change] and [Type]. *)
Record Change := {
  Actions_ : Actions;
  Before : value;
  After : value;
}.

Record ResourceChange := {
  Address : string;
  Type_ : string;
  Name : string;
  Change_ : Change;
}.

Record Plan := {
  ResourceChanges : list ResourceChange;
}.

(** The methods of [tfjson.Actions] that [plan.go] calls. *)
Class ActionsMethods := {
  NoOp : Actions → bool;
  Read : Actions → bool;
  Create : Actions → bool;
  Update : Actions → bool;
  Delete : Actions → bool;
  Replace : Actions → bool;
}.

End tfjson.

(** *** encoding/json *)
Module json.

(** [json.RawMessage] is a [[]byte]. *)
Definition RawMessage := string.

Class Package := {
  (** [json.Valid(data)] *)
  Valid : string → bool;
  (** [json.Unmarshal(data, &j)] for [j] a [json.RawMessage] *)
  Unmarshal_RawMessage : string → result RawMessage;
  (** [json.MarshalIndent(j, prefix, indent)] for [j] a [json.RawMessage] *)
  MarshalIndent_RawMessage : RawMessage → string → string → result string;
  (** [json.MarshalIndent(v, prefix, indent)] for [v] an [any] *)
  MarshalIndent : value → string → string → result string;
  (** [json.Unmarshal(input, &plan)] for [plan] a [tfjson.Plan] *)
  Unmarshal_Plan : string → result tfjson.Plan;
}.

End json.

(** *** github.com/hashicorp/terraform-json/sanitize *)
Module sanitize.

Class Package := {
  SanitizePlan : tfjson.Plan → result tfjson.Plan;
}.

End sanitize.

(** *** strings *)
Module strings.

Class Package := {
  (** [strings.NewReplacer(oldnew...).Replace(s)], the pairs given as a list *)
  Replace : list (string * string) → string → string;
}.

End strings.

(** *** github.com/pmezard/go-difflib/difflib *)
Module difflib.

Record UnifiedDiff := {
  A : list string;
  B : list string;
  Context : nat;
}.

Class Package := {
  SplitLines : string → list string;
  GetUnifiedDiffString : UnifiedDiff → result string;
}.

End difflib.

(** Everything [plan.go] imports. *)
Class Imports := {
  imp_actions :: tfjson.ActionsMethods;
  imp_json :: json.Package;
  imp_sanitize :: sanitize.Package;
  imp_strings :: strings.Package;
  imp_difflib :: difflib.Package;
}.

(** ** The data of [plan.go] *)

Record ResourceChangeData := {
  ResourceChange : tfjson.ResourceChange;
}.

Record PlanData := {
  CreatedAddresses : list string;
  UpdatedAddresses : list string;
  DeletedAddresses : list string;
  ReplacedAddresses : list string;
  ResourceChanges : list ResourceChangeData;
}.

(** [PlanData{}] *)
Definition PlanData_zero : PlanData :=
  {| CreatedAddresses := []; UpdatedAddresses := []; DeletedAddresses := [];
     ReplacedAddresses := []; ResourceChanges := [] |}.

(** ** Normalisation: [format] and the two [formatJsonString] *)

Section format.
Context `{!json.Package}.

(** [func (r *ResourceChangeData) format(v any) (any, error)]: the value
    the call returns.  The writes [x[i] = result] and [x[k] = result] make
    the returned slice or map hold the results of the recursive calls. *)
Fixpoint ResourceChangeData__format (v : value) : result value :=
  match v with
  | VArray x => VArray <$> mapM ResourceChangeData__format x
  | VObject x => VObject <$> map_sequence (ResourceChangeData__format <$> x)
  | VString s =>
      if negb (json.Valid s) then Ok v
      else match json.Unmarshal_RawMessage s with
           | Ok j =>
               match json.MarshalIndent_RawMessage j "" "  " with
               | Err err => Err err
               | Ok a => Ok (VString a)
               end
           | Err _ => Ok v
           end
  | _ => Ok v
  end.

(** What a variable of the caller holds after [format] was called on it
    and returned [ret]: a slice and a map share their storage with the
    callee, so the caller sees the writes made through them; a string, a
    number, a boolean and nil are passed by copy and stay as they were. *)
Definition seen_by_caller (v ret : value) : value :=
  match v with
  | VArray _ | VObject _ => ret
  | _ => v
  end.

(** [func (r *ResourceChangeData) formatJsonString() error]: both results
    of [format] are dropped ([_, err := ...]); the record afterwards. *)
Definition ResourceChangeData__formatJsonString (r : ResourceChangeData)
  : result ResourceChangeData :=
  let rc := ResourceChange r in
  let c := tfjson.Change_ rc in
  match ResourceChangeData__format (tfjson.Before c) with
  | Err err => Err err
  | Ok before =>
      match ResourceChangeData__format (tfjson.After c) with
      | Err err => Err err
      | Ok after =>
          Ok {| ResourceChange :=
                  {| tfjson.Address := tfjson.Address rc;
                     tfjson.Type_ := tfjson.Type_ rc;
                     tfjson.Name := tfjson.Name rc;
                     tfjson.Change_ :=
                       {| tfjson.Actions_ := tfjson.Actions_ c;
                          tfjson.Before := seen_by_caller (tfjson.Before c) before;
                          tfjson.After := seen_by_caller (tfjson.After c) after |} |} |}
      end
  end.

(** [func (p *PlanData) formatJsonString() error]: the plan data
    afterwards. *)
Definition PlanData__formatJsonString (p : PlanData) : result PlanData :=
  match mapM ResourceChangeData__formatJsonString (ResourceChanges p) with
  | Err err => Err err
  | Ok rs =>
      Ok {| CreatedAddresses := CreatedAddresses p;
            UpdatedAddresses := UpdatedAddresses p;
            DeletedAddresses := DeletedAddresses p;
            ReplacedAddresses := ReplacedAddresses p;
            ResourceChanges := rs |}
  end.
End format.

(** ** The diff of one resource change and its header *)

Section diff.
Context `{!Imports}.

(** [func (r ResourceChangeData) GetUnifiedDiffString() (string, error)] *)
Definition ResourceChangeData__GetUnifiedDiffString (r : ResourceChangeData)
  : result string :=
  let c := tfjson.Change_ (ResourceChange r) in
  match json.MarshalIndent (tfjson.Before c) "" "  " with
  | Err err => Err (ErrWrap "invalid resource changes (before): " err)
  | Ok before =>
      match json.MarshalIndent (tfjson.After c) "" "  " with
      | Err err => Err (ErrWrap "invalid resource changes (after) : " err)
      | Ok after =>
          let replacer :=
            strings.Replace [(BACKSLASH +:+ "n", LF +:+ "  ");
                             (BACKSLASH +:+ DQUOTE, DQUOTE)] in
          let diff :=
            {| difflib.A := difflib.SplitLines (replacer before);
               difflib.B := difflib.SplitLines (replacer after);
               difflib.Context := 3 |} in
          match difflib.GetUnifiedDiffString diff with
          | Err err => Err (ErrWrap "failed to create diff: " err)
          | Ok diffText => Ok diffText
          end
      end
  end.

(** [func (r ResourceChangeData) HeaderSuffix() string] *)
Definition ResourceChangeData__HeaderSuffix (r : ResourceChangeData) : string :=
  let actions := tfjson.Actions_ (tfjson.Change_ (ResourceChange r)) in
  if tfjson.Create actions then "will be created"
  else if tfjson.Update actions then "will be updated in-place"
  else if tfjson.Delete actions then "will be destroyed"
  else if tfjson.Replace actions then "will be replaced"
  else "".

End diff.

(** ** Plan construction: [NewPlanData] *)

Section NewPlanData.
Context `{!Imports}.

(** The [append]s of the loop. *)
Definition append_Created (p : PlanData) (a : string) : PlanData :=
  {| CreatedAddresses := CreatedAddresses p ++ [a];
     UpdatedAddresses := UpdatedAddresses p;
     DeletedAddresses := DeletedAddresses p;
     ReplacedAddresses := ReplacedAddresses p;
     ResourceChanges := ResourceChanges p |}.

Definition append_Updated (p : PlanData) (a : string) : PlanData :=
  {| CreatedAddresses := CreatedAddresses p;
     UpdatedAddresses := UpdatedAddresses p ++ [a];
     DeletedAddresses := DeletedAddresses p;
     ReplacedAddresses := ReplacedAddresses p;
     ResourceChanges := ResourceChanges p |}.

Definition append_Deleted (p : PlanData) (a : string) : PlanData :=
  {| CreatedAddresses := CreatedAddresses p;
     UpdatedAddresses := UpdatedAddresses p;
     DeletedAddresses := DeletedAddresses p ++ [a];
     ReplacedAddresses := ReplacedAddresses p;
     ResourceChanges := ResourceChanges p |}.

Definition append_Replaced (p : PlanData) (a : string) : PlanData :=
  {| CreatedAddresses := CreatedAddresses p;
     UpdatedAddresses := UpdatedAddresses p;
     DeletedAddresses := DeletedAddresses p;
     ReplacedAddresses := ReplacedAddresses p ++ [a];
     ResourceChanges := ResourceChanges p |}.

Definition append_ResourceChanges (p : PlanData) (r : ResourceChangeData) : PlanData :=
  {| CreatedAddresses := CreatedAddresses p;
     UpdatedAddresses := UpdatedAddresses p;
     DeletedAddresses := DeletedAddresses p;
     ReplacedAddresses := ReplacedAddresses p;
     ResourceChanges := ResourceChanges p ++ [r] |}.

(** One turn of [for _, c := range sanitizedPlan.ResourceChanges]. *)
Definition NewPlanData_loop (planData : PlanData) (c : tfjson.ResourceChange)
  : PlanData :=
  let actions := tfjson.Actions_ (tfjson.Change_ c) in
  if tfjson.NoOp actions || tfjson.Read actions then planData   (* continue *)
  else
    let planData :=
      if tfjson.Create actions then append_Created planData (tfjson.Address c)
      else if tfjson.Update actions then append_Updated planData (tfjson.Address c)
      else if tfjson.Delete actions then append_Deleted planData (tfjson.Address c)
      else if tfjson.Replace actions then append_Replaced planData (tfjson.Address c)
      else planData in
    append_ResourceChanges planData {| ResourceChange := c |}.

(** [NewPlanData(input []byte)], returning a [PlanData] pointer and an [error] *)
Definition NewPlanData (input : string) : result PlanData :=
  match json.Unmarshal_Plan input with
  | Err err => Err (ErrWrap "cannot parse input: " err)
  | Ok plan =>
      match sanitize.SanitizePlan plan with
      | Err err => Err (ErrWrap "failed to sanitize plan: " err)
      | Ok sanitizedPlan =>
          let planData :=
            foldl NewPlanData_loop PlanData_zero
                  (tfjson.ResourceChanges sanitizedPlan) in
          match PlanData__formatJsonString planData with
          | Err err => Err err
          | Ok planData => Ok planData
          end
      end
  end.

End NewPlanData.

(** ** Rendering: [planTemplateBody] and [Render] *)

(** The template, as in the source. *)
Definition planTemplateBody : string :=
"### {{len .CreatedAddresses}} to add, {{len .UpdatedAddresses}} to change, {{len .DeletedAddresses}} to destroy, {{len .ReplacedAddresses}} to replace.
{{- if .CreatedAddresses}}
- add{{ range .CreatedAddresses }}
    - {{. -}}
{{end}}{{end}}
{{- if .UpdatedAddresses}}
- change{{ range .UpdatedAddresses }}
    - {{. -}}
{{end}}{{end}}
{{- if .DeletedAddresses}}
- destroy{{ range .DeletedAddresses }}
    - {{. -}}
{{end}}{{end}}
{{- if .ReplacedAddresses}}
- replace{{ range .ReplacedAddresses }}
    - {{. -}}
{{end}}{{end}}
{{if .ResourceChanges -}}
<details><summary>Change details</summary>
{{ range .ResourceChanges }}
{{codeFence}}diff
# {{.ResourceChange.Type}}.{{.ResourceChange.Name}} {{.HeaderSuffix}}
{{.GetUnifiedDiffString}}{{codeFence}}
{{end}}
</details>
{{end}}".

(** *** text/template, for the constructs the template uses

    Text, [{{pipeline}}], [{{if pipeline}}...{{end}}] and
    [{{range pipeline}}...{{end}}], the trim markers [{{- ] and [ -}}], and
    pipelines that are [.], a chain of fields or niladic methods [.A.B], or a
    function applied to such operands.  Whatever else a template may hold is
    refused by [template.Parse] with an error. *)
Module template.

(** **** Lexing: text and actions, with the trim markers applied *)

Inductive item :=
| ItemText (text : string)
| ItemAction (body : string).

(** The rest of [s] after the prefix [p], when [s] starts with [p]. *)
Fixpoint drop_prefix (p s : string) : option string :=
  match p, s with
  | EmptyString, _ => Some s
  | String a p', String b s' => if decide (a = b) then drop_prefix p' s' else None
  | String _ _, EmptyString => None
  end.

(** [strings.Cut(s, sep)] *)
Fixpoint cut (sep s : string) : option (string * string) :=
  match drop_prefix sep s with
  | Some rest => Some (EmptyString, rest)
  | None =>
      match s with
      | EmptyString => None
      | String a s' =>
          match cut sep s' with
          | Some (before, after) => Some (String a before, after)
          | None => None
          end
      end
  end.

(** The characters a trim marker removes: space, tab, CR and LF. *)
Definition isSpace (c : ascii) : bool :=
  match c with
  | " " | "009" | "013" | "010" => true
  | _ => false
  end%char.

Fixpoint trim_left (s : string) : string :=
  match s with
  | String c s' => if isSpace c then trim_left s' else s
  | EmptyString => s
  end.

Definition trim_right (s : string) : string :=
  String.rev (trim_left (String.rev s)).

(** An action body that ends with the right trim marker, without it. *)
Definition right_marker (body : string) : option string :=
  match String.rev body with
  | String "-" (String c r) => if isSpace c then Some (String.rev r) else None
  | _ => None
  end.

(** An action body that starts with the left trim marker, without it. *)
Definition left_marker (body : string) : option string :=
  match body with
  | String "-" (String c r) => if isSpace c then Some r else None
  | _ => None
  end.

Fixpoint lex (fuel : nat) (s : string) : result (list item) :=
  match fuel with
  | O => Err (ErrLib "template: out of fuel")
  | S fuel =>
      match cut "{{" s with
      | None => Ok [ItemText s]
      | Some (text, rest) =>
          match cut "}}" rest with
          | None => Err (ErrLib "template: unclosed action")
          | Some (body, rest) =>
              let '(text, body) :=
                match left_marker body with
                | Some body => (trim_right text, body)
                | None => (text, body)
                end in
              let '(body, rest) :=
                match right_marker body with
                | Some body => (body, trim_left rest)
                | None => (body, rest)
                end in
              items ← lex fuel rest;
              Ok (ItemText text :: ItemAction body :: items)
          end
      end
  end.

(** **** Parsing: the tree of nodes *)

Inductive operand :=
| Dot                              (* . *)
| Field (chain : list string).     (* .A.B *)

Inductive pipeline :=
| Operand (o : operand)
| Call (fn : string) (args : list operand).

#[warnings="-register-all"]
Inductive node :=
| TextNode (text : string)
| ActionNode (pipe : pipeline)
| IfNode (pipe : pipeline) (body : list node)
| RangeNode (pipe : pipeline) (body : list node).

(** The names between the dots of [.A.B], the leading dot removed. *)
Fixpoint split_dots (cur : string) (s : string) : list string :=
  match s with
  | EmptyString => [String.rev cur]
  | String "." s' => String.rev cur :: split_dots EmptyString s'
  | String c s' => split_dots (String c cur) s'
  end.

Definition parse_operand (w : string) : result operand :=
  match w with
  | String "." EmptyString => Ok Dot
  | String "." w' =>
      let chain := split_dots EmptyString w' in
      if decide (EmptyString ∈ chain) then Err (ErrLib "template: bad field")
      else Ok (Field chain)
  | _ => Err (ErrLib "template: operand outside the model")
  end.

(** [funcs] are the names the template may call. *)
Definition parse_pipeline (funcs : list string) (ws : list string) : result pipeline :=
  match ws with
  | [] => Err (ErrLib "template: missing value")
  | w :: args =>
      match w with
      | String "." _ =>
          match args with
          | [] => Operand <$> parse_operand w
          | _ => Err (ErrLib "template: arguments to a field outside the model")
          end
      | _ =>
          if decide (w ∈ funcs) then Call w <$> mapM parse_operand args
          else Err (ErrLib ("template: function " +:+ w +:+ " not defined"))
      end
  end.

(** The nodes up to the next unmatched [{{end}}] ([Some] of what follows it)
    or up to the end of the input ([None]). *)
Fixpoint parse_list (funcs : list string) (fuel : nat) (its : list item)
  : result (list node * option (list item)) :=
  match fuel with
  | O => Err (ErrLib "template: out of fuel")
  | S fuel =>
      match its with
      | [] => Ok ([], None)
      | ItemText text :: its =>
          '(ns, r) ← parse_list funcs fuel its;
          Ok (if decide (text = EmptyString) then ns else TextNode text :: ns, r)
      | ItemAction body :: its =>
          match String.words body with
          | ["end"] => Ok ([], Some its)
          | "if" :: ws =>
              pipe ← parse_pipeline funcs ws;
              '(body, r) ← parse_list funcs fuel its;
              match r with
              | None => Err (ErrLib "template: unexpected EOF")
              | Some its =>
                  '(ns, r) ← parse_list funcs fuel its;
                  Ok (IfNode pipe body :: ns, r)
              end
          | "range" :: ws =>
              pipe ← parse_pipeline funcs ws;
              '(body, r) ← parse_list funcs fuel its;
              match r with
              | None => Err (ErrLib "template: unexpected EOF")
              | Some its =>
                  '(ns, r) ← parse_list funcs fuel its;
                  Ok (RangeNode pipe body :: ns, r)
              end
          | ws =>
              pipe ← parse_pipeline funcs ws;
              '(ns, r) ← parse_list funcs fuel its;
              Ok (ActionNode pipe :: ns, r)
          end
      end
  end.

(** [template.New(name).Funcs(funcMap).Parse(text)], [funcs] being the names
    defined by [funcMap] and the builtin [len]. *)
Definition Parse (funcs : list string) (text : string) : result (list node) :=
  items ← lex (S (String.length text)) text;
  '(ns, r) ← parse_list funcs (S (length items)) items;
  match r with
  | None => Ok ns
  | Some _ => Err (ErrLib "template: unexpected {{end}}")
  end.

(** **** Execution *)

(** [strconv.Itoa] on a number that is not negative. *)
Definition digit (n : nat) : ascii :=
  ascii_of_nat (48 + n `mod` 10).

Fixpoint itoa_go (fuel n : nat) (acc : string) : string :=
  match fuel with
  | O => acc
  | S fuel =>
      let acc := String (digit n) acc in
      if decide (n < 10) then acc else itoa_go fuel (n `div` 10) acc
  end.

Definition itoa (n : nat) : string := itoa_go (S n) n EmptyString.

Section exec.
Context `{!Imports}.

(** The values the template meets: the [PlanData] it is executed on and
    what its fields, methods and functions give. *)
Inductive data :=
| DPlanData (p : PlanData)
| DResourceChangeData (r : ResourceChangeData)
| DResourceChange (rc : tfjson.ResourceChange)
| DString (s : string)
| DInt (n : nat)
| DStrings (l : list string)
| DResourceChangeDatas (l : list ResourceChangeData).

Definition FuncMap := list (string * (list data → result data)).

(** The builtin [len]. *)
Definition builtin_len (args : list data) : result data :=
  match args with
  | [DString s] => Ok (DInt (String.length s))
  | [DStrings l] => Ok (DInt (length l))
  | [DResourceChangeDatas l] => Ok (DInt (length l))
  | _ => Err (ErrLib "template: error calling len")
  end.

Definition builtins : FuncMap := [("len", builtin_len)].

(** [.name] on [d]: a field of a struct, or a method without arguments; a
    method that returns a non-nil [error] stops the execution with it. *)
Definition field (d : data) (name : string) : result data :=
  match d with
  | DPlanData p =>
      if String.eqb name "CreatedAddresses" then Ok (DStrings (CreatedAddresses p))
      else if String.eqb name "UpdatedAddresses" then Ok (DStrings (UpdatedAddresses p))
      else if String.eqb name "DeletedAddresses" then Ok (DStrings (DeletedAddresses p))
      else if String.eqb name "ReplacedAddresses" then Ok (DStrings (ReplacedAddresses p))
      else if String.eqb name "ResourceChanges" then Ok (DResourceChangeDatas (ResourceChanges p))
      else Err (ErrLib ("template: can't evaluate field " +:+ name))
  | DResourceChangeData r =>
      if String.eqb name "ResourceChange" then Ok (DResourceChange (ResourceChange r))
      else if String.eqb name "GetUnifiedDiffString" then
        DString <$> ResourceChangeData__GetUnifiedDiffString r
      else if String.eqb name "HeaderSuffix" then
        Ok (DString (ResourceChangeData__HeaderSuffix r))
      else Err (ErrLib ("template: can't evaluate field " +:+ name))
  | DResourceChange rc =>
      if String.eqb name "Address" then Ok (DString (tfjson.Address rc))
      else if String.eqb name "Type" then Ok (DString (tfjson.Type_ rc))
      else if String.eqb name "Name" then Ok (DString (tfjson.Name rc))
      else Err (ErrLib ("template: can't evaluate field " +:+ name))
  | _ => Err (ErrLib ("template: can't evaluate field " +:+ name))
  end.

Fixpoint fields (d : data) (chain : list string) : result data :=
  match chain with
  | [] => Ok d
  | name :: chain => d ← field d name; fields d chain
  end.

Definition eval_operand (dot : data) (o : operand) : result data :=
  match o with
  | Dot => Ok dot
  | Field chain => fields dot chain
  end.

Fixpoint lookup_func (funcs : FuncMap) (fn : string)
  : option (list data → result data) :=
  match funcs with
  | [] => None
  | (name, f) :: funcs => if String.eqb name fn then Some f else lookup_func funcs fn
  end.

Definition eval (funcs : FuncMap) (dot : data) (pipe : pipeline) : result data :=
  match pipe with
  | Operand o => eval_operand dot o
  | Call fn args =>
      match lookup_func funcs fn with
      | None => Err (ErrLib ("template: function " +:+ fn +:+ " not defined"))
      | Some f => args ← mapM (eval_operand dot) args; f args
      end
  end.

(** What [{{pipeline}}] writes: a string as it is, an [int] in decimal. *)
Definition print (d : data) : result string :=
  match d with
  | DString s => Ok s
  | DInt n => Ok (itoa n)
  | _ => Err (ErrLib "template: printing of this value is outside the model")
  end.

(** The truth of [{{if pipeline}}]: a slice or a string that is not empty, a
    number that is not zero, any struct. *)
Definition truth (d : data) : bool :=
  match d with
  | DString s => negb (String.eqb s EmptyString)
  | DInt n => negb (Nat.eqb n 0)
  | DStrings l => negb (Nat.eqb (length l) 0)
  | DResourceChangeDatas l => negb (Nat.eqb (length l) 0)
  | _ => true
  end.

(** The elements [{{range pipeline}}] goes through. *)
Definition elements (d : data) : result (list data) :=
  match d with
  | DStrings l => Ok (DString <$> l)
  | DResourceChangeDatas l => Ok (DResourceChangeData <$> l)
  | _ => Err (ErrLib "template: range can't iterate over this value")
  end.

(** The state of an execution: what was written to the [io.Writer] so far,
    and the error that stopped it, if any. *)
Definition written := (string * option error)%type.

(** Running [body] for each element of a [range], while no error occurs. *)
Fixpoint for_each (body : data → string → written) (ds : list data) (w : string)
  : written :=
  match ds with
  | [] => (w, None)
  | d :: ds =>
      match body d w with
      | (w, None) => for_each body ds w
      | stopped => stopped
      end
  end.

Fixpoint exec (funcs : FuncMap) (n : node) (dot : data) (w : string) {struct n}
  : written :=
  let exec_list :=
    fix exec_list (ns : list node) (dot : data) (w : string) {struct ns} : written :=
      match ns with
      | [] => (w, None)
      | n :: ns =>
          match exec funcs n dot w with
          | (w, None) => exec_list ns dot w
          | stopped => stopped
          end
      end in
  match n with
  | TextNode text => (w +:+ text, None)
  | ActionNode pipe =>
      match eval funcs dot pipe ≫= print with
      | Ok s => (w +:+ s, None)
      | Err err => (w, Some err)
      end
  | IfNode pipe body =>
      match eval funcs dot pipe with
      | Ok d => if truth d then exec_list body dot w else (w, None)
      | Err err => (w, Some err)
      end
  | RangeNode pipe body =>
      match eval funcs dot pipe ≫= elements with
      | Ok ds => for_each (exec_list body) ds w
      | Err err => (w, Some err)
      end
  end.

Fixpoint exec_list (funcs : FuncMap) (ns : list node) (dot : data) (w : string)
  : written :=
  match ns with
  | [] => (w, None)
  | n :: ns =>
      match exec funcs n dot w with
      | (w, None) => exec_list funcs ns dot w
      | stopped => stopped
      end
  end.

(** [t.Execute(w, data)] on an empty writer. *)
Definition Execute (funcs : FuncMap) (t : list node) (dot : data) : written :=
  exec_list (funcs ++ builtins) t dot EmptyString.

End exec.

End template.

Section Render.
Context `{!Imports}.

(** The only entry of [funcMap]: [func() string]. *)
Definition codeFence (args : list template.data) : result template.data :=
  match args with
  | [] => Ok (template.DString "````````")
  | _ => Err (ErrLib "template: wrong number of args for codeFence: want 0")
  end.

(** [func (plan *PlanData) Render(w io.Writer) error]: what was written to
    [w], and the error returned. *)
Definition PlanData__Render (plan : PlanData) : template.written :=
  let funcMap := [("codeFence", codeFence)] in
  match template.Parse (funcMap.*1 ++ template.builtins.*1) planTemplateBody with
  | Err err => (EmptyString, Some (ErrWrap "invalid template text: " err))
  | Ok planTemplate =>
      match template.Execute funcMap planTemplate (template.DPlanData plan) with
      | (w, Some err) => (w, Some (ErrWrap "failed to render template: " err))
      | (w, None) => (w, None)
      end
  end.

End Render.

(** ** Reference implementation of the imported packages

    One executable implementation of the classes of section "Imported
    packages", on which the pipeline can be run.  The theorems on
    [plan.go] do not depend on it: it shows that what they assume of the
    packages can be met, and it evaluates the examples.  It is written
    after the Go packages, for a fragment of their inputs:
    - JSON text is ASCII, its numbers are integers and its string literals
      hold no escape sequence and none of the characters that
      [encoding/json] writes as an escape; other texts are not valid;
    - a number decodes to a [float64] when it is an integer below 2^53 in
      magnitude, and to an error otherwise;
    - the methods of [tfjson.Actions] are those of [action.go];
    - plans carry no sensitive marks, so that sanitizing copies them;
    - the diff has the format of [go-difflib] and takes what lies between
      the common prefix and the common suffix of the two texts as one
      change. *)
Module ref.

(** *** terraform-json: [action.go] *)

Definition ActionNoop : tfjson.Action := "no-op".
Definition ActionCreate : tfjson.Action := "create".
Definition ActionRead : tfjson.Action := "read".
Definition ActionUpdate : tfjson.Action := "update".
Definition ActionDelete : tfjson.Action := "delete".

(** [len(a) == 1 && a[0] == x] *)
Definition is_only (x : tfjson.Action) (a : tfjson.Actions) : bool :=
  match a with
  | [y] => String.eqb y x
  | _ => false
  end.

Definition DestroyBeforeCreate (a : tfjson.Actions) : bool :=
  match a with
  | [x; y] => String.eqb x ActionDelete && String.eqb y ActionCreate
  | _ => false
  end.

Definition CreateBeforeDestroy (a : tfjson.Actions) : bool :=
  match a with
  | [x; y] => String.eqb x ActionCreate && String.eqb y ActionDelete
  | _ => false
  end.

#[export] Instance actions : tfjson.ActionsMethods := {|
  tfjson.NoOp := is_only ActionNoop;
  tfjson.Read := is_only ActionRead;
  tfjson.Create := is_only ActionCreate;
  tfjson.Update := is_only ActionUpdate;
  tfjson.Delete := is_only ActionDelete;
  tfjson.Replace a := DestroyBeforeCreate a || CreateBeforeDestroy a;
|}.

(** *** encoding/json: JSON text *)

(** The syntax tree of a JSON text; literals, numbers and string bodies
    are kept as they are written, members in the order of the text. *)
#[warnings="-register-all"]
Inductive jtree :=
| JScalar (token : string)        (* null, true, false or a number *)
| JString (body : string)
| JArray (elems : list jtree)
| JObject (members : list (string * jtree)).

Definition is_ws (c : ascii) : bool :=
  Ascii.eqb c " " || Ascii.eqb c "009" || Ascii.eqb c "013" || Ascii.eqb c "010".

Fixpoint skip_ws (s : string) : string :=
  match s with
  | String c s' => if is_ws c then skip_ws s' else s
  | EmptyString => s
  end.

Definition is_digit (c : ascii) : bool :=
  let n := nat_of_ascii c in (48 <=? n) && (n <=? 57).

(** The characters of literals and numbers. *)
Definition is_scalar_char (c : ascii) : bool :=
  let n := nat_of_ascii c in
  is_digit c || ((97 <=? n) && (n <=? 122)) || Ascii.eqb c "-".

Fixpoint all_chars (p : ascii → bool) (s : string) : bool :=
  match s with
  | EmptyString => true
  | String c s' => p c && all_chars p s'
  end.

(** [0] or a digit other than [0] followed by digits. *)
Definition is_natural (s : string) : bool :=
  match s with
  | EmptyString => false
  | String c EmptyString => is_digit c
  | String c s' => is_digit c && negb (Ascii.eqb c "0") && all_chars is_digit s'
  end.

Definition is_integer (s : string) : bool :=
  match s with
  | EmptyString => false
  | String c s' => if Ascii.eqb c "-" then is_natural s' else is_natural s
  end.

Definition scalar_ok (token : string) : bool :=
  String.eqb token "null" || String.eqb token "true" || String.eqb token "false"
  || is_integer token.

(** The characters a string literal of the fragment may hold: printable
    ASCII but the quote, the backslash and [<], [>], [&]. *)
Definition is_string_char (c : ascii) : bool :=
  let n := nat_of_ascii c in
  (32 <=? n) && (n <=? 126)
  && negb (Ascii.eqb c "034") && negb (Ascii.eqb c "092")
  && negb (Ascii.eqb c "<") && negb (Ascii.eqb c ">") && negb (Ascii.eqb c "&").

(** The longest prefix of [s] made of characters satisfying [p], and the rest. *)
Fixpoint span (p : ascii → bool) (s : string) : string * string :=
  match s with
  | String c s' =>
      if p c then let '(tok, rest) := span p s' in (String c tok, rest)
      else (EmptyString, s)
  | EmptyString => (EmptyString, EmptyString)
  end.

(** A string literal, after its opening quote. *)
Definition scan_string (s : string) : option (string * string) :=
  match span is_string_char s with
  | (body, String c rest) => if Ascii.eqb c "034" then Some (body, rest) else None
  | (_, EmptyString) => None
  end.

Definition scan_scalar (s : string) : option (string * string) :=
  let '(token, rest) := span is_scalar_char s in
  if scalar_ok token then Some (token, rest) else None.

(** Recursive descent; [fuel] bounds the depth of the calls.  [parse_elems]
    and [parse_members] read what follows the opening bracket when it is
    not the closing one. *)
Fixpoint parse_value (fuel : nat) (s : string) : option (jtree * string) :=
  match fuel with
  | O => None
  | S fuel =>
      match skip_ws s with
      | EmptyString => None
      | String c r =>
          if Ascii.eqb c "[" then
            match skip_ws r with
            | EmptyString => None
            | String c' r' =>
                if Ascii.eqb c' "]" then Some (JArray [], r')
                else '(es, r) ← parse_elems fuel r; Some (JArray es, r)
            end
          else if Ascii.eqb c "{" then
            match skip_ws r with
            | EmptyString => None
            | String c' r' =>
                if Ascii.eqb c' "}" then Some (JObject [], r')
                else '(ms, r) ← parse_members fuel r; Some (JObject ms, r)
            end
          else if Ascii.eqb c "034" then
            '(body, r) ← scan_string r; Some (JString body, r)
          else
            '(token, r) ← scan_scalar (String c r); Some (JScalar token, r)
      end
  end
with parse_elems (fuel : nat) (s : string) : option (list jtree * string) :=
  match fuel with
  | O => None
  | S fuel =>
      '(e, r) ← parse_value fuel s;
      match skip_ws r with
      | EmptyString => None
      | String c r =>
          if Ascii.eqb c "," then '(es, r) ← parse_elems fuel r; Some (e :: es, r)
          else if Ascii.eqb c "]" then Some ([e], r)
          else None
      end
  end
with parse_members (fuel : nat) (s : string)
  : option (list (string * jtree) * string) :=
  match fuel with
  | O => None
  | S fuel =>
      match skip_ws s with
      | EmptyString => None
      | String c r =>
          if Ascii.eqb c "034" then
            '(key, r) ← scan_string r;
            match skip_ws r with
            | EmptyString => None
            | String c r =>
                if Ascii.eqb c ":" then
                  '(v, r) ← parse_value fuel r;
                  match skip_ws r with
                  | EmptyString => None
                  | String c r =>
                      if Ascii.eqb c "," then
                        '(ms, r) ← parse_members fuel r; Some ((key, v) :: ms, r)
                      else if Ascii.eqb c "}" then Some ([(key, v)], r)
                      else None
                  end
                else None
            end
          else None
      end
  end.

(** What may follow a token made of characters satisfying [p]. *)
Definition stops (p : ascii → bool) (rest : string) : Prop :=
  match rest with
  | EmptyString => True
  | String c _ => p c = false
  end.

(** The first character of a printed value: not white space, not a
    closing bracket. *)
Definition head_ok (x : string) : Prop :=
  ∃ c x', x = String c x' ∧ is_ws c = false ∧
          Ascii.eqb c "]" = false ∧ Ascii.eqb c "}" = false.

(** A whole text: one value, white space around it. *)
Definition parse (s : string) : option jtree :=
  '(t, r) ← parse_value (S (String.length s)) s;
  if decide (skip_ws r = EmptyString) then Some t else None.

(** The layout of [json.Indent]: a new line starts with [prefix] and one
    [indent] for each level of nesting. *)
Fixpoint repeat_string (n : nat) (s : string) : string :=
  match n with
  | O => EmptyString
  | S n => s +:+ repeat_string n s
  end.

Definition newline (prefix indent : string) (depth : nat) : string :=
  LF +:+ prefix +:+ repeat_string depth indent.

(** The elements of an array that is not empty, one per line, [pr] printing
    an element; [close] ends the last line and [sep] each of the others. *)
Fixpoint print_elems (pr : jtree → string) (close sep : string) (es : list jtree)
  : string :=
  match es with
  | [] => EmptyString
  | e :: es =>
      pr e +:+
      match es with
      | [] => close
      | _ => sep +:+ print_elems pr close sep es
      end
  end.

(** The members of an object that is not empty. *)
Fixpoint print_members (pr : jtree → string) (close sep : string)
  (ms : list (string * jtree)) : string :=
  match ms with
  | [] => EmptyString
  | (key, v) :: ms =>
      DQUOTE +:+ key +:+ DQUOTE +:+ ": " +:+ pr v +:+
      match ms with
      | [] => close
      | _ => sep +:+ print_members pr close sep ms
      end
  end.

Fixpoint print (prefix indent : string) (depth : nat) (t : jtree) {struct t} : string :=
  match t with
  | JScalar token => token
  | JString body => DQUOTE +:+ body +:+ DQUOTE
  | JArray [] => "[]"
  | JArray elems =>
      "[" +:+ newline prefix indent (S depth) +:+
      print_elems (print prefix indent (S depth))
                  (newline prefix indent depth +:+ "]")
                  ("," +:+ newline prefix indent (S depth)) elems
  | JObject [] => "{}"
  | JObject members =>
      "{" +:+ newline prefix indent (S depth) +:+
      print_members (print prefix indent (S depth))
                    (newline prefix indent depth +:+ "}")
                    ("," +:+ newline prefix indent (S depth)) members
  end.

Definition Valid (data : string) : bool :=
  match parse data with Some _ => true | None => false end.

Definition Unmarshal_RawMessage (data : string) : result json.RawMessage :=
  if Valid data then Ok data else Err (ErrLib "json: invalid text").

Definition MarshalIndent_RawMessage (j : json.RawMessage) (prefix indent : string)
  : result string :=
  match parse j with
  | Some t => Ok (print prefix indent 0 t)
  | None => Err (ErrLib "json: error calling MarshalJSON for type json.RawMessage")
  end.

(** *** encoding/json: decoding into [any] and encoding it back *)

Local Open Scope Z_scope.

Definition digit_value (c : ascii) : Z := Z.of_nat (nat_of_ascii c) - 48.

Fixpoint natural_value (acc : Z) (s : string) : Z :=
  match s with
  | EmptyString => acc
  | String c s' => natural_value (10 * acc + digit_value c) s'
  end.

(** The [float64] pattern of the integer of sign [neg] and magnitude [n]. *)
Definition float64_of_integer (neg : bool) (n : Z) : option float64 :=
  let sign := if neg then 2 ^ 63 else 0 in
  if decide (n = 0) then Some sign
  else if decide (n < 2 ^ 53) then
    let e := Z.log2 n in
    Some (sign + (e + 1023) * 2 ^ 52 + (n * 2 ^ (52 - e) - 2 ^ 52))
  else None.

(** The sign and the magnitude of a [float64] that is an integer. *)
Definition integer_of_float64 (f : float64) : option (bool * Z) :=
  let neg := Z.testbit f 63 in
  let e := Z.land (Z.shiftr f 52) 2047 in
  let m := Z.land f (2 ^ 52 - 1) in
  if decide (e = 0 ∧ m = 0) then Some (neg, 0)
  else if decide (1023 ≤ e ≤ 1075 ∧ (2 ^ 52 + m) `mod` 2 ^ (1075 - e) = 0) then
    Some (neg, (2 ^ 52 + m) `div` 2 ^ (1075 - e))
  else None.

Local Close Scope Z_scope.

Definition decode_scalar (token : string) : result value :=
  if String.eqb token "null" then Ok VNull
  else if String.eqb token "true" then Ok (VBool true)
  else if String.eqb token "false" then Ok (VBool false)
  else
    let '(neg, digits) :=
      match token with
      | String c digits => if Ascii.eqb c "-" then (true, digits) else (false, token)
      | EmptyString => (false, token)
      end in
    match float64_of_integer neg (natural_value 0 digits) with
    | Some f => Ok (VNumber f)
    | None => Err (ErrLib "json: number outside the fragment")
    end.

(** The last member given for a key is the one the map keeps. *)
Fixpoint decode (t : jtree) : result value :=
  match t with
  | JScalar token => decode_scalar token
  | JString body => Ok (VString body)
  | JArray elems => VArray <$> mapM decode elems
  | JObject members =>
      (λ kvs, VObject (list_to_map (reverse kvs))) <$>
      (fix decode_members (ms : list (string * jtree)) : result (list (string * value)) :=
         match ms with
         | [] => Ok []
         | (key, v) :: ms =>
             v ← decode v; kvs ← decode_members ms; Ok ((key, v) :: kvs)
         end) members
  end.

Fixpoint natural_digits (fuel : nat) (n : Z) (acc : string) : string :=
  match fuel with
  | O => acc
  | S fuel =>
      let acc := String (ascii_of_nat (Z.to_nat (48 + n `mod` 10)%Z)) acc in
      if decide (n < 10)%Z then acc else natural_digits fuel (n `div` 10)%Z acc
  end.

Definition encode_number (f : float64) : result string :=
  match integer_of_float64 f with
  | Some (neg, n) =>
      Ok ((if neg then "-" else EmptyString) +:+ natural_digits 20 n EmptyString)
  | None => Err (ErrLib "json: number outside the fragment")
  end.

(** The body of a string literal, escaped as [encoding/json] does. *)
Fixpoint escape (s : string) : result string :=
  match s with
  | EmptyString => Ok EmptyString
  | String c s' =>
      rest ← escape s';
      let n := nat_of_ascii c in
      if Ascii.eqb c "034" then Ok (BACKSLASH +:+ DQUOTE +:+ rest)
      else if Ascii.eqb c "092" then Ok (BACKSLASH +:+ BACKSLASH +:+ rest)
      else if Ascii.eqb c "010" then Ok (BACKSLASH +:+ "n" +:+ rest)
      else if Ascii.eqb c "013" then Ok (BACKSLASH +:+ "r" +:+ rest)
      else if Ascii.eqb c "009" then Ok (BACKSLASH +:+ "t" +:+ rest)
      else if Ascii.eqb c "<" then Ok (BACKSLASH +:+ "u003c" +:+ rest)
      else if Ascii.eqb c ">" then Ok (BACKSLASH +:+ "u003e" +:+ rest)
      else if Ascii.eqb c "&" then Ok (BACKSLASH +:+ "u0026" +:+ rest)
      else if (32 <=? n) && (n <=? 127) then Ok (String c rest)
      else Err (ErrLib "json: character outside the fragment")
  end.

Definition quoted (s : string) : result string :=
  body ← escape s; Ok (DQUOTE +:+ body +:+ DQUOTE).

(** The items of an array or an object, one per line. *)
Fixpoint lines_of (prefix indent : string) (depth : nat) (items : list string) : string :=
  match items with
  | [] => EmptyString
  | item :: items =>
      item +:+
      match items with
      | [] => newline prefix indent depth
      | _ => "," +:+ newline prefix indent (S depth) +:+ lines_of prefix indent depth items
      end
  end.

Definition key_le (a b : string * string) : Prop := String.le a.1 b.1.

Global Instance key_le_dec : RelDecision key_le.
Proof. intros a b. unfold key_le. apply _. Defined.

(** The keys of a map are written in increasing order. *)
Fixpoint encode (prefix indent : string) (depth : nat) (v : value) {struct v}
  : result string :=
  match v with
  | VNull => Ok "null"
  | VBool b => Ok (if b then "true" else "false")
  | VNumber f => encode_number f
  | VString s => quoted s
  | VArray x =>
      items ← mapM (encode prefix indent (S depth)) x;
      match items with
      | [] => Ok "[]"
      | _ => Ok ("[" +:+ newline prefix indent (S depth) +:+
                 lines_of prefix indent depth items +:+ "]")
      end
  | VObject x =>
      m ← map_sequence (encode prefix indent (S depth) <$> x);
      items ← mapM (λ kv : string * string, k ← quoted kv.1; Ok (k +:+ ": " +:+ kv.2))
                   (merge_sort key_le (map_to_list m));
      match items with
      | [] => Ok "{}"
      | _ => Ok ("{" +:+ newline prefix indent (S depth) +:+
                 lines_of prefix indent depth items +:+ "}")
      end
  end.

Definition MarshalIndent (v : value) (prefix indent : string) : result string :=
  encode prefix indent 0 v.

(** *** terraform-json: decoding a plan *)

(** The member of an object for a key: the last one given. *)
Fixpoint member (key : string) (ms : list (string * jtree)) : option jtree :=
  match ms with
  | [] => None
  | (k, v) :: ms =>
      match member key ms with
      | Some v' => Some v'
      | None => if String.eqb k key then Some v else None
      end
  end.

(** A field of type [string]: absent or [null] leaves it empty. *)
Definition string_field (key : string) (ms : list (string * jtree)) : result string :=
  match member key ms with
  | None | Some (JScalar "null") => Ok EmptyString
  | Some (JString s) => Ok s
  | Some _ => Err (ErrLib ("json: cannot unmarshal into Go struct field " +:+ key))
  end.

(** A field of type [interface{}]: absent leaves it nil. *)
Definition any_field (key : string) (ms : list (string * jtree)) : result value :=
  match member key ms with
  | None => Ok VNull
  | Some t => decode t
  end.

Definition decode_Actions (ms : list (string * jtree)) : result tfjson.Actions :=
  match member "actions" ms with
  | None | Some (JScalar "null") => Ok []
  | Some (JArray elems) =>
      mapM (λ t, match t with
                 | JString s => Ok s
                 | _ => Err (ErrLib "json: cannot unmarshal into Go value of type tfjson.Action")
                 end) elems
  | Some _ => Err (ErrLib "json: cannot unmarshal into Go struct field actions")
  end.

Definition decode_Change (t : jtree) : result tfjson.Change :=
  match t with
  | JObject ms =>
      actions ← decode_Actions ms;
      before ← any_field "before" ms;
      after ← any_field "after" ms;
      Ok {| tfjson.Actions_ := actions; tfjson.Before := before; tfjson.After := after |}
  | _ => Err (ErrLib "plan outside the fragment: change is not an object")
  end.

Definition decode_ResourceChange (t : jtree) : result tfjson.ResourceChange :=
  match t with
  | JObject ms =>
      address ← string_field "address" ms;
      type ← string_field "type" ms;
      name ← string_field "name" ms;
      match member "change" ms with
      | Some c =>
          change ← decode_Change c;
          Ok {| tfjson.Address := address; tfjson.Type_ := type;
                tfjson.Name := name; tfjson.Change_ := change |}
      | None => Err (ErrLib "plan outside the fragment: resource change without change")
      end
  | _ => Err (ErrLib "plan outside the fragment: resource change is not an object")
  end.

(** The format versions [Plan.Validate] is taken to accept. *)
Definition format_versions : list string := ["0.1"; "0.2"; "1.0"; "1.1"; "1.2"].

Definition decode_Plan (t : jtree) : result tfjson.Plan :=
  match t with
  | JObject ms =>
      version ← string_field "format_version" ms;
      if String.eqb version EmptyString then
        Err (ErrLib "unexpected plan input, format version is missing")
      else if negb (bool_decide (version ∈ format_versions)) then
        Err (ErrLib "unsupported plan format version")
      else
        match member "resource_changes" ms with
        | None | Some (JScalar "null") => Ok {| tfjson.ResourceChanges := [] |}
        | Some (JArray elems) =>
            rcs ← mapM decode_ResourceChange elems;
            Ok {| tfjson.ResourceChanges := rcs |}
        | Some _ =>
            Err (ErrLib "json: cannot unmarshal into Go struct field resource_changes")
        end
  | _ => Err (ErrLib "json: cannot unmarshal into Go value of type tfjson.Plan")
  end.

Definition Unmarshal_Plan (input : string) : result tfjson.Plan :=
  match parse input with
  | Some t => decode_Plan t
  | None => Err (ErrLib "json: invalid text")
  end.

#[export] Instance json_package : json.Package := {|
  json.Valid := Valid;
  json.Unmarshal_RawMessage := Unmarshal_RawMessage;
  json.MarshalIndent_RawMessage := MarshalIndent_RawMessage;
  json.MarshalIndent := MarshalIndent;
  json.Unmarshal_Plan := Unmarshal_Plan;
|}.

(** *** sanitize: nothing is marked sensitive *)

#[export] Instance sanitize_package : sanitize.Package := {|
  sanitize.SanitizePlan plan := Ok plan;
|}.

(** *** strings: the replacer *)

(** The replacement and what follows the match, for the first pair whose
    old string starts [s]. *)
Fixpoint match_pair (pairs : list (string * string)) (s : string)
  : option (string * string) :=
  match pairs with
  | [] => None
  | (old, new) :: pairs =>
      match template.drop_prefix old s with
      | Some rest => Some (new, rest)
      | None => match_pair pairs s
      end
  end.

Fixpoint Replace_go (fuel : nat) (pairs : list (string * string)) (s : string) : string :=
  match fuel with
  | O => s
  | S fuel =>
      match s with
      | EmptyString => EmptyString
      | String c s' =>
          match match_pair pairs s with
          | Some (new, rest) => new +:+ Replace_go fuel pairs rest
          | None => String c (Replace_go fuel pairs s')
          end
      end
  end.

#[export] Instance strings_package : strings.Package := {|
  strings.Replace pairs s := Replace_go (String.length s) pairs s;
|}.

(** *** difflib *)

(** [strings.SplitAfter(s, LF)] *)
Fixpoint split_after_LF (cur : string) (s : string) : list string :=
  match s with
  | EmptyString => [String.rev cur]
  | String c s' =>
      if Ascii.eqb c "010" then String.rev (String c cur) :: split_after_LF EmptyString s'
      else split_after_LF (String c cur) s'
  end.

(** The last line gets a line feed, too. *)
Definition SplitLines (s : string) : list string :=
  match reverse (split_after_LF EmptyString s) with
  | l :: ls => reverse ((l +:+ LF) :: ls)
  | [] => []
  end.

(** The common prefix of two lists, and what remains of each. *)
Fixpoint common_prefix (a b : list string)
  : list string * (list string * list string) :=
  match a, b with
  | x :: a', y :: b' =>
      if String.eqb x y then
        let '(p, r) := common_prefix a' b' in (x :: p, r)
      else ([], (a, b))
  | _, _ => ([], (a, b))
  end.

(** [formatRangeUnified] *)
Definition formatRangeUnified (start stop : nat) : string :=
  let beginning := start + 1 in
  let length := stop - start in
  if length =? 1 then template.itoa beginning
  else
    let beginning := if length =? 0 then beginning - 1 else beginning in
    template.itoa beginning +:+ "," +:+ template.itoa length.

Definition prefixed (mark : string) (lines : list string) : string :=
  foldr (λ l acc, mark +:+ l +:+ acc) EmptyString lines.

Definition GetUnifiedDiffString (d : difflib.UnifiedDiff) : result string :=
  let '(pre, (a, b)) := common_prefix (difflib.A d) (difflib.B d) in
  let '(suf, (del, ins)) := common_prefix (reverse a) (reverse b) in
  let '(suf, del, ins) := (reverse suf, reverse del, reverse ins) in
  match del, ins with
  | [], [] => Ok EmptyString
  | _, _ =>
      let before := drop (length pre - difflib.Context d) pre in
      let after := take (difflib.Context d) suf in
      let i1 := length pre - length before in
      let i2 := length pre + length del + length after in
      let j2 := length pre + length ins + length after in
      Ok ("@@ -" +:+ formatRangeUnified i1 i2 +:+ " +" +:+ formatRangeUnified i1 j2
          +:+ " @@" +:+ LF +:+ prefixed " " before +:+ prefixed "-" del
          +:+ prefixed "+" ins +:+ prefixed " " after)
  end.

#[export] Instance difflib_package : difflib.Package := {|
  difflib.SplitLines := SplitLines;
  difflib.GetUnifiedDiffString := GetUnifiedDiffString;
|}.

#[export] Instance imports : Imports := {|
  imp_actions := actions;
  imp_json := json_package;
  imp_sanitize := sanitize_package;
  imp_strings := strings_package;
  imp_difflib := difflib_package;
|}.

End ref.

(** The parsed template. *)
Definition planTemplate : list template.node :=
  Eval vm_compute in
    match template.Parse ["codeFence"; "len"] planTemplateBody with
    | Ok t => t
    | Err _ => []
    end.

(** The functions the template may call: [funcMap] and the builtins. *)
Definition funcMap `{!Imports} : template.FuncMap :=
  [("codeFence", codeFence)] ++ template.builtins.

(** ** The classification and the report, as the specification words them *)

Section spec.
Context `{!Imports}.

(** A resource change that is not skipped: its actions are neither a
    no-op nor a read. *)
Definition retained (c : tfjson.ResourceChange) : bool :=
  let a := tfjson.Actions_ (tfjson.Change_ c) in
  negb (tfjson.NoOp a) && negb (tfjson.Read a).

(** The list a retained resource change goes to: the first match among
    create, update, delete and replace. *)
Definition to_created (c : tfjson.ResourceChange) : bool :=
  let a := tfjson.Actions_ (tfjson.Change_ c) in
  retained c && tfjson.Create a.

Definition to_updated (c : tfjson.ResourceChange) : bool :=
  let a := tfjson.Actions_ (tfjson.Change_ c) in
  retained c && negb (tfjson.Create a) && tfjson.Update a.

Definition to_deleted (c : tfjson.ResourceChange) : bool :=
  let a := tfjson.Actions_ (tfjson.Change_ c) in
  retained c && negb (tfjson.Create a) && negb (tfjson.Update a) && tfjson.Delete a.

Definition to_replaced (c : tfjson.ResourceChange) : bool :=
  let a := tfjson.Actions_ (tfjson.Change_ c) in
  retained c && negb (tfjson.Create a) && negb (tfjson.Update a)
  && negb (tfjson.Delete a) && tfjson.Replace a.

(** Matching one of create, update, delete and replace. *)
Definition matches_one (c : tfjson.ResourceChange) : bool :=
  let a := tfjson.Actions_ (tfjson.Change_ c) in
  tfjson.Create a || tfjson.Update a || tfjson.Delete a || tfjson.Replace a.

(** Two resource changes that differ at most by their before and after
    values, as a change and its sanitized copy do. *)
Definition same_shape (c c' : tfjson.ResourceChange) : Prop :=
  tfjson.Address c = tfjson.Address c' ∧
  tfjson.Type_ c = tfjson.Type_ c' ∧
  tfjson.Name c = tfjson.Name c' ∧
  tfjson.Actions_ (tfjson.Change_ c) = tfjson.Actions_ (tfjson.Change_ c').

(** The union of the four address lists. *)
Definition all_addresses (p : PlanData) : list string :=
  CreatedAddresses p ++ UpdatedAddresses p ++ DeletedAddresses p ++ ReplacedAddresses p.

(** The four address lists have no address in common, two by two. *)
Definition pairwise_disjoint (p : PlanData) : Prop :=
  CreatedAddresses p ## UpdatedAddresses p ∧
  CreatedAddresses p ## DeletedAddresses p ∧
  CreatedAddresses p ## ReplacedAddresses p ∧
  UpdatedAddresses p ## DeletedAddresses p ∧
  UpdatedAddresses p ## ReplacedAddresses p ∧
  DeletedAddresses p ## ReplacedAddresses p.

(** The Normalizer: a string that is valid JSON is written again with two
    spaces of indentation, an array and an object are normalised element by
    element, anything else is kept. *)
Definition reencoded (s : string) : string :=
  match json.Unmarshal_RawMessage s with
  | Ok j =>
      match json.MarshalIndent_RawMessage j "" "  " with
      | Ok a => a
      | Err _ => s
      end
  | Err _ => s
  end.

Fixpoint normalize (v : value) : value :=
  match v with
  | VArray x => VArray (normalize <$> x)
  | VObject x => VObject (normalize <$> x)
  | VString s => if json.Valid s then VString (reencoded s) else v
  | _ => v
  end.

(** The summary line. *)
Definition summary_line (p : PlanData) : string :=
  "### " +:+ template.itoa (length (CreatedAddresses p)) +:+ " to add, "
  +:+ template.itoa (length (UpdatedAddresses p)) +:+ " to change, "
  +:+ template.itoa (length (DeletedAddresses p)) +:+ " to destroy, "
  +:+ template.itoa (length (ReplacedAddresses p)) +:+ " to replace.".

(** One bullet per address, in list order. *)
Definition bullets (addresses : list string) : string :=
  foldr (λ a acc, LF +:+ "    - " +:+ a +:+ acc) EmptyString addresses.

(** A section, when its address list is not empty. *)
Definition address_section (title : string) (addresses : list string) : string :=
  match addresses with
  | [] => EmptyString
  | _ => LF +:+ "- " +:+ title +:+ bullets addresses
  end.

Definition address_sections (p : PlanData) : string :=
  address_section "add" (CreatedAddresses p)
  +:+ address_section "change" (UpdatedAddresses p)
  +:+ address_section "destroy" (DeletedAddresses p)
  +:+ address_section "replace" (ReplacedAddresses p).

(** The diff block of a retained change, given its diff. *)
Definition diff_block (r : ResourceChangeData) (diffText : string) : string :=
  LF +:+ "````````diff" +:+ LF
  +:+ "# " +:+ tfjson.Type_ (ResourceChange r) +:+ "." +:+ tfjson.Name (ResourceChange r)
  +:+ " " +:+ ResourceChangeData__HeaderSuffix r +:+ LF
  +:+ diffText +:+ "````````" +:+ LF.

(** The diff blocks of the retained changes, in list order, up to the first
    one whose diff fails. *)
Fixpoint diff_blocks (rs : list ResourceChangeData) (w : string) : template.written :=
  match rs with
  | [] => (w, None)
  | r :: rs =>
      match ResourceChangeData__GetUnifiedDiffString r with
      | Ok diffText => diff_blocks rs (w +:+ diff_block r diffText)
      | Err err =>
          (w +:+ LF +:+ "````````diff" +:+ LF
           +:+ "# " +:+ tfjson.Type_ (ResourceChange r) +:+ "."
           +:+ tfjson.Name (ResourceChange r)
           +:+ " " +:+ ResourceChangeData__HeaderSuffix r +:+ LF, Some err)
      end
  end.

(** The "Change details" part, when a change is retained. *)
Definition details (rs : list ResourceChangeData) (w : string) : template.written :=
  match rs with
  | [] => (w, None)
  | _ =>
      match diff_blocks rs (w +:+ "<details><summary>Change details</summary>" +:+ LF) with
      | (w, None) => (w +:+ LF +:+ "</details>" +:+ LF, None)
      | stopped => stopped
      end
  end.

(** The whole report. *)
Definition report (p : PlanData) : template.written :=
  match details (ResourceChanges p)
                (summary_line p +:+ address_sections p +:+ LF) with
  | (w, Some err) => (w, Some (ErrWrap "failed to render template: " err))
  | (w, None) => (w, None)
  end.

End spec.

(** The text before the first line feed. *)
Fixpoint first_line (s : string) : string :=
  match s with
  | EmptyString => EmptyString
  | String c s' => if Ascii.eqb c "010" then EmptyString else String c (first_line s')
  end.

(** A text without a line feed. *)
Fixpoint no_LF (s : string) : bool :=
  match s with
  | EmptyString => true
  | String c s' => negb (Ascii.eqb c "010") && no_LF s'
  end.

(** The lines of a text. *)
Fixpoint lines_go (cur : string) (s : string) : list string :=
  match s with
  | EmptyString => [String.rev cur]
  | String c s' =>
      if Ascii.eqb c "010" then String.rev cur :: lines_go EmptyString s'
      else lines_go (String c cur) s'
  end.

Definition lines (s : string) : list string := lines_go EmptyString s.



(** ** What the further properties speak of *)

(** The strings held in a value, at any depth. *)
Fixpoint strings_of (v : value) : list string :=
  match v with
  | VString s => [s]
  | VArray x => mjoin (strings_of <$> x)
  | VObject x => mjoin (map_to_list (strings_of <$> x)).*2
  | _ => []
  end.

(** A value with the text of its strings erased. *)
Fixpoint skeleton (v : value) : value :=
  match v with
  | VString _ => VString EmptyString
  | VArray x => VArray (skeleton <$> x)
  | VObject x => VObject (skeleton <$> x)
  | _ => v
  end.

Section format_defs.
Context `{!json.Package}.

(** A string that [format] hands to [json.MarshalIndent], which returns
    [err] for it. *)
Definition refused (s : string) (err : error) : Prop :=
  json.Valid s = true ∧
  ∃ j, json.Unmarshal_RawMessage s = Ok j ∧
       json.MarshalIndent_RawMessage j "" "  " = Err err.

(** A string that [format] returns as it is. *)
Definition plain (s : string) : Prop :=
  json.Valid s = false ∨ ∃ e, json.Unmarshal_RawMessage s = Err e.

End format_defs.

Section after_format_defs.
Context `{!Imports}.

(** What a before or after field holds once [formatJsonString] returned
    [nil]: a slice or a map was rewritten in place by [format], anything
    else is the value the field had. *)
Definition field_after_format (v : value) : value :=
  match v with
  | VArray _ | VObject _ => normalize v
  | _ => v
  end.

Definition record_after_format (r : ResourceChangeData) : ResourceChangeData :=
  let rc := ResourceChange r in
  let c := tfjson.Change_ rc in
  {| ResourceChange :=
       {| tfjson.Address := tfjson.Address rc;
          tfjson.Type_ := tfjson.Type_ rc;
          tfjson.Name := tfjson.Name rc;
          tfjson.Change_ :=
            {| tfjson.Actions_ := tfjson.Actions_ c;
               tfjson.Before := field_after_format (tfjson.Before c);
               tfjson.After := field_after_format (tfjson.After c) |} |} |}.

(** The addresses of the retained changes whose header has this suffix. *)
Definition with_suffix (suffix : string) (rs : list ResourceChangeData) : list string :=
  tfjson.Address ∘ ResourceChange <$>
    filter (λ r, ResourceChangeData__HeaderSuffix r = suffix) rs.

End after_format_defs.

Section render_defs.
Context `{!Imports}.



End render_defs.

(** Two retained changes with the same type, name and change; their
    addresses may differ. *)
Definition same_block (r r' : ResourceChangeData) : Prop :=
  tfjson.Type_ (ResourceChange r) = tfjson.Type_ (ResourceChange r') ∧
  tfjson.Name (ResourceChange r) = tfjson.Name (ResourceChange r') ∧
  tfjson.Change_ (ResourceChange r) = tfjson.Change_ (ResourceChange r').

(** The lines of a section of the report: its title, then one bullet per
    address; none when the list is empty. *)
Definition section_lines (title : string) (addresses : list string) : list string :=
  match addresses with
  | [] => []
  | _ => ("- " +:+ title) :: ((λ a, "    - " +:+ a) <$> addresses)
  end.

(** ** Example plans *)

Module examples.

Definition q (s : string) : string := DQUOTE +:+ s +:+ DQUOTE.

Fixpoint join (sep : string) (l : list string) : string :=
  match l with
  | [] => EmptyString
  | [x] => x
  | x :: l => x +:+ sep +:+ join sep l
  end.

(** The JSON text of a resource change; [before] and [after] are JSON texts. *)
Definition change_json (address type name : string) (actions : list string)
  (before after : string) : string :=
  "{" +:+ q "address" +:+ ":" +:+ q address +:+ ","
  +:+ q "type" +:+ ":" +:+ q type +:+ ","
  +:+ q "name" +:+ ":" +:+ q name +:+ ","
  +:+ q "change" +:+ ":{" +:+ q "actions" +:+ ":[" +:+ join "," (q <$> actions) +:+ "],"
  +:+ q "before" +:+ ":" +:+ before +:+ "," +:+ q "after" +:+ ":" +:+ after +:+ "}}".

(** The JSON text of a plan with these resource changes. *)
Definition plan_json (changes : list string) : string :=
  "{" +:+ q "format_version" +:+ ":" +:+ q "1.2" +:+ ","
  +:+ q "resource_changes" +:+ ":[" +:+ join "," changes +:+ "]}".

Definition ami (id : string) : string := "{" +:+ q "ami" +:+ ":" +:+ q id +:+ "}".

Definition create_foo : string :=
  change_json "aws_instance.foo" "aws_instance" "foo" ["create"] "null" (ami "abc").

Definition noop_bar : string :=
  change_json "aws_instance.bar" "aws_instance" "bar" ["no-op"] (ami "abc") (ami "abc").

Definition update_baz : string :=
  change_json "aws_instance.baz" "aws_instance" "baz" ["update"] (ami "abc") (ami "xyz").

Definition delete_qux : string :=
  change_json "aws_instance.qux" "aws_instance" "qux" ["delete"] (ami "abc") "null".

Definition replace_web : string :=
  change_json "aws_instance.web" "aws_instance" "web" ["delete"; "create"] (ami "abc") (ami "xyz").

(** A resource that is removed from the state without being destroyed. *)
Definition forget_old : string :=
  change_json "aws_instance.old" "aws_instance" "old" ["forget"] (ami "abc") "null".

(** The current object of a resource and a deposed object of the same
    resource share their address. *)
Definition update_dup : string :=
  change_json "aws_instance.dup" "aws_instance" "dup" ["update"] (ami "abc") (ami "xyz").

Definition delete_dup : string :=
  change_json "aws_instance.dup" "aws_instance" "dup" ["delete"] (ami "old") "null".

(** An after value that is a string holding JSON. *)
Definition create_raw : string :=
  change_json "null_resource.raw" "null_resource" "raw" ["create"] "null" (q "[1,2]").

(** A string holding JSON inside the after value. *)
Definition create_nested : string :=
  change_json "aws_instance.app" "aws_instance" "app" ["create"] "null"
    ("{" +:+ q "user_data" +:+ ":" +:+ q "[1,{}]" +:+ "}").

Definition mixed_plan : string :=
  plan_json [create_foo; noop_bar; update_baz; delete_qux; replace_web].

Definition mixed_plan_without_noop : string :=
  plan_json [create_foo; update_baz; delete_qux; replace_web].

Definition forget_plan : string := plan_json [forget_old].

Definition deposed_plan : string := plan_json [update_dup; delete_dup].

Definition raw_plan : string := plan_json [create_raw].

(** A plan whose only change creates a resource with a list as value. *)
Definition list_plan : string :=
  plan_json [change_json "terraform_data.ports" "terraform_data" "ports" ["create"]
                         "null" "[80,443]"].

Definition nested_plan : string := plan_json [create_nested].

(** The decoded resource changes of [mixed_plan]. *)
Definition object (members : list (string * value)) : value :=
  VObject (list_to_map members).

Definition change_of (address type name : string) (actions : list string)
  (before after : value) : tfjson.ResourceChange :=
  {| tfjson.Address := address; tfjson.Type_ := type; tfjson.Name := name;
     tfjson.Change_ := {| tfjson.Actions_ := actions;
                          tfjson.Before := before; tfjson.After := after |} |}.

Definition create_foo_change : tfjson.ResourceChange :=
  change_of "aws_instance.foo" "aws_instance" "foo" ["create"]
            VNull (object [("ami", VString "abc")]).



Definition delete_qux_change : tfjson.ResourceChange :=
  change_of "aws_instance.qux" "aws_instance" "qux" ["delete"]
            (object [("ami", VString "abc")]) VNull.

Definition replace_web_change : tfjson.ResourceChange :=
  change_of "aws_instance.web" "aws_instance" "web" ["delete"; "create"]
            (object [("ami", VString "abc")]) (object [("ami", VString "xyz")]).


Definition forget_old_change : tfjson.ResourceChange :=
  change_of "aws_instance.old" "aws_instance" "old" ["forget"]
            (object [("ami", VString "abc")]) VNull.

(** A value with strings at several depths. *)
Definition sample_value : value :=
  VArray [VString "[1,{}]"; VString "x"; VNumber 0%Z; object [("k", VString "true ")]].

(** A value none of whose strings is JSON. *)
Definition plain_value : value :=
  VArray [VString "x"; VBool true; object [("k", VString "not json")]].

(** The not-a-number of [float64], which [json.MarshalIndent] refuses. *)
Definition NaN : float64 := 0x7FF8000000000000%Z.

Definition nan_change : tfjson.ResourceChange :=
  change_of "aws_instance.nan" "aws_instance" "nan" ["update"]
            (object [("cpu", VNumber NaN)]) (object [("cpu", VNumber 0%Z)]).

(** Plan data made by hand: a change that renders, then one that does not. *)
Definition nan_plan_data : PlanData :=
  {| CreatedAddresses := ["aws_instance.foo"];
     UpdatedAddresses := ["aws_instance.nan"];
     DeletedAddresses := [];
     ReplacedAddresses := [];
     ResourceChanges := [{| ResourceChange := create_foo_change |};
                         {| ResourceChange := nan_change |};
                         {| ResourceChange := delete_qux_change |}] |}.

(** The plan data of a plan that creates [aws_instance.foo] at the root,
    and the same with the resource inside a module. *)
Definition root_plan_data : PlanData :=
  {| CreatedAddresses := ["aws_instance.foo"];
     UpdatedAddresses := []; DeletedAddresses := []; ReplacedAddresses := [];
     ResourceChanges := [{| ResourceChange := create_foo_change |}] |}.

Definition module_plan_data : PlanData :=
  {| CreatedAddresses := ["aws_instance.foo"];
     UpdatedAddresses := []; DeletedAddresses := []; ReplacedAddresses := [];
     ResourceChanges :=
       [{| ResourceChange :=
             change_of "module.app.aws_instance.foo" "aws_instance" "foo" ["create"]
                       VNull (object [("ami", VString "abc")]) |}] |}.

(** A plan whose only change is a no-op. *)
Definition noop_plan : string := plan_json [noop_bar].

(** An [encoding/json] whose [MarshalIndent] refuses every raw message,
    the rest being the reference implementation: it runs the error paths
    of [format]. *)
Definition refusing_json : json.Package := {|
  json.Valid := ref.Valid;
  json.Unmarshal_RawMessage := ref.Unmarshal_RawMessage;
  json.MarshalIndent_RawMessage :=
    λ j _ _, Err (ErrLib ("json: error calling MarshalJSON for " +:+ j));
  json.MarshalIndent := ref.MarshalIndent;
  json.Unmarshal_Plan := ref.Unmarshal_Plan;
|}.

Definition refusing_imports : Imports := {|
  imp_actions := ref.actions;
  imp_json := refusing_json;
  imp_sanitize := ref.sanitize_package;
  imp_strings := ref.strings_package;
  imp_difflib := ref.difflib_package;
|}.

(** The after values of the retained changes. *)
Definition after_values (pd : PlanData) : list value :=
  (λ r, tfjson.After (tfjson.Change_ (ResourceChange r))) <$> ResourceChanges pd.

End examples.

(** ** The claims that fail, as the specification states them *)

(** C1 as stated: the union of the four address lists is the set of the
    addresses of the resource changes whose actions are neither a no-op nor
    a read, and the four lists are pairwise disjoint. *)
Definition classification_as_stated (I : Imports) (input : string) : Prop :=
  ∀ pd plan sanitizedPlan,
    NewPlanData input = Ok pd →
    json.Unmarshal_Plan input = Ok plan →
    sanitize.SanitizePlan plan = Ok sanitizedPlan →
    (∀ a, a ∈ all_addresses pd ↔
          ∃ c, c ∈ tfjson.ResourceChanges sanitizedPlan ∧ tfjson.Address c = a ∧
               retained c = true) ∧
    pairwise_disjoint pd.
(** * Proofs *)

(** ** Results and traversals *)

Lemma mapM_Ok {A B} (f : A → result B) (l : list A) (k : list B) :
  mapM f l = Ok k ↔ Forall2 (λ x y, f x = Ok y) l k.
Proof.
  revert k. induction l as [|x l IH]; intros k; simpl.
  - split.
    + intros [= <-]. constructor.
    + intros Hk. inversion Hk. reflexivity.
  - unfold mbind, result_bind, mret, result_ret. destruct (f x) as [y|e] eqn:Hx.
    + fold (mapM f l). destruct (mapM f l) as [k'|e] eqn:Hl.
      * split.
        -- intros [= <-]. constructor; [done|]. by apply IH.
        -- intros Hk. inversion Hk as [|? y' ? k'' Hy Hk']; subst.
           apply IH in Hk'. congruence.
      * split; [done|]. intros Hk. inversion Hk as [|? y' ? k'' Hy Hk']; subst.
        apply IH in Hk'. congruence.
    + split; [done|]. intros Hk. inversion Hk; congruence.
Qed.

Lemma mapM_is_Ok {A B} (f : A → result B) (l : list A) :
  (∀ x, x ∈ l → is_Ok (f x)) → is_Ok (mapM f l).
Proof.
  induction l as [|x l IH]; intros Hl; simpl.
  - by eexists.
  - destruct (Hl x) as [y Hy]; [left|]. rewrite Hy. simpl.
    destruct IH as [k Hk]; [intros; apply Hl; by right|].
    fold (mapM f l). rewrite Hk. by eexists.
Qed.

(** ** Induction on values *)

Lemma map_fold_sum_ge (m : gmap string nat) (k : string) (n : nat) :
  m !! k = Some n → n ≤ map_fold (λ _ n acc, n + acc) 0 m.
Proof.
  revert k n.
  apply (map_fold_weak_ind (λ r m, ∀ k n, m !! k = Some n → n ≤ r)).
  - intros k n Hk. by rewrite lookup_empty in Hk.
  - intros i x m' r Hi IH k n Hk.
    destruct (decide (i = k)) as [->|Hne].
    + rewrite lookup_insert_eq in Hk. injection Hk as ->. lia.
    + rewrite lookup_insert_ne in Hk by done. specialize (IH k n Hk). lia.
Qed.

Lemma sum_list_ge (l : list nat) (n : nat) : n ∈ l → n ≤ sum_list l.
Proof.
  induction l as [|x l IH]; [by intros ?%elem_of_nil|].
  intros [->|Hn]%elem_of_cons; simpl; [lia|]. specialize (IH Hn). lia.
Qed.

Lemma value_ind' (P : value → Prop) :
  P VNull →
  (∀ b, P (VBool b)) →
  (∀ f, P (VNumber f)) →
  (∀ s, P (VString s)) →
  (∀ x, Forall P x → P (VArray x)) →
  (∀ x, map_Forall (λ _, P) x → P (VObject x)) →
  ∀ v, P v.
Proof.
  intros Hnull Hbool Hnum Hstr Harr Hobj v.
  remember (value_size v) as n eqn:Hn. revert v Hn.
  induction n as [n IH] using lt_wf_ind. intros v ->.
  destruct v as [|b|f|s|x|x]; auto.
  - apply Harr, Forall_forall. intros v Hv. apply (IH (value_size v)); [|done].
    cbn [value_size]. apply Nat.lt_succ_r, sum_list_ge, list_elem_of_fmap. eauto.
  - apply Hobj. intros k v Hv. apply (IH (value_size v)); [|done].
    cbn [value_size]. apply Nat.lt_succ_r, (map_fold_sum_ge _ k).
    by rewrite lookup_fmap, Hv.
Qed.

(** ** Sequencing a map of results *)

Lemma map_sequence_Ok {A} (m : gmap string (result A)) (m' : gmap string A) :
  map_sequence m = Ok m' ↔ m = Ok <$> m'.
Proof.
  revert m'. unfold map_sequence.
  apply (map_fold_weak_ind (λ r m, ∀ m', r = Ok m' ↔ m = Ok <$> m')).
  - intros m'. split.
    + intros [= <-]. by rewrite fmap_empty.
    + intros Hm'. symmetry in Hm'. apply fmap_empty_inv in Hm'. by subst.
  - intros i x m0 r Hi IH m'. split.
    + destruct r as [m1|e]; [|done]. destruct x as [a|e]; [|done].
      intros [= <-]. rewrite fmap_insert. f_equal. by apply IH.
    + intros Hm'.
      assert (m0 = Ok <$> delete i m') as Hm0.
      { rewrite fmap_delete, <- Hm'. by rewrite delete_insert_id. }
      apply IH in Hm0 as ->.
      assert (Some x = Ok <$> m' !! i) as Hx.
      { rewrite <- lookup_fmap, <- Hm'. by rewrite lookup_insert_eq. }
      destruct (m' !! i) as [a|] eqn:Ha; [|done]. injection Hx as ->.
      f_equal. by rewrite insert_delete_id.
Qed.

Lemma map_sequence_is_Ok {A} (m : gmap string (result A)) :
  map_Forall (λ _ r, is_Ok r) m → is_Ok (map_sequence m).
Proof.
  intros Hm.
  exists (omap (λ r, match r with Ok a => Some a | Err _ => None end) m).
  apply map_sequence_Ok. apply map_eq. intros k.
  rewrite lookup_fmap, lookup_omap.
  destruct (m !! k) as [r|] eqn:Hk; [|done].
  destruct (Hm k r Hk) as [a ->]. done.
Qed.

(** ** The loop of [NewPlanData] *)

Section loop_facts.
Context `{!Imports}.

Lemma loop_spec rcs p :
  foldl NewPlanData_loop p rcs =
  {| CreatedAddresses := CreatedAddresses p ++ (tfjson.Address <$> filter to_created rcs);
     UpdatedAddresses := UpdatedAddresses p ++ (tfjson.Address <$> filter to_updated rcs);
     DeletedAddresses := DeletedAddresses p ++ (tfjson.Address <$> filter to_deleted rcs);
     ReplacedAddresses := ReplacedAddresses p ++ (tfjson.Address <$> filter to_replaced rcs);
     ResourceChanges := ResourceChanges p ++ (Build_ResourceChangeData <$> filter retained rcs) |}.
Proof.
  revert p. induction rcs as [|c rcs IH]; intros p; simpl.
  - rewrite !app_nil_r. by destruct p.
  - rewrite IH. rewrite !filter_cons.
    unfold NewPlanData_loop, to_created, to_updated, to_deleted, to_replaced, retained.
    destruct (tfjson.NoOp _), (tfjson.Read _); simpl; try done.
    destruct (tfjson.Create _); simpl.
    { rewrite <- !app_assoc. done. }
    destruct (tfjson.Update _); simpl.
    { rewrite <- !app_assoc. done. }
    destruct (tfjson.Delete _); simpl.
    { rewrite <- !app_assoc. done. }
    destruct (tfjson.Replace _); simpl.
    { rewrite <- !app_assoc. done. }
    rewrite <- !app_assoc. done.
Qed.

End loop_facts.

(** ** What [formatJsonString] keeps *)

Section format_facts.
Context `{!Imports}.

Lemma ResourceChangeData__formatJsonString_Ok r r' :
  ResourceChangeData__formatJsonString r = Ok r' →
  ∃ before after,
    ResourceChangeData__format (tfjson.Before (tfjson.Change_ (ResourceChange r))) = Ok before ∧
    ResourceChangeData__format (tfjson.After (tfjson.Change_ (ResourceChange r))) = Ok after ∧
    tfjson.Address (ResourceChange r') = tfjson.Address (ResourceChange r) ∧
    tfjson.Type_ (ResourceChange r') = tfjson.Type_ (ResourceChange r) ∧
    tfjson.Name (ResourceChange r') = tfjson.Name (ResourceChange r) ∧
    tfjson.Actions_ (tfjson.Change_ (ResourceChange r')) =
      tfjson.Actions_ (tfjson.Change_ (ResourceChange r)) ∧
    tfjson.Before (tfjson.Change_ (ResourceChange r')) =
      seen_by_caller (tfjson.Before (tfjson.Change_ (ResourceChange r))) before ∧
    tfjson.After (tfjson.Change_ (ResourceChange r')) =
      seen_by_caller (tfjson.After (tfjson.Change_ (ResourceChange r))) after.
Proof.
  unfold ResourceChangeData__formatJsonString.
  destruct (ResourceChangeData__format (tfjson.Before _)) as [b|e]; [|done].
  destruct (ResourceChangeData__format (tfjson.After _)) as [a|e]; [|done].
  intros [= <-]. exists b, a. simpl. tauto.
Qed.

(** Where re-encoding does not fail, [format] returns the normalised
    value. *)
Lemma format_normalize :
  (∀ s j, json.Valid s = true → json.Unmarshal_RawMessage s = Ok j →
          is_Ok (json.MarshalIndent_RawMessage j "" "  ")) →
  ∀ v, ResourceChangeData__format v = Ok (normalize v).
Proof.
  intros Hlaw. induction v as [|b|f|s|x IH|x IH] using value_ind'; try done.
  - cbn [ResourceChangeData__format normalize]. unfold reencoded.
    destruct (json.Valid s) eqn:Hvalid; cbn [negb]; [|done].
    destruct (json.Unmarshal_RawMessage s) as [j|e] eqn:Hj; [|done].
    destruct (Hlaw s j Hvalid Hj) as [a ->]. done.
  - cbn [ResourceChangeData__format normalize].
    assert (mapM ResourceChangeData__format x = Ok (normalize <$> x)) as ->; [|done].
    apply mapM_Ok. induction IH as [|v x Hv _ IHx]; constructor; done.
  - cbn [ResourceChangeData__format normalize].
    assert (map_sequence (ResourceChangeData__format <$> x) = Ok (normalize <$> x))
      as ->; [|done].
    apply map_sequence_Ok, map_eq. intros k. rewrite !lookup_fmap.
    destruct (x !! k) as [v|] eqn:Hv; [|done]. cbn. f_equal. by eapply IH.
Qed.

(** A before or after value that is a string is left as it is, whatever
    [format] returns for it. *)
Lemma formatJsonString_keeps_string r r' :
  ResourceChangeData__formatJsonString r = Ok r' →
  (∀ s, tfjson.Before (tfjson.Change_ (ResourceChange r)) = VString s →
        tfjson.Before (tfjson.Change_ (ResourceChange r')) = VString s) ∧
  (∀ s, tfjson.After (tfjson.Change_ (ResourceChange r)) = VString s →
        tfjson.After (tfjson.Change_ (ResourceChange r')) = VString s).
Proof.
  intros (b & a & _ & _ & _ & _ & _ & _ & Hb & Ha)%ResourceChangeData__formatJsonString_Ok.
  split; intros s Hs.
  - rewrite Hb, Hs. reflexivity.
  - rewrite Ha, Hs. reflexivity.
Qed.

Lemma PlanData__formatJsonString_Ok p p' :
  PlanData__formatJsonString p = Ok p' →
  CreatedAddresses p' = CreatedAddresses p ∧
  UpdatedAddresses p' = UpdatedAddresses p ∧
  DeletedAddresses p' = DeletedAddresses p ∧
  ReplacedAddresses p' = ReplacedAddresses p ∧
  Forall2 (λ r r', ResourceChangeData__formatJsonString r = Ok r')
          (ResourceChanges p) (ResourceChanges p').
Proof.
  unfold PlanData__formatJsonString.
  destruct (mapM _ _) as [rs|e] eqn:Hrs; [|done].
  intros [= <-]. simpl. by apply mapM_Ok in Hrs.
Qed.

Lemma NewPlanData_Ok input pd :
  NewPlanData input = Ok pd →
  ∃ plan sanitizedPlan,
    json.Unmarshal_Plan input = Ok plan ∧
    sanitize.SanitizePlan plan = Ok sanitizedPlan ∧
    PlanData__formatJsonString
      (foldl NewPlanData_loop PlanData_zero (tfjson.ResourceChanges sanitizedPlan)) = Ok pd.
Proof.
  unfold NewPlanData.
  destruct (json.Unmarshal_Plan input) as [plan|e] eqn:Hplan; [|done].
  destruct (sanitize.SanitizePlan plan) as [sp|e] eqn:Hsp; [|done].
  destruct (PlanData__formatJsonString _) as [pd'|e] eqn:Hf; [|done].
  intros [= <-]. exists plan, sp. done.
Qed.

(** The plan data in terms of the resource changes of the sanitized plan. *)
Lemma NewPlanData_spec input pd :
  NewPlanData input = Ok pd →
  ∃ plan sanitizedPlan,
    json.Unmarshal_Plan input = Ok plan ∧
    sanitize.SanitizePlan plan = Ok sanitizedPlan ∧
    let rcs := tfjson.ResourceChanges sanitizedPlan in
    CreatedAddresses pd = tfjson.Address <$> filter to_created rcs ∧
    UpdatedAddresses pd = tfjson.Address <$> filter to_updated rcs ∧
    DeletedAddresses pd = tfjson.Address <$> filter to_deleted rcs ∧
    ReplacedAddresses pd = tfjson.Address <$> filter to_replaced rcs ∧
    Forall2 (λ c r, ResourceChangeData__formatJsonString {| ResourceChange := c |} = Ok r)
            (filter retained rcs) (ResourceChanges pd).
Proof.
  intros (plan & sp & Hplan & Hsp & Hf)%NewPlanData_Ok.
  exists plan, sp. split; [done|]. split; [done|].
  apply PlanData__formatJsonString_Ok in Hf as (Hc & Hu & Hd & Hr & Hrs).
  rewrite loop_spec in Hc, Hu, Hd, Hr, Hrs. simpl in *.
  repeat split; try done.
  by apply Forall2_fmap_l in Hrs.
Qed.

End format_facts.

(** ** Resource changes of the same shape are classified alike *)

Section shape_facts.
Context `{!Imports}.

Lemma fmap_filter_same_shape (P : tfjson.ResourceChange → bool)
  (l l' : list tfjson.ResourceChange) :
  (∀ c c', same_shape c c' → P c = P c') →
  Forall2 same_shape l l' →
  tfjson.Address <$> filter P l = tfjson.Address <$> filter P l'.
Proof.
  intros HP Hl. induction Hl as [|c c' l l' Hc _ IH]; [done|].
  rewrite !filter_cons, (HP c c' Hc).
  destruct (decide (P c')); [|done].
  rewrite !fmap_cons, IH. f_equal. apply Hc.
Qed.

Lemma same_shape_classified (c c' : tfjson.ResourceChange) :
  same_shape c c' →
  retained c = retained c' ∧ matches_one c = matches_one c' ∧
  to_created c = to_created c' ∧ to_updated c = to_updated c' ∧
  to_deleted c = to_deleted c' ∧ to_replaced c = to_replaced c'.
Proof.
  intros (_ & _ & _ & Hactions).
  unfold to_created, to_updated, to_deleted, to_replaced, matches_one, retained.
  rewrite Hactions. done.
Qed.

End shape_facts.

(** ** Lists selected by exclusive predicates *)

Lemma fmap_filter_disjoint {A B} (f : A → B) (P Q R : A → bool) (l : list A) :
  (∀ x, P x → Q x → False) →
  (∀ x, P x → R x) →
  (∀ x, Q x → R x) →
  NoDup (f <$> filter R l) →
  (f <$> filter P l) ## (f <$> filter Q l).
Proof.
  intros HPQ HPR HQR. induction l as [|x l IH]; intros Hnd.
  - intros y Hy. by apply elem_of_nil in Hy.
  - rewrite !filter_cons in *.
    assert (∀ S : A → bool, (∀ x, S x → R x) → ∀ y, y ∈ f <$> filter S l → y ∈ f <$> filter R l)
      as Hsub.
    { intros S HS y (z & -> & Hz)%list_elem_of_fmap.
      apply list_elem_of_fmap. exists z. split; [done|].
      apply list_elem_of_filter in Hz as [Hz1 Hz2].
      apply list_elem_of_filter. split; [by apply HS | done]. }
    destruct (decide (R x)) as [HR|HR].
    + rewrite fmap_cons in Hnd. apply NoDup_cons in Hnd as [Hx Hnd].
      specialize (IH Hnd).
      destruct (decide (P x)) as [HP|HP], (decide (Q x)) as [HQ|HQ].
      * destruct (HPQ x HP HQ).
      * rewrite fmap_cons. intros y [->|Hy]%elem_of_cons Hy'.
        -- apply Hx. by apply (Hsub Q HQR).
        -- by apply (IH y).
      * rewrite fmap_cons. intros y Hy [->|Hy']%elem_of_cons.
        -- apply Hx. by apply (Hsub P HPR).
        -- by apply (IH y).
      * done.
    + destruct (decide (P x)) as [HP|HP]; [destruct (HR (HPR x HP))|].
      destruct (decide (Q x)) as [HQ|HQ]; [destruct (HR (HQR x HQ))|].
      by apply IH.
Qed.

(** ** Strings *)

Lemma string_app_cons (x : ascii) (a b : string) : String x a +:+ b = String x (a +:+ b).
Proof. reflexivity. Qed.

Lemma string_app_assoc (a b c : string) : (a +:+ b) +:+ c = a +:+ (b +:+ c).
Proof. induction a as [|x a IH]; [done|]. rewrite !string_app_cons. by rewrite IH. Qed.

Lemma string_app_nil_r (a : string) : a +:+ EmptyString = a.
Proof. induction a as [|x a IH]; [done|]. rewrite string_app_cons. by rewrite IH. Qed.

(** ** The template and the report *)

Section render_facts.
Context `{!Imports}.

Lemma Parse_planTemplateBody :
  template.Parse ["codeFence"; "len"] planTemplateBody = Ok planTemplate.
Proof. vm_compute. reflexivity. Qed.

Lemma exec_Text funcs text dot w :
  template.exec funcs (template.TextNode text) dot w = (w +:+ text, None).
Proof. reflexivity. Qed.

Lemma exec_Action funcs pipe dot w :
  template.exec funcs (template.ActionNode pipe) dot w =
  match template.eval funcs dot pipe ≫= template.print with
  | Ok s => (w +:+ s, None)
  | Err err => (w, Some err)
  end.
Proof. reflexivity. Qed.

Lemma exec_list_cons funcs n ns dot w :
  template.exec_list funcs (n :: ns) dot w =
  match template.exec funcs n dot w with
  | (w, None) => template.exec_list funcs ns dot w
  | stopped => stopped
  end.
Proof. simpl. by destruct (template.exec funcs n dot w) as [w' [e|]]. Qed.

(** The list of nodes inside [exec] is run as [exec_list] runs it. *)
Lemma exec_If funcs pipe body dot w :
  template.exec funcs (template.IfNode pipe body) dot w =
  match template.eval funcs dot pipe with
  | Ok d => if template.truth d then template.exec_list funcs body dot w else (w, None)
  | Err err => (w, Some err)
  end.
Proof.
  simpl. destruct (template.eval funcs dot pipe) as [d|e]; [|done].
  destruct (template.truth d); [|done].
  revert w. induction body as [|n ns IH]; intros w; [done|].
  simpl. destruct (template.exec funcs n dot w) as [w' [e|]]; [done|]. apply IH.
Qed.

Lemma exec_Range funcs pipe body dot w :
  template.exec funcs (template.RangeNode pipe body) dot w =
  match template.eval funcs dot pipe ≫= template.elements with
  | Ok ds => template.for_each (template.exec_list funcs body) ds w
  | Err err => (w, Some err)
  end.
Proof.
  simpl. destruct (template.eval funcs dot pipe ≫= template.elements) as [ds|e]; [|done].
  revert w. induction ds as [|d ds IHds]; intros w; [done|].
  simpl.
  assert (∀ ns w,
    (fix exec_list (ns : list template.node) (dot : template.data) (w : string)
       {struct ns} : template.written :=
       match ns with
       | [] => (w, None)
       | n :: ns0 =>
           match template.exec funcs n dot w with
           | (w0, Some e) => (w0, Some e)
           | (w0, None) => exec_list ns0 dot w0
           end
       end) ns d w = template.exec_list funcs ns d w) as Heq.
  { clear. induction ns as [|n ns IH]; intros w; [done|].
    simpl. destruct (template.exec funcs n d w) as [w' [e|]]; [done|]. apply IH. }
  rewrite Heq. destruct (template.exec_list funcs body d w) as [w' [e|]]; [done|].
  apply IHds.
Qed.

Lemma exec_bullets funcs (l : list string) (w : string) :
  template.for_each
    (template.exec_list funcs
       [template.TextNode (LF +:+ "    - ");
        template.ActionNode (template.Operand template.Dot)])
    (template.DString <$> l) w
  = (w +:+ bullets l, None).
Proof.
  revert w. induction l as [|a l IH]; intros w; simpl.
  - by rewrite string_app_nil_r.
  - rewrite IH. rewrite !string_app_assoc. done.
Qed.

Lemma exec_section funcs name title (addresses : list string) (p : PlanData) (w : string) :
  template.field (template.DPlanData p) name = Ok (template.DStrings addresses) →
  template.exec funcs
    (template.IfNode (template.Operand (template.Field [name]))
       [template.TextNode (LF +:+ "- " +:+ title);
        template.RangeNode (template.Operand (template.Field [name]))
          [template.TextNode (LF +:+ "    - ");
           template.ActionNode (template.Operand template.Dot)]])
    (template.DPlanData p) w
  = (w +:+ address_section title addresses, None).
Proof.
  intros Hfield. rewrite exec_If.
  unfold template.eval, template.eval_operand, template.fields, mbind, result_bind.
  rewrite Hfield. unfold template.truth.
  destruct addresses as [|a l].
  - simpl. by rewrite string_app_nil_r.
  - cbn [length Nat.eqb negb].
    rewrite exec_list_cons, exec_Text. cbv beta iota.
    rewrite exec_list_cons, exec_Range.
    unfold template.eval, template.eval_operand, template.fields, mbind, result_bind.
    rewrite Hfield. unfold template.elements.
    rewrite exec_bullets. cbv beta iota. cbn [template.exec_list].
    unfold address_section. rewrite !string_app_assoc. done.
Qed.

(** One node of a list: a text or an action whose pipeline evaluates. *)
Ltac exec_step :=
  rewrite exec_list_cons; first [rewrite exec_Text | rewrite exec_Action];
  cbn [template.eval template.lookup_func funcMap app template.builtins String.eqb
       Ascii.eqb Bool.eqb mapM template.eval_operand template.fields template.field
       mbind result_bind mret result_ret codeFence template.print
       template.builtin_len];
  cbv beta iota.

Lemma exec_diff_block (r : ResourceChangeData) (w : string) :
  template.exec_list funcMap
       [template.TextNode LF;
        template.ActionNode (template.Call "codeFence" []);
        template.TextNode ("diff" +:+ LF +:+ "# ");
        template.ActionNode (template.Operand (template.Field ["ResourceChange"; "Type"]));
        template.TextNode ".";
        template.ActionNode (template.Operand (template.Field ["ResourceChange"; "Name"]));
        template.TextNode " ";
        template.ActionNode (template.Operand (template.Field ["HeaderSuffix"]));
        template.TextNode LF;
        template.ActionNode (template.Operand (template.Field ["GetUnifiedDiffString"]));
        template.ActionNode (template.Call "codeFence" []);
        template.TextNode LF]
    (template.DResourceChangeData r) w
  = match ResourceChangeData__GetUnifiedDiffString r with
    | Ok diffText => (w +:+ diff_block r diffText, None)
    | Err err =>
        (w +:+ LF +:+ "````````diff" +:+ LF
         +:+ "# " +:+ tfjson.Type_ (ResourceChange r) +:+ "."
         +:+ tfjson.Name (ResourceChange r)
         +:+ " " +:+ ResourceChangeData__HeaderSuffix r +:+ LF, Some err)
    end.
Proof.
  do 9 exec_step.
  rewrite exec_list_cons, exec_Action.
  cbn [template.eval template.eval_operand template.fields template.field
       String.eqb Ascii.eqb Bool.eqb].
  unfold mbind, result_bind, fmap, result_fmap.
  destruct (ResourceChangeData__GetUnifiedDiffString r) as [d|e].
  - cbn [template.print]. cbv beta iota. do 2 exec_step.
    cbn [template.exec_list]. unfold diff_block. rewrite !string_app_assoc. done.
  - rewrite !string_app_assoc. done.
Qed.

Lemma exec_diff_blocks (rs : list ResourceChangeData) (w : string) :
  template.for_each
    (template.exec_list funcMap
       [template.TextNode LF;
        template.ActionNode (template.Call "codeFence" []);
        template.TextNode ("diff" +:+ LF +:+ "# ");
        template.ActionNode (template.Operand (template.Field ["ResourceChange"; "Type"]));
        template.TextNode ".";
        template.ActionNode (template.Operand (template.Field ["ResourceChange"; "Name"]));
        template.TextNode " ";
        template.ActionNode (template.Operand (template.Field ["HeaderSuffix"]));
        template.TextNode LF;
        template.ActionNode (template.Operand (template.Field ["GetUnifiedDiffString"]));
        template.ActionNode (template.Call "codeFence" []);
        template.TextNode LF])
    (template.DResourceChangeData <$> rs) w
  = diff_blocks rs w.
Proof.
  revert w. induction rs as [|r rs IH]; intros w; [done|].
  rewrite fmap_cons. cbn [template.for_each diff_blocks].
  rewrite exec_diff_block.
  destruct (ResourceChangeData__GetUnifiedDiffString r) as [d|e]; [|done].
  apply IH.
Qed.

Lemma exec_planTemplate (p : PlanData) (w : string) :
  template.exec_list funcMap planTemplate (template.DPlanData p) w
  = details (ResourceChanges p) (w +:+ summary_line p +:+ address_sections p +:+ LF).
Proof.
  unfold planTemplate.
  do 9 exec_step.
  rewrite exec_list_cons, (exec_section _ _ "add" (CreatedAddresses p)) by done.
  cbv beta iota.
  rewrite exec_list_cons, (exec_section _ _ "change" (UpdatedAddresses p)) by done.
  cbv beta iota.
  rewrite exec_list_cons, (exec_section _ _ "destroy" (DeletedAddresses p)) by done.
  cbv beta iota.
  rewrite exec_list_cons, (exec_section _ _ "replace" (ReplacedAddresses p)) by done.
  cbv beta iota.
  rewrite exec_list_cons, exec_Text. cbv beta iota.
  rewrite exec_list_cons, exec_If.
  unfold template.eval, template.eval_operand, template.fields, mbind, result_bind.
  cbn [template.field String.eqb Ascii.eqb Bool.eqb]. unfold template.truth.
  unfold details, summary_line, address_sections.
  destruct (ResourceChanges p) as [|r rs] eqn:Hrs.
  { cbn [length Nat.eqb negb]. rewrite !string_app_assoc. reflexivity. }
  cbn [length Nat.eqb negb].
  rewrite exec_list_cons, exec_Text. cbv beta iota.
  rewrite exec_list_cons, exec_Range.
  unfold template.eval, template.eval_operand, template.fields, mbind, result_bind.
  cbn [template.field String.eqb Ascii.eqb Bool.eqb]. unfold template.elements.
  rewrite Hrs, exec_diff_blocks. rewrite !string_app_assoc.
  match goal with
  | |- context [diff_blocks ?rs ?w1] =>
      match goal with
      | |- _ = match diff_blocks rs ?w2 with _ => _ end =>
          replace w2 with w1 by reflexivity
      end
  end.
  destruct (diff_blocks _ _) as [w' [e|]]; [done|].
  rewrite exec_list_cons, exec_Text. reflexivity.
Qed.

Lemma Render_report (p : PlanData) : PlanData__Render p = report p.
Proof.
  unfold PlanData__Render, report.
  change (template.Parse _ planTemplateBody)
    with (template.Parse ["codeFence"; "len"] planTemplateBody).
  rewrite Parse_planTemplateBody. unfold template.Execute.
  change ([("codeFence", codeFence)] ++ template.builtins) with funcMap.
  rewrite exec_planTemplate. done.
Qed.

End render_facts.

(** ** The first line of the report *)

Lemma no_LF_app (a b : string) : no_LF (a +:+ b) = no_LF a && no_LF b.
Proof.
  induction a as [|x a IH]; [done|].
  rewrite string_app_cons. cbn [no_LF]. rewrite IH. by rewrite andb_assoc.
Qed.

Lemma first_line_app (a b : string) :
  no_LF a = true → first_line (a +:+ b) = a +:+ first_line b.
Proof.
  induction a as [|x a IH]; [done|]. cbn [no_LF]. intros [Hx Ha]%andb_true_iff.
  rewrite !string_app_cons. cbn [first_line].
  destruct (Ascii.eqb x "010"); [done|]. by rewrite IH.
Qed.

Example itoa_examples :
  template.itoa 0 = "0" ∧ template.itoa 7 = "7" ∧ template.itoa 10 = "10" ∧
  template.itoa 1205 = "1205".
Proof. repeat split. Qed.

Lemma digit_not_LF (n : nat) : Ascii.eqb (template.digit n) "010" = false.
Proof.
  unfold template.digit.
  assert (n `mod` 10 < 10) as Hlt by (apply Nat.mod_upper_bound; lia).
  destruct (n `mod` 10) as [|[|[|[|[|[|[|[|[|[|k]]]]]]]]]]; try reflexivity. lia.
Qed.

Lemma no_LF_itoa_go (fuel n : nat) (acc : string) :
  no_LF acc = true → no_LF (template.itoa_go fuel n acc) = true.
Proof.
  revert n acc. induction fuel as [|fuel IH]; intros n acc Hacc; [done|].
  cbn [template.itoa_go].
  assert (no_LF (String (template.digit n) acc) = true) as Hacc'.
  { cbn [no_LF]. by rewrite digit_not_LF, Hacc. }
  destruct (decide (n < 10)); [done|]. by apply IH.
Qed.

Lemma no_LF_itoa (n : nat) : no_LF (template.itoa n) = true.
Proof. by apply no_LF_itoa_go. Qed.

Section first_line_facts.
Context `{!Imports}.

Lemma no_LF_summary_line (p : PlanData) : no_LF (summary_line p) = true.
Proof. unfold summary_line. rewrite !no_LF_app, !no_LF_itoa. reflexivity. Qed.

(** What follows the summary line starts a new line. *)
Lemma address_sections_LF (p : PlanData) (rest : string) :
  ∃ rest', address_sections p +:+ LF +:+ rest = LF +:+ rest'.
Proof.
  unfold address_sections, address_section.
  destruct (CreatedAddresses p); [|rewrite !string_app_assoc; by eexists].
  destruct (UpdatedAddresses p); [|rewrite !string_app_assoc; by eexists].
  destruct (DeletedAddresses p); [|rewrite !string_app_assoc; by eexists].
  destruct (ReplacedAddresses p); [|rewrite !string_app_assoc; by eexists].
  by eexists.
Qed.

(** The diff blocks and the details only add to what was written. *)
Lemma diff_blocks_extends (rs : list ResourceChangeData) (w : string) :
  ∃ rest, (diff_blocks rs w).1 = w +:+ rest.
Proof.
  revert w. induction rs as [|r rs IH]; intros w; cbn [diff_blocks].
  - exists EmptyString. by rewrite string_app_nil_r.
  - destruct (ResourceChangeData__GetUnifiedDiffString r) as [d|e].
    + destruct (IH (w +:+ diff_block r d)) as [rest ->].
      rewrite string_app_assoc. by eexists.
    + by eexists.
Qed.

Lemma details_extends (rs : list ResourceChangeData) (w : string) :
  ∃ rest, (details rs w).1 = w +:+ rest.
Proof.
  unfold details. destruct rs as [|r rs].
  - exists EmptyString. by rewrite string_app_nil_r.
  - destruct (diff_blocks_extends (r :: rs)
                (w +:+ "<details><summary>Change details</summary>" +:+ LF)) as [rest Hrest].
    destruct (diff_blocks _ _) as [w' [e|]]; cbn [fst] in *; subst w'.
    + rewrite !string_app_assoc. by eexists.
    + rewrite !string_app_assoc. by eexists.
Qed.

Lemma first_line_report (p : PlanData) : first_line (report p).1 = summary_line p.
Proof.
  unfold report.
  destruct (details_extends (ResourceChanges p)
              (summary_line p +:+ address_sections p +:+ LF)) as [rest Hrest].
  destruct (details _ _) as [w [e|]]; cbn [fst] in *; subst w.
  all: rewrite !string_app_assoc.
  all: destruct (address_sections_LF p rest) as [rest' ->].
  all: rewrite first_line_app by apply no_LF_summary_line.
  all: cbn; apply string_app_nil_r.
Qed.

End first_line_facts.

(** * The reference implementation obeys the laws used as hypotheses *)

Module ref_facts.
Import ref.

(** ** Characters *)

Lemma scalar_char_not_ws (c : ascii) : is_scalar_char c = true → is_ws c = false.
Proof. destruct c as [[] [] [] [] [] [] [] []]; vm_compute; congruence. Qed.

Lemma scalar_char_not_bracket (c : ascii) :
  is_scalar_char c = true →
  Ascii.eqb c "]" = false ∧ Ascii.eqb c "}" = false.
Proof. destruct c as [[] [] [] [] [] [] [] []]; vm_compute; intuition congruence. Qed.

(** ** White space *)

Lemma skip_ws_app (w s : string) :
  all_chars is_ws w = true → skip_ws (w +:+ s) = skip_ws s.
Proof.
  induction w as [|c w IH]; [done|]. cbn [all_chars].
  intros [Hc Hw]%andb_true_iff. rewrite string_app_cons. cbn [skip_ws].
  rewrite Hc. by apply IH.
Qed.

Lemma skip_ws_head (c : ascii) (s : string) :
  is_ws c = false → skip_ws (String c s) = String c s.
Proof. intros Hc. cbn [skip_ws]. by rewrite Hc. Qed.

Lemma skip_ws_length (s : string) : String.length (skip_ws s) ≤ String.length s.
Proof.
  induction s as [|c s IH]; [done|]. cbn [skip_ws].
  destruct (is_ws c); cbn [String.length]; lia.
Qed.

Lemma ws_repeat (n : nat) : all_chars is_ws (repeat_string n "  ") = true.
Proof. induction n as [|n IH]; [done|]. cbn [repeat_string]. by rewrite !string_app_cons. Qed.

Lemma ws_newline (d : nat) : all_chars is_ws (newline "" "  " d) = true.
Proof. unfold newline. cbn. apply ws_repeat. Qed.

(** ** Scanning *)

Lemma span_spec (p : ascii → bool) (s tok rest : string) :
  span p s = (tok, rest) →
  s = tok +:+ rest ∧ all_chars p tok = true ∧ stops p rest.
Proof.
  revert tok rest. induction s as [|c s IH]; intros tok rest; cbn [span].
  - by intros [= <- <-].
  - destruct (p c) eqn:Hc.
    + destruct (span p s) as [tok' rest'] eqn:Hs. intros [= <- <-].
      destruct (IH tok' rest' eq_refl) as (-> & Htok & Hrest).
      rewrite string_app_cons. cbn [all_chars]. by rewrite Hc, Htok.
    + by intros [= <- <-].
Qed.

Lemma span_app (p : ascii → bool) (tok rest : string) :
  all_chars p tok = true → stops p rest → span p (tok +:+ rest) = (tok, rest).
Proof.
  intros Htok Hrest. induction tok as [|c tok IH].
  - destruct rest as [|c rest]; [done|]. unfold stops in Hrest.
    change (EmptyString +:+ String c rest) with (String c rest).
    cbn [span]. by rewrite Hrest.
  - cbn [all_chars] in Htok. apply andb_true_iff in Htok as [Hc Htok].
    rewrite string_app_cons. cbn [span]. by rewrite Hc, IH.
Qed.

Lemma span_length (p : ascii → bool) (s tok rest : string) :
  span p s = (tok, rest) → String.length s = String.length tok + String.length rest.
Proof.
  revert tok rest. induction s as [|c s IH]; intros tok rest; cbn [span].
  - by intros [= <- <-].
  - destruct (p c).
    + destruct (span p s) as [tok' rest'] eqn:Hs. intros [= <- <-].
      cbn [String.length]. by rewrite (IH tok' rest').
    + by intros [= <- <-].
Qed.

Lemma scan_string_again (s body r rest : string) :
  scan_string s = Some (body, r) →
  scan_string (body +:+ DQUOTE +:+ rest) = Some (body, rest).
Proof.
  unfold scan_string. destruct (span is_string_char s) as [body' r'] eqn:Hs.
  destruct r' as [|c r']; [done|]. destruct (Ascii.eqb c "034") eqn:Hc; [|done].
  intros [= -> ->]. apply span_spec in Hs as (_ & Hbody & _).
  rewrite span_app; [done|done|done].
Qed.

Lemma scan_string_length (s body r : string) :
  scan_string s = Some (body, r) → String.length r < String.length s.
Proof.
  unfold scan_string. destruct (span is_string_char s) as [body' r'] eqn:Hs.
  destruct r' as [|c r']; [done|]. destruct (Ascii.eqb c "034"); [|done].
  intros [= -> ->]. apply span_length in Hs. cbn [String.length] in Hs. lia.
Qed.

Lemma scan_scalar_spec (s tok r : string) :
  scan_scalar s = Some (tok, r) →
  s = tok +:+ r ∧ all_chars is_scalar_char tok = true ∧ stops is_scalar_char r ∧
  scalar_ok tok = true.
Proof.
  unfold scan_scalar. destruct (span is_scalar_char s) as [tok' r'] eqn:Hs.
  destruct (scalar_ok tok') eqn:Hok; [|done]. intros [= -> ->].
  apply span_spec in Hs as (-> & Htok & Hr). done.
Qed.

Lemma scan_scalar_again (tok rest : string) :
  all_chars is_scalar_char tok = true → scalar_ok tok = true →
  stops is_scalar_char rest →
  scan_scalar (tok +:+ rest) = Some (tok, rest).
Proof. intros Htok Hok Hrest. unfold scan_scalar. by rewrite span_app, Hok. Qed.

(** ** The parser, one call at a time *)

Lemma parse_value_S (fuel : nat) (s : string) :
  parse_value (S fuel) s =
  match skip_ws s with
  | EmptyString => None
  | String c r =>
      if Ascii.eqb c "[" then
        match skip_ws r with
        | EmptyString => None
        | String c' r' =>
            if Ascii.eqb c' "]" then Some (JArray [], r')
            else '(es, r) ← parse_elems fuel r; Some (JArray es, r)
        end
      else if Ascii.eqb c "{" then
        match skip_ws r with
        | EmptyString => None
        | String c' r' =>
            if Ascii.eqb c' "}" then Some (JObject [], r')
            else '(ms, r) ← parse_members fuel r; Some (JObject ms, r)
        end
      else if Ascii.eqb c "034" then
        '(body, r) ← scan_string r; Some (JString body, r)
      else
        '(token, r) ← scan_scalar (String c r); Some (JScalar token, r)
  end.
Proof. reflexivity. Qed.

Lemma parse_elems_S (fuel : nat) (s : string) :
  parse_elems (S fuel) s =
  '(e, r) ← parse_value fuel s;
  match skip_ws r with
  | EmptyString => None
  | String c r =>
      if Ascii.eqb c "," then '(es, r) ← parse_elems fuel r; Some (e :: es, r)
      else if Ascii.eqb c "]" then Some ([e], r)
      else None
  end.
Proof. reflexivity. Qed.

Lemma parse_members_S (fuel : nat) (s : string) :
  parse_members (S fuel) s =
  match skip_ws s with
  | EmptyString => None
  | String c r =>
      if Ascii.eqb c "034" then
        '(key, r) ← scan_string r;
        match skip_ws r with
        | EmptyString => None
        | String c r =>
            if Ascii.eqb c ":" then
              '(v, r) ← parse_value fuel r;
              match skip_ws r with
              | EmptyString => None
              | String c r =>
                  if Ascii.eqb c "," then
                    '(ms, r) ← parse_members fuel r; Some ((key, v) :: ms, r)
                  else if Ascii.eqb c "}" then Some ([(key, v)], r)
                  else None
              end
            else None
        end
      else None
  end.
Proof. reflexivity. Qed.

Lemma head_ok_app (x y : string) : head_ok x → head_ok (x +:+ y).
Proof. intros (c & x' & -> & H). exists c, (x' +:+ y). by rewrite string_app_cons. Qed.

Lemma parsed_head (fuel : nat) (s : string) (t : jtree) (r : string) :
  parse_value fuel s = Some (t, r) → ∀ p i d, head_ok (print p i d t).
Proof.
  destruct fuel as [|fuel]; [done|]. rewrite parse_value_S.
  destruct (skip_ws s) as [|c r0]; [done|].
  destruct (Ascii.eqb c "[") eqn:H1.
  { destruct (skip_ws r0) as [|c' r']; [done|].
    destruct (Ascii.eqb c' "]").
    - intros [= <- <-] p i d. by eexists _, _.
    - destruct (parse_elems fuel r0) as [[es r1]|]; [|done].
      intros [= <- <-] p i d. destruct es; by eexists _, _. }
  destruct (Ascii.eqb c "{") eqn:H2.
  { destruct (skip_ws r0) as [|c' r']; [done|].
    destruct (Ascii.eqb c' "}").
    - intros [= <- <-] p i d. by eexists _, _.
    - destruct (parse_members fuel r0) as [[ms r1]|]; [|done].
      intros [= <- <-] p i d. destruct ms; by eexists _, _. }
  destruct (Ascii.eqb c "034") eqn:H3.
  { destruct (scan_string r0) as [[body r1]|]; [|done].
    intros [= <- <-] p i d. by eexists _, _. }
  destruct (scan_scalar (String c r0)) as [[tok r1]|] eqn:Htok; [|done].
  intros [= <- <-] p i d. cbn [print].
  apply scan_scalar_spec in Htok as (Hs & Hchars & _ & Hok).
  destruct tok as [|c' tok]; [done|].
  cbn [all_chars] in Hchars. apply andb_true_iff in Hchars as [Hc' _].
  exists c', tok. split; [done|]. split; [by apply scalar_char_not_ws|].
  by apply scalar_char_not_bracket.
Qed.

Lemma parse_elems_cons (fuel : nat) (s : string) (es : list jtree) (r : string) :
  parse_elems fuel s = Some (es, r) →
  ∃ e es', es = e :: es' ∧ ∀ p i d, head_ok (print p i d e).
Proof.
  destruct fuel as [|fuel]; [done|]. rewrite parse_elems_S.
  destruct (parse_value fuel s) as [[e r1]|] eqn:He; [|done]. cbn.
  destruct (skip_ws r1) as [|c r2]; [done|].
  destruct (Ascii.eqb c ",").
  - destruct (parse_elems fuel r2) as [[es' r3]|]; [|done].
    intros [= <- <-]. exists e, es'. split; [done|]. by eapply parsed_head.
  - destruct (Ascii.eqb c "]"); [|done].
    intros [= <- <-]. exists e, []. split; [done|]. by eapply parsed_head.
Qed.

Lemma parse_members_cons (fuel : nat) (s : string) (ms : list (string * jtree)) (r : string) :
  parse_members fuel s = Some (ms, r) → ∃ m ms', ms = m :: ms'.
Proof.
  destruct fuel as [|fuel]; [done|]. rewrite parse_members_S.
  destruct (skip_ws s) as [|c r0]; [done|].
  destruct (Ascii.eqb c "034"); [|done].
  destruct (scan_string r0) as [[key r1]|]; [|done]. cbn.
  destruct (skip_ws r1) as [|c1 r2]; [done|].
  destruct (Ascii.eqb c1 ":"); [|done].
  destruct (parse_value fuel r2) as [[v r3]|]; [|done]. cbn.
  destruct (skip_ws r3) as [|c3 r4]; [done|].
  destruct (Ascii.eqb c3 ",").
  - destruct (parse_members fuel r4) as [[ms' r5]|]; [|done].
    intros [= <- <-]. by eexists _, _.
  - destruct (Ascii.eqb c3 "}"); [|done]. intros [= <- <-]. by eexists _, _.
Qed.

(** ** Parsing what was printed *)

Local Abbreviation pr := (print "" "  ").
Local Abbreviation nl := (newline "" "  ").
Local Abbreviation elems d es := (print_elems (pr (S d)) (nl d +:+ "]") ("," +:+ nl (S d)) es).
Local Abbreviation members d ms := (print_members (pr (S d)) (nl d +:+ "}") ("," +:+ nl (S d)) ms).

Lemma string_lit1 (c : ascii) (x : string) : String c EmptyString +:+ x = String c x.
Proof. reflexivity. Qed.

Lemma roundtrip_value_step (fuel : nat) :
  (∀ s es r, parse_elems fuel s = Some (es, r) →
     ∀ d w rest, all_chars is_ws w = true →
       parse_elems fuel (w +:+ elems d es +:+ rest) = Some (es, rest)) →
  (∀ s ms r, parse_members fuel s = Some (ms, r) →
     ∀ d w rest, all_chars is_ws w = true →
       parse_members fuel (w +:+ members d ms +:+ rest) = Some (ms, rest)) →
  ∀ s t r, parse_value (S fuel) s = Some (t, r) →
     ∀ d w rest, all_chars is_ws w = true → stops is_scalar_char rest →
       parse_value (S fuel) (w +:+ pr d t +:+ rest) = Some (t, rest).
Proof.
  intros IHe IHm s t r Hparse d w rest Hw Hrest.
  rewrite parse_value_S in Hparse. rewrite parse_value_S, skip_ws_app by done.
  destruct (skip_ws s) as [|c r0]; [done|].
  destruct (Ascii.eqb c "[") eqn:H1.
  { destruct (skip_ws r0) as [|c' r']; [done|].
    destruct (Ascii.eqb c' "]").
    - injection Hparse as <- <-. reflexivity.
    - destruct (parse_elems fuel r0) as [[es r1]|] eqn:Hes; [|done].
      injection Hparse as <- <-.
      destruct (parse_elems_cons _ _ _ _ Hes) as (e & es' & -> & Hhead).
      change (pr d (JArray (e :: es'))) with ("[" +:+ nl (S d) +:+ elems d (e :: es')).
      rewrite !string_app_assoc, string_lit1, skip_ws_head by done.
      cbn [Ascii.eqb Bool.eqb]. rewrite skip_ws_app by apply ws_newline.
      destruct (head_ok_app (elems d (e :: es')) rest) as (c0 & x & Hx & Hc0 & Hc1 & _).
      { cbn [print_elems]. apply head_ok_app, Hhead. }
      rewrite Hx, skip_ws_head, Hc1 by done. rewrite <- Hx.
      rewrite (IHe _ _ _ Hes) by apply ws_newline. done. }
  destruct (Ascii.eqb c "{") eqn:H2.
  { destruct (skip_ws r0) as [|c' r']; [done|].
    destruct (Ascii.eqb c' "}").
    - injection Hparse as <- <-. reflexivity.
    - destruct (parse_members fuel r0) as [[ms r1]|] eqn:Hms; [|done].
      injection Hparse as <- <-.
      destruct (parse_members_cons _ _ _ _ Hms) as ([key v] & ms' & ->).
      change (pr d (JObject ((key, v) :: ms')))
        with ("{" +:+ nl (S d) +:+ members d ((key, v) :: ms')).
      rewrite !string_app_assoc, string_lit1, skip_ws_head by done.
      cbn [Ascii.eqb Bool.eqb]. rewrite skip_ws_app by apply ws_newline.
      assert (∃ x, members d ((key, v) :: ms') +:+ rest = String "034" x) as [x Hx].
      { cbn [print_members]. rewrite !string_app_assoc. by eexists. }
      rewrite Hx, skip_ws_head by done. cbn [Ascii.eqb Bool.eqb]. rewrite <- Hx.
      rewrite (IHm _ _ _ Hms) by apply ws_newline. done. }
  destruct (Ascii.eqb c "034") eqn:H3.
  { destruct (scan_string r0) as [[body r1]|] eqn:Hbody; [|done].
    injection Hparse as <- <-. cbn [print].
    rewrite !string_app_assoc. unfold DQUOTE at 1. rewrite string_lit1, skip_ws_head by done.
    cbn [Ascii.eqb Bool.eqb].
    rewrite (scan_string_again _ _ _ rest Hbody). done. }
  destruct (scan_scalar (String c r0)) as [[tok r1]|] eqn:Htok; [|done].
  injection Hparse as <- <-. cbn [print].
  apply scan_scalar_spec in Htok as (Hs & Hchars & _ & Hok).
  destruct tok as [|c' tok]; [done|].
  rewrite string_app_cons in Hs. injection Hs as <- Hr0.
  pose proof Hchars as Hchars'.
  cbn [all_chars] in Hchars'. apply andb_true_iff in Hchars' as [Hc _].
  rewrite string_app_cons, skip_ws_head by (by apply scalar_char_not_ws).
  rewrite H1, H2, H3. rewrite <- string_app_cons.
  rewrite scan_scalar_again by done. done.
Qed.

Lemma stops_comma (x : string) : stops is_scalar_char ("," +:+ x).
Proof. reflexivity. Qed.

Lemma stops_newline (d : nat) (x : string) : stops is_scalar_char (nl d +:+ x).
Proof. reflexivity. Qed.

Lemma roundtrip_elems_step (fuel : nat) :
  (∀ s t r, parse_value fuel s = Some (t, r) →
     ∀ d w rest, all_chars is_ws w = true → stops is_scalar_char rest →
       parse_value fuel (w +:+ pr d t +:+ rest) = Some (t, rest)) →
  (∀ s es r, parse_elems fuel s = Some (es, r) →
     ∀ d w rest, all_chars is_ws w = true →
       parse_elems fuel (w +:+ elems d es +:+ rest) = Some (es, rest)) →
  ∀ s es r, parse_elems (S fuel) s = Some (es, r) →
     ∀ d w rest, all_chars is_ws w = true →
       parse_elems (S fuel) (w +:+ elems d es +:+ rest) = Some (es, rest).
Proof.
  intros IHv IHe s es r Hparse d w rest Hw.
  rewrite parse_elems_S in Hparse. rewrite parse_elems_S.
  destruct (parse_value fuel s) as [[e r1]|] eqn:He; [|done]. cbn in Hparse.
  destruct (skip_ws r1) as [|c r2]; [done|].
  destruct (Ascii.eqb c ",").
  - destruct (parse_elems fuel r2) as [[es' r3]|] eqn:Hes'; [|done].
    injection Hparse as <- <-.
    destruct (parse_elems_cons _ _ _ _ Hes') as (e' & es'' & -> & _).
    change (elems d (e :: e' :: es''))
      with (pr (S d) e +:+ ("," +:+ nl (S d)) +:+ elems d (e' :: es'')).
    rewrite !string_app_assoc.
    rewrite (IHv _ _ _ He) by (done || apply stops_comma). cbn [mbind option_bind].
    rewrite string_lit1, skip_ws_head by done. cbn [Ascii.eqb Bool.eqb].
    rewrite (IHe _ _ _ Hes') by apply ws_newline. done.
  - destruct (Ascii.eqb c "]"); [|done]. injection Hparse as <- <-.
    change (elems d [e]) with (pr (S d) e +:+ nl d +:+ "]").
    rewrite !string_app_assoc.
    rewrite (IHv _ _ _ He) by (done || apply stops_newline). cbn [mbind option_bind].
    rewrite skip_ws_app by apply ws_newline. done.
Qed.

Lemma roundtrip_members_step (fuel : nat) :
  (∀ s t r, parse_value fuel s = Some (t, r) →
     ∀ d w rest, all_chars is_ws w = true → stops is_scalar_char rest →
       parse_value fuel (w +:+ pr d t +:+ rest) = Some (t, rest)) →
  (∀ s ms r, parse_members fuel s = Some (ms, r) →
     ∀ d w rest, all_chars is_ws w = true →
       parse_members fuel (w +:+ members d ms +:+ rest) = Some (ms, rest)) →
  ∀ s ms r, parse_members (S fuel) s = Some (ms, r) →
     ∀ d w rest, all_chars is_ws w = true →
       parse_members (S fuel) (w +:+ members d ms +:+ rest) = Some (ms, rest).
Proof.
  intros IHv IHm s ms r Hparse d w rest Hw.
  rewrite parse_members_S in Hparse. rewrite parse_members_S, skip_ws_app by done.
  destruct (skip_ws s) as [|c r0]; [done|].
  destruct (Ascii.eqb c "034"); [|done].
  destruct (scan_string r0) as [[key r1]|] eqn:Hkey; [|done]. cbn in Hparse.
  destruct (skip_ws r1) as [|c1 r2]; [done|].
  destruct (Ascii.eqb c1 ":"); [|done].
  destruct (parse_value fuel r2) as [[v r3]|] eqn:Hv; [|done]. cbn in Hparse.
  destruct (skip_ws r3) as [|c3 r4]; [done|].
  destruct (Ascii.eqb c3 ",").
  - destruct (parse_members fuel r4) as [[ms' r5]|] eqn:Hms'; [|done].
    injection Hparse as <- <-.
    destruct (parse_members_cons _ _ _ _ Hms') as (m' & ms'' & ->).
    change (members d ((key, v) :: m' :: ms''))
      with (DQUOTE +:+ key +:+ DQUOTE +:+ ": " +:+ pr (S d) v +:+
            ("," +:+ nl (S d)) +:+ members d (m' :: ms'')).
    rewrite !string_app_assoc. unfold DQUOTE at 1.
    rewrite string_lit1, skip_ws_head by done. cbn [Ascii.eqb Bool.eqb].
    rewrite (scan_string_again _ _ _ _ Hkey). cbn [mbind option_bind].
    change (": " +:+ ?x) with (String ":" (" " +:+ x)).
    rewrite skip_ws_head by done. cbn [Ascii.eqb Bool.eqb].
    rewrite (IHv _ _ _ Hv) by (done || apply stops_comma). cbn [mbind option_bind].
    rewrite string_lit1, skip_ws_head by done. cbn [Ascii.eqb Bool.eqb].
    rewrite (IHm _ _ _ Hms') by apply ws_newline. done.
  - destruct (Ascii.eqb c3 "}"); [|done]. injection Hparse as <- <-.
    change (members d [(key, v)])
      with (DQUOTE +:+ key +:+ DQUOTE +:+ ": " +:+ pr (S d) v +:+ nl d +:+ "}").
    rewrite !string_app_assoc. unfold DQUOTE at 1.
    rewrite string_lit1, skip_ws_head by done. cbn [Ascii.eqb Bool.eqb].
    rewrite (scan_string_again _ _ _ _ Hkey). cbn [mbind option_bind].
    change (": " +:+ ?x) with (String ":" (" " +:+ x)).
    rewrite skip_ws_head by done. cbn [Ascii.eqb Bool.eqb].
    rewrite (IHv _ _ _ Hv) by (done || apply stops_newline). cbn [mbind option_bind].
    rewrite skip_ws_app by apply ws_newline. done.
Qed.

Lemma roundtrip (fuel : nat) :
  (∀ s t r, parse_value fuel s = Some (t, r) →
     ∀ d w rest, all_chars is_ws w = true → stops is_scalar_char rest →
       parse_value fuel (w +:+ pr d t +:+ rest) = Some (t, rest)) ∧
  (∀ s es r, parse_elems fuel s = Some (es, r) →
     ∀ d w rest, all_chars is_ws w = true →
       parse_elems fuel (w +:+ elems d es +:+ rest) = Some (es, rest)) ∧
  (∀ s ms r, parse_members fuel s = Some (ms, r) →
     ∀ d w rest, all_chars is_ws w = true →
       parse_members fuel (w +:+ members d ms +:+ rest) = Some (ms, rest)).
Proof.
  induction fuel as [|fuel (IHv & IHe & IHm)]; [done|].
  split; [|split].
  - by apply roundtrip_value_step.
  - by apply roundtrip_elems_step.
  - by apply roundtrip_members_step.
Qed.

(** *** Enough fuel *)

Lemma skip_ws_cons_length (s : string) (c : ascii) (r : string) :
  skip_ws s = String c r → String.length r < String.length s.
Proof.
  intros Hs. pose proof (skip_ws_length s) as Hlen. rewrite Hs in Hlen.
  cbn [String.length] in Hlen. lia.
Qed.

Lemma scan_scalar_length (s tok r : string) :
  scan_scalar s = Some (tok, r) → String.length r < String.length s.
Proof.
  unfold scan_scalar. destruct (span is_scalar_char s) as [tok' r'] eqn:Hs.
  destruct (scalar_ok tok') eqn:Hok; [|done]. intros [= -> ->].
  apply span_length in Hs. destruct tok as [|c tok]; [done|].
  cbn [String.length] in Hs. lia.
Qed.

(** A successful call has read at least one character, and succeeds with
    any fuel that is at least the number of characters it has read. *)
Lemma enough_fuel (fuel : nat) :
  (∀ s t r, parse_value fuel s = Some (t, r) →
     String.length r < String.length s ∧
     ∀ f, String.length s - String.length r ≤ f → parse_value f s = Some (t, r)) ∧
  (∀ s es r, parse_elems fuel s = Some (es, r) →
     String.length r < String.length s ∧
     ∀ f, String.length s - String.length r ≤ f → parse_elems f s = Some (es, r)) ∧
  (∀ s ms r, parse_members fuel s = Some (ms, r) →
     String.length r < String.length s ∧
     ∀ f, String.length s - String.length r ≤ f → parse_members f s = Some (ms, r)).
Proof.
  induction fuel as [|fuel (IHv & IHe & IHm)]; [done|].
  split; [|split].
  - intros s t r. rewrite parse_value_S.
    destruct (skip_ws s) as [|c r0] eqn:Hs; [done|].
    pose proof (skip_ws_cons_length _ _ _ Hs) as Hs'.
    destruct (Ascii.eqb c "[") eqn:H1.
    { destruct (skip_ws r0) as [|c' r'] eqn:Hr0; [done|].
      pose proof (skip_ws_cons_length _ _ _ Hr0) as Hr0'.
      destruct (Ascii.eqb c' "]") eqn:H1'.
      - intros [= <- <-]. split; [lia|]. intros [|f] Hf; [lia|].
        by rewrite parse_value_S, Hs, H1, Hr0, H1'.
      - destruct (parse_elems fuel r0) as [[es r1]|] eqn:Hes; [|done].
        intros [= <- <-]. destruct (IHe _ _ _ Hes) as [Hlen Hfuel].
        split; [lia|]. intros [|f] Hf; [lia|].
        rewrite parse_value_S, Hs, H1, Hr0, H1', Hfuel by lia. done. }
    destruct (Ascii.eqb c "{") eqn:H2.
    { destruct (skip_ws r0) as [|c' r'] eqn:Hr0; [done|].
      pose proof (skip_ws_cons_length _ _ _ Hr0) as Hr0'.
      destruct (Ascii.eqb c' "}") eqn:H2'.
      - intros [= <- <-]. split; [lia|]. intros [|f] Hf; [lia|].
        by rewrite parse_value_S, Hs, H1, H2, Hr0, H2'.
      - destruct (parse_members fuel r0) as [[ms r1]|] eqn:Hms; [|done].
        intros [= <- <-]. destruct (IHm _ _ _ Hms) as [Hlen Hfuel].
        split; [lia|]. intros [|f] Hf; [lia|].
        rewrite parse_value_S, Hs, H1, H2, Hr0, H2', Hfuel by lia. done. }
    destruct (Ascii.eqb c "034") eqn:H3.
    { destruct (scan_string r0) as [[body r1]|] eqn:Hbody; [|done].
      intros [= <- <-]. pose proof (scan_string_length _ _ _ Hbody).
      split; [lia|]. intros [|f] Hf; [lia|].
      by rewrite parse_value_S, Hs, H1, H2, H3, Hbody. }
    destruct (scan_scalar (String c r0)) as [[tok r1]|] eqn:Htok; [|done].
    intros [= <- <-]. pose proof (scan_scalar_length _ _ _ Htok) as Hlen.
    cbn [String.length] in Hlen.
    split; [lia|]. intros [|f] Hf; [lia|].
    by rewrite parse_value_S, Hs, H1, H2, H3, Htok.
  - intros s es r. rewrite parse_elems_S.
    destruct (parse_value fuel s) as [[e r1]|] eqn:He; [|done]. cbn [mbind option_bind].
    destruct (IHv _ _ _ He) as [Hlen1 Hfuel1].
    destruct (skip_ws r1) as [|c r2] eqn:Hr1; [done|].
    pose proof (skip_ws_cons_length _ _ _ Hr1) as Hr1'.
    destruct (Ascii.eqb c ",") eqn:H1.
    + destruct (parse_elems fuel r2) as [[es' r3]|] eqn:Hes'; [|done].
      intros [= <- <-]. destruct (IHe _ _ _ Hes') as [Hlen2 Hfuel2].
      split; [lia|]. intros [|f] Hf; [lia|].
      rewrite parse_elems_S, Hfuel1 by lia. cbn [mbind option_bind].
      rewrite Hr1, H1, Hfuel2 by lia. done.
    + destruct (Ascii.eqb c "]") eqn:H2; [|done]. intros [= <- <-].
      split; [lia|]. intros [|f] Hf; [lia|].
      rewrite parse_elems_S, Hfuel1 by lia. cbn [mbind option_bind].
      by rewrite Hr1, H1, H2.
  - intros s ms r. rewrite parse_members_S.
    destruct (skip_ws s) as [|c r0] eqn:Hs; [done|].
    pose proof (skip_ws_cons_length _ _ _ Hs) as Hs'.
    destruct (Ascii.eqb c "034") eqn:H0; [|done].
    destruct (scan_string r0) as [[key r1]|] eqn:Hkey; [|done]. cbn [mbind option_bind].
    pose proof (scan_string_length _ _ _ Hkey) as Hkey'.
    destruct (skip_ws r1) as [|c1 r2] eqn:Hr1; [done|].
    pose proof (skip_ws_cons_length _ _ _ Hr1) as Hr1'.
    destruct (Ascii.eqb c1 ":") eqn:Hc1; [|done].
    destruct (parse_value fuel r2) as [[v r3]|] eqn:Hv; [|done]. cbn [mbind option_bind].
    destruct (IHv _ _ _ Hv) as [Hlen1 Hfuel1].
    destruct (skip_ws r3) as [|c3 r4] eqn:Hr3; [done|].
    pose proof (skip_ws_cons_length _ _ _ Hr3) as Hr3'.
    destruct (Ascii.eqb c3 ",") eqn:H1.
    + destruct (parse_members fuel r4) as [[ms' r5]|] eqn:Hms'; [|done].
      intros [= <- <-]. destruct (IHm _ _ _ Hms') as [Hlen2 Hfuel2].
      split; [lia|]. intros [|f] Hf; [lia|].
      rewrite parse_members_S, Hs, H0, Hkey. cbn [mbind option_bind].
      rewrite Hr1, Hc1, Hfuel1 by lia. cbn [mbind option_bind].
      rewrite Hr3, H1, Hfuel2 by lia. done.
    + destruct (Ascii.eqb c3 "}") eqn:H2; [|done]. intros [= <- <-].
      split; [lia|]. intros [|f] Hf; [lia|].
      rewrite parse_members_S, Hs, H0, Hkey. cbn [mbind option_bind].
      rewrite Hr1, Hc1, Hfuel1 by lia. cbn [mbind option_bind].
      by rewrite Hr3, H1, H2.
Qed.

(** *** The laws *)

(** A text that parses is written back as a text that parses to the same
    tree. *)
Lemma parse_print (s : string) (t : jtree) :
  parse s = Some t → parse (pr 0 t) = Some t.
Proof.
  unfold parse.
  destruct (parse_value (S (String.length s)) s) as [[t' r]|] eqn:Hs; [|done].
  cbn [mbind option_bind]. destruct (decide (skip_ws r = EmptyString)); [|done].
  intros [= ->].
  destruct (roundtrip (S (String.length s))) as (Hv & _ & _).
  specialize (Hv _ _ _ Hs 0 EmptyString EmptyString eq_refl I).
  change (EmptyString +:+ pr 0 t +:+ EmptyString) with (pr 0 t +:+ EmptyString) in Hv.
  rewrite string_app_nil_r in Hv.
  destruct (enough_fuel (S (String.length s))) as (Hf & _ & _).
  destruct (Hf _ _ _ Hv) as [_ Hfuel].
  rewrite Hfuel by (cbn [String.length]; lia). done.
Qed.

Lemma reencoding_is_fixed (s j a : string) :
  Valid s = true → Unmarshal_RawMessage s = Ok j →
  MarshalIndent_RawMessage j "" "  " = Ok a →
  Valid a = true ∧
  ∃ j', Unmarshal_RawMessage a = Ok j' ∧ MarshalIndent_RawMessage j' "" "  " = Ok a.
Proof.
  unfold Unmarshal_RawMessage, MarshalIndent_RawMessage, Valid.
  intros _. destruct (parse s) as [t|] eqn:Hs; [|done]. intros [= <-].
  rewrite Hs. intros [= <-]. rewrite (parse_print _ _ Hs).
  split; [done|]. exists (pr 0 t). by rewrite (parse_print _ _ Hs).
Qed.

Lemma marshal_of_valid (s j : string) :
  Valid s = true → Unmarshal_RawMessage s = Ok j →
  is_Ok (MarshalIndent_RawMessage j "" "  ").
Proof.
  unfold Unmarshal_RawMessage, MarshalIndent_RawMessage, Valid.
  destruct (parse s) as [t|] eqn:Hs; [|done]. intros _ [= <-].
  rewrite Hs. by eexists.
Qed.



End ref_facts.

(** * The claims *)

Section claims.
Context `{!Imports}.

(** ** C9: an input that does not parse gives no plan data *)

(** C9.  When [json.Unmarshal] refuses the input (it is not valid JSON, or
    it does not decode into a [tfjson.Plan]), [NewPlanData] returns the
    error "cannot parse input" wrapping the decoder's, and no plan data:
    there is nothing [Render] could be called on. *)
Theorem NewPlanData_parse_error (input : string) (err : error) :
  json.Unmarshal_Plan input = Err err →
  NewPlanData input = Err (ErrWrap "cannot parse input: " err).
Proof. intros Hparse. unfold NewPlanData. by rewrite Hparse. Qed.

(** ** C6: no-op and read changes are left out *)


(** ** C3: a retained change that matches none of the four actions *)

(** C3.  A resource change whose actions are neither a no-op nor a read and
    match none of create, update, delete and replace is appended to the
    retained changes and to none of the four address lists; the suffix of
    its header is empty, also after normalisation, and its diff block is
    headed by its type and name alone. *)
Theorem unmatched_change_retained (c : tfjson.ResourceChange) :
  let actions := tfjson.Actions_ (tfjson.Change_ c) in
  tfjson.NoOp actions = false → tfjson.Read actions = false →
  tfjson.Create actions = false → tfjson.Update actions = false →
  tfjson.Delete actions = false → tfjson.Replace actions = false →
  (∀ planData,
     let planData' := NewPlanData_loop planData c in
     CreatedAddresses planData' = CreatedAddresses planData ∧
     UpdatedAddresses planData' = UpdatedAddresses planData ∧
     DeletedAddresses planData' = DeletedAddresses planData ∧
     ReplacedAddresses planData' = ReplacedAddresses planData ∧
     ResourceChanges planData' = ResourceChanges planData ++ [{| ResourceChange := c |}]) ∧
  ResourceChangeData__HeaderSuffix {| ResourceChange := c |} = "" ∧
  (∀ r diffText,
     ResourceChangeData__formatJsonString {| ResourceChange := c |} = Ok r →
     ResourceChangeData__HeaderSuffix r = "" ∧
     diff_block r diffText =
       LF +:+ "````````diff" +:+ LF +:+ "# " +:+ tfjson.Type_ c +:+ "." +:+ tfjson.Name c
       +:+ " " +:+ LF +:+ diffText +:+ "````````" +:+ LF).
Proof.
  intros actions HN HR HC HU HD HRp. subst actions. split; [|split].
  - intros planData. unfold NewPlanData_loop. rewrite HN, HR, HC, HU, HD, HRp. done.
  - unfold ResourceChangeData__HeaderSuffix. cbn [ResourceChange].
    by rewrite HC, HU, HD, HRp.
  - intros r diffText Hr.
    apply ResourceChangeData__formatJsonString_Ok in Hr
      as (b & a & _ & _ & Haddr & Htype & Hname & Hact & _).
    cbn [ResourceChange] in *.
    assert (ResourceChangeData__HeaderSuffix r = "") as Hsuffix.
    { unfold ResourceChangeData__HeaderSuffix. rewrite Hact.
      by rewrite HC, HU, HD, HRp. }
    split; [done|]. unfold diff_block. by rewrite Hsuffix, Htype, Hname.
Qed.

(** ** C8: the order of the plan is kept *)

(** C8.  Each address list holds, in the order of the resource changes of
    the sanitized plan, the addresses of the changes that go to it; the
    retained changes are, in that same order, the normalised changes that
    are not skipped; and [Render] writes the report, which lists the
    addresses and the diff blocks in the order of these lists.  When the
    sanitizer kept the shape of the resource changes, this is the order of
    the plan that was parsed. *)
Theorem order_preserved (input : string) (pd : PlanData) :
  NewPlanData input = Ok pd →
  ∃ plan sanitizedPlan,
    json.Unmarshal_Plan input = Ok plan ∧
    sanitize.SanitizePlan plan = Ok sanitizedPlan ∧
    let rcs := tfjson.ResourceChanges sanitizedPlan in
    CreatedAddresses pd = tfjson.Address <$> filter to_created rcs ∧
    UpdatedAddresses pd = tfjson.Address <$> filter to_updated rcs ∧
    DeletedAddresses pd = tfjson.Address <$> filter to_deleted rcs ∧
    ReplacedAddresses pd = tfjson.Address <$> filter to_replaced rcs ∧
    Forall2 (λ c r, ResourceChangeData__formatJsonString {| ResourceChange := c |} = Ok r)
            (filter retained rcs) (ResourceChanges pd) ∧
    sublist (CreatedAddresses pd) (tfjson.Address <$> rcs) ∧
    sublist (UpdatedAddresses pd) (tfjson.Address <$> rcs) ∧
    sublist (DeletedAddresses pd) (tfjson.Address <$> rcs) ∧
    sublist (ReplacedAddresses pd) (tfjson.Address <$> rcs) ∧
    sublist (tfjson.Address ∘ ResourceChange <$> ResourceChanges pd) (tfjson.Address <$> rcs) ∧
    PlanData__Render pd = report pd ∧
    (Forall2 same_shape (tfjson.ResourceChanges plan) rcs →
     CreatedAddresses pd = tfjson.Address <$> filter to_created (tfjson.ResourceChanges plan) ∧
     UpdatedAddresses pd = tfjson.Address <$> filter to_updated (tfjson.ResourceChanges plan) ∧
     DeletedAddresses pd = tfjson.Address <$> filter to_deleted (tfjson.ResourceChanges plan) ∧
     ReplacedAddresses pd = tfjson.Address <$> filter to_replaced (tfjson.ResourceChanges plan) ∧
     tfjson.Address ∘ ResourceChange <$> ResourceChanges pd
       = tfjson.Address <$> filter retained (tfjson.ResourceChanges plan)).
Proof.
  intros (plan & sp & Hp & Hs & Hc & Hu & Hd & Hr & Hrs)%NewPlanData_spec.
  exists plan, sp. cbv zeta in *.
  assert (tfjson.Address ∘ ResourceChange <$> ResourceChanges pd
          = tfjson.Address <$> filter retained (tfjson.ResourceChanges sp)) as Hkept.
  { clear -Hrs. induction Hrs as [|c r cs rs Hcr _ IH]; [done|].
    rewrite !fmap_cons, IH. f_equal. cbn.
    apply ResourceChangeData__formatJsonString_Ok in Hcr
      as (b & a & _ & _ & Haddr & _). done. }
  rewrite Hc, Hu, Hd, Hr, Hkept.
  do 7 (split; [done|]).
  do 5 (split; [apply fmap_sublist, sublist_filter|]).
  split; [apply Render_report|].
  intros Hshape.
  repeat split; symmetry; apply fmap_filter_same_shape; try done;
    intros c c' Hcc'; by apply same_shape_classified.
Qed.

(** ** C7: the summary line *)

(** C7.  The first line of what [Render] writes is the summary, with the
    lengths of the four address lists in decimal; this holds also when a
    diff fails and the rendering stops short. *)
Theorem summary_is_first_line (p : PlanData) :
  first_line (PlanData__Render p).1 =
  "### " +:+ template.itoa (length (CreatedAddresses p)) +:+ " to add, "
  +:+ template.itoa (length (UpdatedAddresses p)) +:+ " to change, "
  +:+ template.itoa (length (DeletedAddresses p)) +:+ " to destroy, "
  +:+ template.itoa (length (ReplacedAddresses p)) +:+ " to replace.".
Proof.
  rewrite Render_report. apply first_line_report.
Qed.

(** ** C1: the four address lists *)

(** C1, as amended.  An address is in one of the four lists exactly when it
    is the address of a resource change (of the sanitized plan, and of the
    parsed plan when the sanitizer kept the shape of the changes) that is
    not skipped and matches create, update, delete or replace; and when no
    two retained changes share an address, the four lists are pairwise
    disjoint. *)
Theorem classification (input : string) (pd : PlanData) :
  NewPlanData input = Ok pd →
  ∃ plan sanitizedPlan,
    json.Unmarshal_Plan input = Ok plan ∧
    sanitize.SanitizePlan plan = Ok sanitizedPlan ∧
    let rcs := tfjson.ResourceChanges sanitizedPlan in
    (∀ a, a ∈ all_addresses pd ↔
          ∃ c, c ∈ rcs ∧ tfjson.Address c = a ∧ retained c = true ∧ matches_one c = true) ∧
    (NoDup (tfjson.Address <$> filter retained rcs) → pairwise_disjoint pd) ∧
    (Forall2 same_shape (tfjson.ResourceChanges plan) rcs →
     ∀ a, a ∈ all_addresses pd ↔
          ∃ c, c ∈ tfjson.ResourceChanges plan ∧ tfjson.Address c = a ∧
               retained c = true ∧ matches_one c = true).
Proof.
  intros (plan & sp & Hp & Hs & Hc & Hu & Hd & Hr & Hrs)%NewPlanData_spec.
  exists plan, sp. cbv zeta in *. split; [done|]. split; [done|].
  assert (∀ a, a ∈ all_addresses pd ↔
               ∃ c, c ∈ tfjson.ResourceChanges sp ∧ tfjson.Address c = a ∧
                    retained c = true ∧ matches_one c = true) as Hiff; [|split; [done|split]].
  - intros a. unfold all_addresses. rewrite Hc, Hu, Hd, Hr.
    rewrite !elem_of_app, !list_elem_of_fmap.
    setoid_rewrite list_elem_of_filter.
    assert (∀ c, (to_created c ∨ to_updated c ∨ to_deleted c ∨ to_replaced c)
                 ↔ retained c = true ∧ matches_one c = true) as Hcases.
    { intros c. unfold to_created, to_updated, to_deleted, to_replaced, matches_one.
      set (acts := tfjson.Actions_ (tfjson.Change_ c)).
      destruct (retained c), (tfjson.Create acts), (tfjson.Update acts), (tfjson.Delete acts),
        (tfjson.Replace acts); cbn; intuition congruence. }
    split.
    + intros [(c & -> & Hc1 & Hc2)|[(c & -> & Hc1 & Hc2)|[(c & -> & Hc1 & Hc2)
                |(c & -> & Hc1 & Hc2)]]];
        exists c; (split; [done|]); (split; [done|]); apply Hcases; tauto.
    + intros (c & Hc1 & <- & Hc2). apply Hcases in Hc2.
      destruct Hc2 as [?|[?|[?|?]]]; [left|right; left|right; right; left|right; right; right];
        exists c; tauto.
  - intros Hnd. unfold pairwise_disjoint. rewrite Hc, Hu, Hd, Hr.
    repeat split; apply (fmap_filter_disjoint _ _ _ retained); try done;
      intros c; unfold to_created, to_updated, to_deleted, to_replaced, retained;
      set (acts := tfjson.Actions_ (tfjson.Change_ c));
      destruct (tfjson.NoOp acts), (tfjson.Read acts), (tfjson.Create acts), (tfjson.Update acts),
        (tfjson.Delete acts), (tfjson.Replace acts); cbn; tauto.
  - intros Hshape a. rewrite Hiff. clear -Hshape. split.
    + intros (c' & Hc' & <- & Hret & Hone).
      apply list_elem_of_lookup in Hc' as [i Hi].
      destruct (Forall2_lookup_r _ _ _ _ _ Hshape Hi) as (c & Hc & Hcc').
      exists c. destruct (same_shape_classified c c' Hcc') as (-> & -> & _).
      split; [by eapply list_elem_of_lookup_2|]. split; [apply Hcc'|done].
    + intros (c & Hc & <- & Hret & Hone).
      apply list_elem_of_lookup in Hc as [i Hi].
      destruct (Forall2_lookup_l _ _ _ _ _ Hshape Hi) as (c' & Hc' & Hcc').
      exists c'. destruct (same_shape_classified c c' Hcc') as (<- & <- & _).
      split; [by eapply list_elem_of_lookup_2|]. split; [symmetry; apply Hcc'|done].
Qed.

(** ** C10: normalisation cannot fail *)

(** C10.  Provided [json.MarshalIndent] accepts every [json.RawMessage]
    that [json.Unmarshal] gives for a text [json.Valid] accepts, [format]
    returns no error on any value, neither do the two [formatJsonString],
    and the only errors of [NewPlanData] are those of parsing and of
    sanitizing. *)
Theorem format_never_fails :
  (∀ s j, json.Valid s = true → json.Unmarshal_RawMessage s = Ok j →
          is_Ok (json.MarshalIndent_RawMessage j "" "  ")) →
  (∀ v, is_Ok (ResourceChangeData__format v)) ∧
  (∀ r, is_Ok (ResourceChangeData__formatJsonString r)) ∧
  (∀ p, is_Ok (PlanData__formatJsonString p)) ∧
  (∀ input err,
     NewPlanData input = Err err →
     (∃ e, json.Unmarshal_Plan input = Err e ∧ err = ErrWrap "cannot parse input: " e) ∨
     (∃ plan e, json.Unmarshal_Plan input = Ok plan ∧ sanitize.SanitizePlan plan = Err e ∧
                err = ErrWrap "failed to sanitize plan: " e)).
Proof.
  intros Hlaw.
  assert (∀ v, is_Ok (ResourceChangeData__format v)) as Hformat.
  { intros v. exists (normalize v). by apply format_normalize. }
  assert (∀ r, is_Ok (ResourceChangeData__formatJsonString r)) as Hrcd.
  { intros r. unfold ResourceChangeData__formatJsonString.
    destruct (Hformat (tfjson.Before (tfjson.Change_ (ResourceChange r)))) as [b ->].
    destruct (Hformat (tfjson.After (tfjson.Change_ (ResourceChange r)))) as [a ->].
    by eexists. }
  assert (∀ p, is_Ok (PlanData__formatJsonString p)) as Hplan.
  { intros p. unfold PlanData__formatJsonString.
    destruct (mapM_is_Ok ResourceChangeData__formatJsonString (ResourceChanges p))
      as [rs ->]; [by intros|by eexists]. }
  repeat split; try done.
  intros input err. unfold NewPlanData.
  destruct (json.Unmarshal_Plan input) as [plan|e] eqn:Hp.
  2:{ intros [= <-]. left. by exists e. }
  destruct (sanitize.SanitizePlan plan) as [sp|e] eqn:Hs.
  2:{ intros [= <-]. right. exists plan, e. done. }
  destruct (Hplan (foldl NewPlanData_loop PlanData_zero (tfjson.ResourceChanges sp)))
    as [pd ->]. done.
Qed.

(** ** C4: normalisation is idempotent *)

(** C4.  Provided [json.MarshalIndent] accepts what [json.Valid] and
    [json.Unmarshal] accepted, and the text it writes is valid and is
    written back as itself: [format] returns a value on every value, and
    returns that value unchanged when applied to it; and so do the two
    [formatJsonString] with the record and the plan data they leave. *)
Theorem format_idempotent :
  (∀ s j, json.Valid s = true → json.Unmarshal_RawMessage s = Ok j →
          is_Ok (json.MarshalIndent_RawMessage j "" "  ")) →
  (∀ s j a, json.Valid s = true → json.Unmarshal_RawMessage s = Ok j →
            json.MarshalIndent_RawMessage j "" "  " = Ok a →
            json.Valid a = true ∧
            ∃ j', json.Unmarshal_RawMessage a = Ok j' ∧
                  json.MarshalIndent_RawMessage j' "" "  " = Ok a) →
  (∀ v, ∃ v', ResourceChangeData__format v = Ok v' ∧
              ResourceChangeData__format v' = Ok v') ∧
  (∀ r, ∃ r', ResourceChangeData__formatJsonString r = Ok r' ∧
              ResourceChangeData__formatJsonString r' = Ok r') ∧
  (∀ p, ∃ p', PlanData__formatJsonString p = Ok p' ∧
              PlanData__formatJsonString p' = Ok p').
Proof.
  intros Hok Hlaw.
  assert (∀ v v', ResourceChangeData__format v = Ok v' →
                  ResourceChangeData__format v' = Ok v') as Hformat.
  { induction v as [|b|f|s|x IH|x IH] using value_ind'; intros v';
      try (by intros [= <-]).
    - cbn [ResourceChangeData__format].
      destruct (json.Valid s) eqn:Hvalid; cbn [negb].
      2:{ intros [= <-]. cbn [ResourceChangeData__format]. by rewrite Hvalid. }
      destruct (json.Unmarshal_RawMessage s) as [j|e] eqn:Hj.
      2:{ intros [= <-]. cbn [ResourceChangeData__format]. by rewrite Hvalid, Hj. }
      destruct (json.MarshalIndent_RawMessage j "" "  ") as [a|e] eqn:Ha; [|done].
      intros [= <-]. destruct (Hlaw s j a Hvalid Hj Ha) as (Hvalid' & j' & Hj' & Ha').
      cbn [ResourceChangeData__format]. by rewrite Hvalid', Hj', Ha'.
    - cbn [ResourceChangeData__format].
      destruct (mapM ResourceChangeData__format x) as [x'|e] eqn:Hx; [|done].
      intros [= <-]. cbn [ResourceChangeData__format].
      apply mapM_Ok in Hx.
      assert (mapM ResourceChangeData__format x' = Ok x') as ->; [|done].
      apply mapM_Ok. clear -IH Hx. induction Hx as [|a b x x' Hab _ IHx]; [done|].
      apply Forall_cons in IH as [Ha IH]. constructor; auto.
    - cbn [ResourceChangeData__format].
      destruct (map_sequence (ResourceChangeData__format <$> x)) as [x'|e] eqn:Hx; [|done].
      intros [= <-]. cbn [ResourceChangeData__format].
      apply map_sequence_Ok in Hx.
      assert (map_sequence (ResourceChangeData__format <$> x') = Ok x') as ->; [|done].
      apply map_sequence_Ok. apply map_eq. intros k.
      assert (ResourceChangeData__format <$> x !! k = Ok <$> x' !! k) as Hk.
      { by rewrite <- !lookup_fmap, Hx. }
      rewrite !lookup_fmap.
      destruct (x' !! k) as [v'|]; [|done].
      destruct (x !! k) as [v|] eqn:Hv; [|done].
      injection Hk as Hk. cbn. f_equal. by eapply IH. }
  assert (∀ v v', ResourceChangeData__format v = Ok v' →
                  ResourceChangeData__format (seen_by_caller v v') = Ok v') as Hseen.
  { intros v v' Hv. destruct v; cbn [seen_by_caller]; eauto. }
  assert (∀ v v', ResourceChangeData__format v = Ok v' →
                  seen_by_caller (seen_by_caller v v') v' = seen_by_caller v v') as Hseen'.
  { intros v v' Hv. destruct v; cbn [seen_by_caller]; try done.
    - cbn [ResourceChangeData__format] in Hv.
      destruct (mapM _ _); [|done]. by injection Hv as <-.
    - cbn [ResourceChangeData__format] in Hv.
      destruct (map_sequence _); [|done]. by injection Hv as <-. }
  assert (∀ r r', ResourceChangeData__formatJsonString r = Ok r' →
                  ResourceChangeData__formatJsonString r' = Ok r') as Hrcd.
  { intros r r'. unfold ResourceChangeData__formatJsonString at 1.
    destruct (ResourceChangeData__format (tfjson.Before _)) as [b|e] eqn:Hb; [|done].
    destruct (ResourceChangeData__format (tfjson.After _)) as [a|e] eqn:Ha; [|done].
    intros [= <-]. unfold ResourceChangeData__formatJsonString.
    cbn [ResourceChange tfjson.Change_ tfjson.Before tfjson.After tfjson.Address
         tfjson.Type_ tfjson.Name tfjson.Actions_].
    rewrite (Hseen _ _ Hb), (Hseen _ _ Ha), (Hseen' _ _ Hb), (Hseen' _ _ Ha). done. }
  assert (∀ p p', PlanData__formatJsonString p = Ok p' →
                  PlanData__formatJsonString p' = Ok p') as Hplan.
  { intros p p'. unfold PlanData__formatJsonString at 1.
    destruct (mapM _ _) as [rs|e] eqn:Hrs; [|done]. intros [= <-].
    unfold PlanData__formatJsonString. cbn [ResourceChanges].
    assert (mapM ResourceChangeData__formatJsonString rs = Ok rs) as ->; [|done].
    apply mapM_Ok in Hrs. apply mapM_Ok.
    clear -Hrs Hrcd. induction Hrs; constructor; eauto. }
  assert (∀ r, is_Ok (ResourceChangeData__formatJsonString r)) as Hrcd_ok.
  { intros r. unfold ResourceChangeData__formatJsonString.
    rewrite !(format_normalize Hok). by eexists. }
  split; [|split].
  - intros v. exists (normalize v). pose proof (format_normalize Hok v) as Hv. eauto.
  - intros r. destruct (Hrcd_ok r) as [r' Hr]. eauto.
  - intros p.
    destruct (mapM_is_Ok ResourceChangeData__formatJsonString (ResourceChanges p))
      as [rs Hrs]; [by intros|].
    eexists. split; [|eapply Hplan]; unfold PlanData__formatJsonString; by rewrite Hrs.
Qed.

(** ** C5: equal values give no changed line *)


End claims.

(** * The claims on the example plans *)

Section examples_facts.
Import examples.
Local Existing Instance ref.imports.

(** The report of a plan that creates one resource. *)
Example list_plan_report :
  (λ pd, (PlanData__Render pd).1) <$> NewPlanData list_plan = Ok
"### 1 to add, 0 to change, 0 to destroy, 0 to replace.
- add
    - terraform_data.ports
<details><summary>Change details</summary>

````````diff
# terraform_data.ports will be created
@@ -1 +1,4 @@
-null
+[
+  80,
+  443
+]
````````

</details>
".
Proof. vm_compute. reflexivity. Qed.

(** C9 on a text that is not JSON. *)
Lemma NewPlanData_parse_error_witness :
  NewPlanData "not json" =
  Err (ErrWrap "cannot parse input: " (ErrLib "json: invalid text")).
Proof. apply NewPlanData_parse_error. vm_compute. reflexivity. Defined.


(** C3 on a change that is forgotten. *)
Lemma unmatched_change_retained_witness :
  ResourceChanges (NewPlanData_loop PlanData_zero forget_old_change) =
    [{| ResourceChange := forget_old_change |}] ∧
  all_addresses (NewPlanData_loop PlanData_zero forget_old_change) = [] ∧
  ResourceChangeData__HeaderSuffix {| ResourceChange := forget_old_change |} = "".
Proof.
  destruct (unmatched_change_retained forget_old_change) as (Hloop & Hsuffix & _);
    try (vm_compute; reflexivity).
  destruct (Hloop PlanData_zero) as (Hc & Hu & Hd & Hr & Hrs).
  split; [exact Hrs|]. split; [|exact Hsuffix].
  unfold all_addresses. rewrite Hc, Hu, Hd, Hr. reflexivity.
Defined.

(** C8 on the mixed plan. *)
Lemma order_preserved_witness :
  ∃ pd, NewPlanData mixed_plan = Ok pd ∧
        sublist (CreatedAddresses pd ++ UpdatedAddresses pd)
                ["aws_instance.foo"; "aws_instance.bar"; "aws_instance.baz";
                 "aws_instance.qux"; "aws_instance.web"] ∧
        PlanData__Render pd = report pd.
Proof.
  destruct (NewPlanData mixed_plan) as [pd|e] eqn:Hpd;
    [|vm_compute in Hpd; discriminate Hpd].
  exists pd. split; [reflexivity|].
  destruct (order_preserved mixed_plan pd Hpd)
    as (plan & sp & Hp & Hs & Hc & Hu & _ & _ & _ & _ & _ & _ & _ & _ & Hrender & _).
  split; [|exact Hrender].
  vm_compute in Hp. injection Hp as <-. vm_compute in Hs. injection Hs as <-.
  rewrite Hc, Hu. vm_compute.
  apply sublist_skip, sublist_cons, sublist_skip, sublist_nil_l.
Defined.

(** C1, as amended, on the mixed plan. *)
Lemma classification_witness :
  ∃ pd, NewPlanData mixed_plan = Ok pd ∧
        "aws_instance.web" ∈ all_addresses pd ∧
        ("aws_instance.bar" ∉ all_addresses pd) ∧
        pairwise_disjoint pd.
Proof.
  destruct (NewPlanData mixed_plan) as [pd|e] eqn:Hpd;
    [|vm_compute in Hpd; discriminate Hpd].
  exists pd. split; [reflexivity|].
  destruct (classification mixed_plan pd Hpd) as (plan & sp & Hp & Hs & Hiff & Hdisj & _).
  vm_compute in Hp. injection Hp as <-. vm_compute in Hs. injection Hs as <-.
  clear Hpd. split; [|split].
  - apply Hiff. exists replace_web_change.
    split; [do 4 right; left|vm_compute; repeat split].
  - intros (c & Hc & Haddr & Hret & _)%Hiff.
    repeat (apply elem_of_cons in Hc as [->|Hc];
            [vm_compute in Haddr, Hret; congruence|]).
    apply elem_of_nil in Hc. exact Hc.
  - apply Hdisj. vm_compute. apply (bool_decide_unpack _). vm_compute. exact I.
Defined.

(** C1, as stated, fails twice: the address of a change that is forgotten
    is in none of the four lists, and the address shared by a resource and
    its deposed object is in two of them. *)
Lemma classification_counterexample :
  ¬ classification_as_stated ref.imports forget_plan ∧
  ¬ classification_as_stated ref.imports deposed_plan.
Proof.
  split.
  - intros Hclaim. edestruct Hclaim as [Hiff _]; [vm_compute; reflexivity..|].
    assert ("aws_instance.old" ∈ @nil string) as Hin; [|by apply elem_of_nil in Hin].
    apply Hiff. exists forget_old_change.
    split; [left|vm_compute; repeat split].
  - intros Hclaim. edestruct Hclaim as [_ Hdisj]; [vm_compute; reflexivity..|].
    destruct Hdisj as (_ & _ & _ & Hud & _).
    apply (Hud "aws_instance.dup"); left.
Defined.

(** C10 on the reference implementation. *)
Lemma format_never_fails_witness :
  is_Ok (ResourceChangeData__format
           (VArray [VString "[1,{}]"; VString "x"; object [("k", VString "true ")]])) ∧
  is_Ok (NewPlanData nested_plan).
Proof.
  destruct (@format_never_fails ref.imports ref_facts.marshal_of_valid)
    as (Hformat & _ & _ & Herr).
  split; [apply Hformat|].
  destruct (NewPlanData nested_plan) as [pd|e] eqn:Hpd; [exists pd; reflexivity|].
  destruct (Herr _ _ Hpd) as [(e0 & Hp & _)|(plan & e0 & _ & Hs & _)].
  - vm_compute in Hp. discriminate Hp.
  - vm_compute in Hs. discriminate Hs.
Defined.

(** C4 on the reference implementation. *)
Lemma format_idempotent_witness :
  ∃ v', ResourceChangeData__format
          (VArray [VString "[1,{}]"; VString "x"; object [("k", VString "true ")]]) = Ok v' ∧
        ResourceChangeData__format v' = Ok v'.
Proof.
  destruct (@format_idempotent ref.imports ref_facts.marshal_of_valid
              ref_facts.reencoding_is_fixed) as (Hformat & _ & _).
  apply Hformat.
Defined.


(** C2 fails on an after value that is a string holding JSON: [format]
    returns the text written again with two spaces of indentation, and the
    plan data keep the string as it was; a string inside an object is
    replaced. *)
Theorem top_level_string_kept :
  json.Valid "[1,2]" = true ∧
  ResourceChangeData__format (VString "[1,2]")
    = Ok (VString ("[" +:+ LF +:+ "  1," +:+ LF +:+ "  2" +:+ LF +:+ "]")) ∧
  after_values <$> NewPlanData raw_plan = Ok [VString "[1,2]"] ∧
  after_values <$> NewPlanData nested_plan
    = Ok [object [("user_data",
                   VString ("[" +:+ LF +:+ "  1," +:+ LF +:+ "  {}" +:+ LF +:+ "]"))]].
Proof. vm_compute. repeat split. Qed.

End examples_facts.

(** * Further properties of [plan.go] *)

(** ** The first error of a traversal *)

Lemma mapM_Err {A B} (f : A → result B) (l : list A) (e : error) :
  mapM f l = Err e ↔
  ∃ done x rest, l = done ++ x :: rest ∧ Forall (λ y, is_Ok (f y)) done ∧ f x = Err e.
Proof.
  induction l as [|x l IH]; simpl.
  - split; [done|]. intros (done & y & rest & Hl & _). by destruct done.
  - unfold mbind, result_bind, mret, result_ret. destruct (f x) as [y|e'] eqn:Hx.
    + fold (mapM f l). destruct (mapM f l) as [k|e'] eqn:Hl.
      * split; [done|].
        intros (done & x0 & rest & Hxl & Hdone & Hx0).
        destruct done as [|d done]; simpl in Hxl; injection Hxl as -> Hl'.
        { congruence. }
        apply Forall_cons in Hdone as [_ Hdone].
        assert (Ok k = Err e) as Habs; [|discriminate Habs].
        apply IH. by exists done, x0, rest.
      * split.
        -- intros [= ->]. destruct IH as [IH _].
           destruct (IH eq_refl) as (done & x0 & rest & -> & Hdone & Hx0).
           exists (x :: done), x0, rest. split; [reflexivity|]. split; [|exact Hx0].
           constructor; [by exists y|exact Hdone].
        -- intros (done & x0 & rest & Hxl & Hdone & Hx0).
           destruct done as [|d done]; simpl in Hxl; injection Hxl as -> Hl'.
           { congruence. }
           apply Forall_cons in Hdone as [_ Hdone]. destruct IH as [_ IH].
           rewrite IH; [done|]. by exists done, x0, rest.
    + split.
      * intros [= ->]. exists [], x, l. by repeat split.
      * intros (done & x0 & rest & Hl & Hdone & Hx0).
        destruct done as [|d done]; simpl in Hl; injection Hl as -> ->.
        { congruence. }
        apply Forall_cons in Hdone as [[y Hy] _]. congruence.
Qed.

Lemma mapM_Ok_all {A B} (f : A → result B) (l : list A) :
  is_Ok (mapM f l) ↔ Forall (λ x, is_Ok (f x)) l.
Proof.
  split.
  - intros [k Hk]. apply mapM_Ok in Hk. induction Hk; constructor; [by eexists|done].
  - intros Hl. apply mapM_is_Ok. by apply Forall_forall.
Qed.

Lemma map_sequence_Err {A} (m : gmap string (result A)) (e : error) :
  map_sequence m = Err e → ∃ k, m !! k = Some (Err e).
Proof.
  unfold map_sequence.
  apply (map_fold_weak_ind (λ r m, r = Err e → ∃ k, m !! k = Some (Err e))).
  - done.
  - intros i x m0 r Hi IH Hr. destruct r as [m1|e1].
    + destruct x as [a|e2]; [done|]. injection Hr as ->.
      exists i. by rewrite lookup_insert_eq.
    + injection Hr as ->. destruct IH as [k Hk]; [done|].
      exists k. rewrite lookup_insert_ne; [done|]. intros ->. congruence.
Qed.

Lemma elem_of_strings_of_array (s : string) (x : list value) :
  s ∈ strings_of (VArray x) ↔ ∃ v, v ∈ x ∧ s ∈ strings_of v.
Proof.
  cbn [strings_of]. rewrite list_elem_of_join. split.
  - intros (l & Hs & (v & -> & Hv)%list_elem_of_fmap). eauto.
  - intros (v & Hv & Hs). exists (strings_of v). split; [done|].
    apply list_elem_of_fmap. eauto.
Qed.

Lemma elem_of_strings_of_object (s : string) (x : gmap string value) :
  s ∈ strings_of (VObject x) ↔ ∃ k v, x !! k = Some v ∧ s ∈ strings_of v.
Proof.
  cbn [strings_of]. rewrite list_elem_of_join. split.
  - intros (l & Hs & ([k l'] & -> & Hkl)%list_elem_of_fmap).
    apply elem_of_map_to_list in Hkl. rewrite lookup_fmap in Hkl.
    destruct (x !! k) as [v|] eqn:Hv; [|done]. injection Hkl as <-. eauto.
  - intros (k & v & Hv & Hs). exists (strings_of v). split; [done|].
    apply list_elem_of_fmap. exists (k, strings_of v). split; [done|].
    apply elem_of_map_to_list. by rewrite lookup_fmap, Hv.
Qed.

(** ** [format] on any value *)

Section format_properties.
Context `{!Imports}.

Lemma format_Ok_normalize (v v' : value) :
  ResourceChangeData__format v = Ok v' → v' = normalize v.
Proof.
  revert v'. induction v as [|b|f|s|x IH|x IH] using value_ind'; intros v';
    try (by intros [= <-]).
  - cbn [ResourceChangeData__format normalize]. unfold reencoded.
    destruct (json.Valid s); cbn [negb]; [|by intros [= <-]].
    destruct (json.Unmarshal_RawMessage s) as [j|e]; [|by intros [= <-]].
    destruct (json.MarshalIndent_RawMessage j "" "  ") as [a|e]; [|done].
    by intros [= <-].
  - cbn [ResourceChangeData__format normalize].
    destruct (mapM ResourceChangeData__format x) as [x'|e] eqn:Hx; [|done].
    intros [= <-]. f_equal. apply mapM_Ok in Hx.
    induction Hx as [|a b x x' Hab _ IHx]; [done|].
    apply Forall_cons in IH as [Ha IH]. rewrite fmap_cons. f_equal; auto.
  - cbn [ResourceChangeData__format normalize].
    destruct (map_sequence (ResourceChangeData__format <$> x)) as [x'|e] eqn:Hx; [|done].
    intros [= <-]. f_equal. apply map_sequence_Ok in Hx.
    apply map_eq. intros k.
    assert (ResourceChangeData__format <$> x !! k = Ok <$> x' !! k) as Hk.
    { by rewrite <- !lookup_fmap, Hx. }
    rewrite lookup_fmap.
    destruct (x !! k) as [v|] eqn:Hv; destruct (x' !! k) as [w|]; try done.
    injection Hk as Hk. cbn. f_equal. by apply (IH k v Hv).
Qed.

Lemma skeleton_normalize (v : value) : skeleton (normalize v) = skeleton v.
Proof.
  induction v as [|b|f|s|x IH|x IH] using value_ind'; try done.
  - cbn [normalize]. by destruct (json.Valid s).
  - cbn [normalize skeleton]. f_equal. rewrite <- list_fmap_compose.
    apply Forall_fmap_ext_1. exact IH.
  - cbn [normalize skeleton]. f_equal. rewrite <- map_fmap_compose.
    apply map_fmap_ext. intros k v Hv. by apply (IH k v Hv).
Qed.

Lemma format_Err_refused (v : value) (err : error) :
  ResourceChangeData__format v = Err err → ∃ s, s ∈ strings_of v ∧ refused s err.
Proof.
  induction v as [|b|f|s|x IH|x IH] using value_ind'; try done.
  - cbn [ResourceChangeData__format].
    destruct (json.Valid s) eqn:Hvalid; cbn [negb]; [|done].
    destruct (json.Unmarshal_RawMessage s) as [j|e] eqn:Hj; [|done].
    destruct (json.MarshalIndent_RawMessage j "" "  ") as [a|e] eqn:Ha; [done|].
    intros [= <-]. exists s. split; [left|]. split; [done|]. by exists j.
  - cbn [ResourceChangeData__format].
    destruct (mapM ResourceChangeData__format x) as [x'|e] eqn:Hx; [done|].
    intros [= <-]. apply mapM_Err in Hx as (done & v & rest & -> & _ & Hv).
    apply Forall_app in IH as [_ [IH _]%Forall_cons].
    destruct (IH Hv) as (s & Hs & Hrefused). exists s. split; [|done].
    apply elem_of_strings_of_array. exists v. split; [|done].
    apply elem_of_app. right. left.
  - cbn [ResourceChangeData__format].
    destruct (map_sequence (ResourceChangeData__format <$> x)) as [x'|e] eqn:Hx; [done|].
    intros [= <-]. apply map_sequence_Err in Hx as [k Hk].
    rewrite lookup_fmap in Hk. destruct (x !! k) as [v|] eqn:Hv; [|done].
    injection Hk as Hk. destruct (IH k v Hv Hk) as (s & Hs & Hrefused).
    exists s. split; [|done]. apply elem_of_strings_of_object. eauto.
Qed.

Lemma format_Ok_not_refused (v : value) :
  is_Ok (ResourceChangeData__format v) →
  ∀ s err, s ∈ strings_of v → ¬ refused s err.
Proof.
  induction v as [|b|f|s0|x IH|x IH] using value_ind'; intros Hok s err Hs;
    try (by apply elem_of_nil in Hs).
  - apply list_elem_of_singleton in Hs as ->. intros (Hvalid & j & Hj & Ha).
    destruct Hok as [v' Hv']. cbn [ResourceChangeData__format] in Hv'.
    rewrite Hvalid, Hj, Ha in Hv'. discriminate Hv'.
  - apply elem_of_strings_of_array in Hs as (v & Hv & Hs).
    destruct Hok as [v' Hv']. cbn [ResourceChangeData__format] in Hv'.
    destruct (mapM ResourceChangeData__format x) as [x'|e] eqn:Hx; [|done].
    assert (is_Ok (mapM ResourceChangeData__format x)) as Hall by (by eexists).
    apply mapM_Ok_all in Hall.
    rewrite Forall_forall in IH, Hall. by apply (IH v Hv (Hall v Hv)).
  - apply elem_of_strings_of_object in Hs as (k & v & Hv & Hs).
    destruct Hok as [v' Hv']. cbn [ResourceChangeData__format] in Hv'.
    destruct (map_sequence (ResourceChangeData__format <$> x)) as [x'|e] eqn:Hx; [|done].
    apply map_sequence_Ok in Hx.
    assert (ResourceChangeData__format <$> x !! k = Ok <$> x' !! k) as Hk.
    { by rewrite <- !lookup_fmap, Hx. }
    rewrite Hv in Hk. destruct (x' !! k) as [w|]; [|done]. injection Hk as Hk.
    apply (IH k v Hv); [by exists w|done].
Qed.

End format_properties.

(** ** What [formatJsonString] leaves *)

Section formatJsonString_properties.
Context `{!Imports}.

Lemma seen_by_caller_format (v v' : value) :
  ResourceChangeData__format v = Ok v' → seen_by_caller v v' = field_after_format v.
Proof.
  intros Hv. apply format_Ok_normalize in Hv as ->. by destruct v.
Qed.

Lemma ResourceChangeData__formatJsonString_result (r r' : ResourceChangeData) :
  ResourceChangeData__formatJsonString r = Ok r' → r' = record_after_format r.
Proof.
  unfold ResourceChangeData__formatJsonString, record_after_format.
  destruct (ResourceChangeData__format (tfjson.Before _)) as [b|e] eqn:Hb; [|done].
  destruct (ResourceChangeData__format (tfjson.After _)) as [a|e] eqn:Ha; [|done].
  intros [= <-]. by rewrite (seen_by_caller_format _ _ Hb), (seen_by_caller_format _ _ Ha).
Qed.

Lemma ResourceChangeData__formatJsonString_Err (r : ResourceChangeData) (err : error) :
  ResourceChangeData__formatJsonString r = Err err ↔
  ResourceChangeData__format (tfjson.Before (tfjson.Change_ (ResourceChange r))) = Err err ∨
  (is_Ok (ResourceChangeData__format (tfjson.Before (tfjson.Change_ (ResourceChange r)))) ∧
   ResourceChangeData__format (tfjson.After (tfjson.Change_ (ResourceChange r))) = Err err).
Proof.
  unfold ResourceChangeData__formatJsonString.
  destruct (ResourceChangeData__format (tfjson.Before _)) as [b|e] eqn:Hb.
  - destruct (ResourceChangeData__format (tfjson.After _)) as [a|e] eqn:Ha.
    + split; [done|]. intros [Habs|[_ Habs]]; discriminate Habs.
    + split.
      * intros [= ->]. right. split; [by exists b|done].
      * intros [Habs|[_ Hgoal]]; [discriminate Habs|congruence].
  - split.
    + intros [= ->]. by left.
    + intros [Hgoal|[[b Habs] _]]; [congruence|discriminate Habs].
Qed.

Lemma HeaderSuffix_record_after_format (r : ResourceChangeData) :
  ResourceChangeData__HeaderSuffix (record_after_format r) = ResourceChangeData__HeaderSuffix r.
Proof. reflexivity. Qed.

Lemma PlanData__formatJsonString_result (p p' : PlanData) :
  PlanData__formatJsonString p = Ok p' →
  p' = {| CreatedAddresses := CreatedAddresses p;
          UpdatedAddresses := UpdatedAddresses p;
          DeletedAddresses := DeletedAddresses p;
          ReplacedAddresses := ReplacedAddresses p;
          ResourceChanges := record_after_format <$> ResourceChanges p |}.
Proof.
  unfold PlanData__formatJsonString.
  destruct (mapM _ _) as [rs|e] eqn:Hrs; [|done]. intros [= <-]. f_equal.
  apply mapM_Ok in Hrs. induction Hrs as [|r r' rs rs' Hr _ IH]; [done|].
  rewrite fmap_cons. f_equal; [|exact IH].
  by apply ResourceChangeData__formatJsonString_result.
Qed.

End formatJsonString_properties.

(** ** Filters *)

Lemma filter_fmap {A B} (f : A → B) (P : B → Prop) `{!∀ y, Decision (P y)} (l : list A) :
  filter P (f <$> l) = f <$> filter (λ x, P (f x)) l.
Proof.
  induction l as [|x l IH]; [done|].
  rewrite fmap_cons, !filter_cons. destruct (decide (P (f x))); [|done].
  by rewrite fmap_cons, IH.
Qed.

Lemma mapM_fmap {A B C} (g : A → B) (f : B → result C) (l : list A) :
  mapM f (g <$> l) = mapM (f ∘ g) l.
Proof.
  induction l as [|x l IH]; [done|]. rewrite fmap_cons. cbn [mapM]. by rewrite IH.
Qed.

(** ** The plan data of [NewPlanData] *)

Section NewPlanData_properties.
Context `{!Imports}.

Lemma to_retained (c : tfjson.ResourceChange) :
  (to_created c → retained c) ∧ (to_updated c → retained c) ∧
  (to_deleted c → retained c) ∧ (to_replaced c → retained c).
Proof.
  unfold to_created, to_updated, to_deleted, to_replaced.
  destruct (retained c); cbn; tauto.
Qed.

(** The loop sees the changes that are not skipped, and nothing else. *)
Lemma loop_on_retained (rcs : list tfjson.ResourceChange) (p : PlanData) :
  foldl NewPlanData_loop p rcs = foldl NewPlanData_loop p (filter retained rcs).
Proof.
  rewrite !loop_spec.
  rewrite !list_filter_filter_l; try done; intros c; apply to_retained.
Qed.

Lemma HeaderSuffix_cases (c : tfjson.ResourceChange) :
  let suffix := ResourceChangeData__HeaderSuffix {| ResourceChange := c |} in
  (retained c ∧ suffix = "will be created" ↔ to_created c) ∧
  (retained c ∧ suffix = "will be updated in-place" ↔ to_updated c) ∧
  (retained c ∧ suffix = "will be destroyed" ↔ to_deleted c) ∧
  (retained c ∧ suffix = "will be replaced" ↔ to_replaced c) ∧
  (suffix = "" ↔ matches_one c = false).
Proof.
  unfold ResourceChangeData__HeaderSuffix, to_created, to_updated, to_deleted, to_replaced,
    matches_one.
  cbn [ResourceChange].
  destruct (retained c), (tfjson.Create _), (tfjson.Update _), (tfjson.Delete _),
    (tfjson.Replace _); cbn; repeat split; try tauto; try discriminate;
    intros [? ?]; try tauto; discriminate.
Qed.

Lemma with_suffix_retained (suffix : string) (P : tfjson.ResourceChange → bool)
  (rcs : list tfjson.ResourceChange) :
  (∀ c, retained c ∧ ResourceChangeData__HeaderSuffix {| ResourceChange := c |} = suffix
        ↔ P c) →
  with_suffix suffix (record_after_format <$> (Build_ResourceChangeData <$> filter retained rcs))
  = tfjson.Address <$> filter P rcs.
Proof.
  intros HP. unfold with_suffix.
  rewrite !filter_fmap, <- !list_fmap_compose, list_filter_filter.
  f_equal. apply list_filter_iff. intros c. rewrite <- HP.
  rewrite HeaderSuffix_record_after_format. tauto.
Qed.

Lemma NewPlanData_result (input : string) (pd : PlanData) :
  NewPlanData input = Ok pd →
  ∃ plan sanitizedPlan,
    json.Unmarshal_Plan input = Ok plan ∧
    sanitize.SanitizePlan plan = Ok sanitizedPlan ∧
    let rcs := tfjson.ResourceChanges sanitizedPlan in
    pd = {| CreatedAddresses := tfjson.Address <$> filter to_created rcs;
            UpdatedAddresses := tfjson.Address <$> filter to_updated rcs;
            DeletedAddresses := tfjson.Address <$> filter to_deleted rcs;
            ReplacedAddresses := tfjson.Address <$> filter to_replaced rcs;
            ResourceChanges :=
              record_after_format <$> (Build_ResourceChangeData <$> filter retained rcs) |}.
Proof.
  intros (plan & sp & Hp & Hs & Hf)%NewPlanData_Ok.
  exists plan, sp. split; [done|]. split; [done|].
  apply PlanData__formatJsonString_result in Hf. rewrite loop_spec in Hf. exact Hf.
Qed.

Lemma with_suffix_partition (rs : list ResourceChangeData) :
  length (with_suffix "will be created" rs)
  + length (with_suffix "will be updated in-place" rs)
  + length (with_suffix "will be destroyed" rs)
  + length (with_suffix "will be replaced" rs)
  + length (with_suffix "" rs) = length rs.
Proof.
  unfold with_suffix. rewrite !length_fmap.
  induction rs as [|r rs IH]; [done|].
  rewrite !filter_cons.
  assert (ResourceChangeData__HeaderSuffix r = "will be created"
          ∨ ResourceChangeData__HeaderSuffix r = "will be updated in-place"
          ∨ ResourceChangeData__HeaderSuffix r = "will be destroyed"
          ∨ ResourceChangeData__HeaderSuffix r = "will be replaced"
          ∨ ResourceChangeData__HeaderSuffix r = "") as Hcases.
  { unfold ResourceChangeData__HeaderSuffix.
    destruct (tfjson.Create _); [tauto|]. destruct (tfjson.Update _); [tauto|].
    destruct (tfjson.Delete _); [tauto|]. destruct (tfjson.Replace _); tauto. }
  destruct Hcases as [Hr|[Hr|[Hr|[Hr|Hr]]]]; rewrite !Hr;
    repeat (case_decide; try discriminate); try congruence; cbn [length]; lia.
Qed.

End NewPlanData_properties.

(** ** Where a rendering stops *)

Section Render_properties.
Context `{!Imports}.




End Render_properties.

(** ** Errors, plan data and rendering *)

Section properties.
Context `{!Imports}.

Lemma PlanData__formatJsonString_loop_Err (rcs : list tfjson.ResourceChange) (err : error) :
  PlanData__formatJsonString (foldl NewPlanData_loop PlanData_zero rcs) = Err err ↔
  ∃ done c rest,
    filter retained rcs = done ++ c :: rest ∧
    Forall (λ c, is_Ok (ResourceChangeData__formatJsonString {| ResourceChange := c |})) done ∧
    ResourceChangeData__formatJsonString {| ResourceChange := c |} = Err err.
Proof.
  unfold PlanData__formatJsonString. rewrite loop_spec.
  unfold PlanData_zero. cbn [ResourceChanges app].
  rewrite mapM_fmap, <- mapM_Err.
  destruct (mapM _ _) as [rs|e]; split; congruence.
Qed.

(** X1.  [NewPlanData] fails in three ways only: the input does not parse
    (the decoder's error, wrapped in "cannot parse input"), the sanitizer
    fails (its error, wrapped in "failed to sanitize plan"), or [format]
    fails on the before value, else on the after value, of a change that is
    not skipped; the error of [format] is returned as it is, and it is the
    one of the first such change in the order of the plan. *)
Theorem NewPlanData_failures (input : string) (err : error) :
  NewPlanData input = Err err ↔
  (∃ e, json.Unmarshal_Plan input = Err e ∧ err = ErrWrap "cannot parse input: " e) ∨
  (∃ plan e, json.Unmarshal_Plan input = Ok plan ∧ sanitize.SanitizePlan plan = Err e ∧
             err = ErrWrap "failed to sanitize plan: " e) ∨
  (∃ plan sanitizedPlan done c rest,
     json.Unmarshal_Plan input = Ok plan ∧
     sanitize.SanitizePlan plan = Ok sanitizedPlan ∧
     filter retained (tfjson.ResourceChanges sanitizedPlan) = done ++ c :: rest ∧
     Forall (λ c, is_Ok (ResourceChangeData__formatJsonString {| ResourceChange := c |})) done ∧
     (ResourceChangeData__format (tfjson.Before (tfjson.Change_ c)) = Err err ∨
      (is_Ok (ResourceChangeData__format (tfjson.Before (tfjson.Change_ c))) ∧
       ResourceChangeData__format (tfjson.After (tfjson.Change_ c)) = Err err))).
Proof.
  unfold NewPlanData.
  destruct (json.Unmarshal_Plan input) as [plan|e] eqn:Hp.
  2:{ split.
      - intros [= <-]. left. by exists e.
      - intros [(e0 & He0 & ->)|[(plan & e0 & Hplan & _)|(plan & sp & d & c & r & Hplan & _)]];
          congruence. }
  destruct (sanitize.SanitizePlan plan) as [sp|e] eqn:Hs.
  2:{ split.
      - intros [= <-]. right. left. by exists plan, e.
      - intros [(e0 & He0 & _)|[(plan' & e0 & Hplan & Hsp & ->)
                               |(plan' & sp & d & c & r & Hplan & Hsp & _)]];
          congruence. }
  pose proof (PlanData__formatJsonString_loop_Err (tfjson.ResourceChanges sp) err) as Hloop.
  setoid_rewrite ResourceChangeData__formatJsonString_Err in Hloop.
  cbn [ResourceChange] in Hloop.
  destruct (PlanData__formatJsonString _) as [pd|e] eqn:Hf.
  - split; [done|].
    intros [(e0 & He0 & _)|[(plan' & e0 & Hplan & Hsp & _)
                            |(plan' & sp' & d & c & r & Hplan & Hsp & Hd & Hok & Hc)]];
      try congruence.
    assert (plan' = plan) as -> by congruence. assert (sp' = sp) as -> by congruence.
    destruct Hloop as [_ Hloop]. discriminate Hloop. by exists d, c, r.
  - split.
    + intros [= ->]. right. right. destruct Hloop as [Hloop _].
      destruct (Hloop eq_refl) as (d & c & r & Hd & Hok & Hc).
      by exists plan, sp, d, c, r.
    + intros [(e0 & He0 & _)|[(plan' & e0 & Hplan & Hsp & _)
                              |(plan' & sp' & d & c & r & Hplan & Hsp & Hd & Hok & Hc)]];
        try congruence.
      assert (plan' = plan) as -> by congruence. assert (sp' = sp) as -> by congruence.
      destruct Hloop as [_ Hloop]. apply Hloop. by exists d, c, r.
Qed.

(** X2.  In the plan data of [NewPlanData], each address list holds, in
    order, the addresses of the retained changes whose header says so: the
    changes headed "will be created" are those listed under "add", and so
    on for the three other lists.  The switch of [NewPlanData] and the one
    of [HeaderSuffix] agree whatever the action set is. *)
Theorem lists_match_headers (input : string) (pd : PlanData) :
  NewPlanData input = Ok pd →
  CreatedAddresses pd = with_suffix "will be created" (ResourceChanges pd) ∧
  UpdatedAddresses pd = with_suffix "will be updated in-place" (ResourceChanges pd) ∧
  DeletedAddresses pd = with_suffix "will be destroyed" (ResourceChanges pd) ∧
  ReplacedAddresses pd = with_suffix "will be replaced" (ResourceChanges pd).
Proof.
  intros (plan & sp & _ & _ & ->)%NewPlanData_result.
  cbn [CreatedAddresses UpdatedAddresses DeletedAddresses ReplacedAddresses ResourceChanges].
  repeat split; symmetry; apply with_suffix_retained; intros c; apply HeaderSuffix_cases.
Qed.

(** X3.  The four numbers of the summary line and the number of retained
    changes whose header has no suffix add up to the number of diff
    blocks. *)
Theorem counts_add_up (input : string) (pd : PlanData) :
  NewPlanData input = Ok pd →
  length (CreatedAddresses pd) + length (UpdatedAddresses pd)
  + length (DeletedAddresses pd) + length (ReplacedAddresses pd)
  + length (with_suffix "" (ResourceChanges pd)) = length (ResourceChanges pd).
Proof.
  intros (plan & sp & _ & _ & ->)%NewPlanData_result.
  cbn [CreatedAddresses UpdatedAddresses DeletedAddresses ReplacedAddresses ResourceChanges].
  set (rcs := tfjson.ResourceChanges sp).
  rewrite <- (with_suffix_retained "will be created" to_created rcs),
    <- (with_suffix_retained "will be updated in-place" to_updated rcs),
    <- (with_suffix_retained "will be destroyed" to_deleted rcs),
    <- (with_suffix_retained "will be replaced" to_replaced rcs);
    try (intros c; apply HeaderSuffix_cases).
  apply with_suffix_partition.
Qed.

(** X4.  The result of [NewPlanData] depends on the changes that are not
    skipped only: two inputs whose sanitized plans hold the same changes
    once the no-op and read ones are removed give the same plan data, or
    the same error. *)
Theorem skipped_changes_irrelevant (input input' : string)
  (plan plan' sanitizedPlan sanitizedPlan' : tfjson.Plan) :
  json.Unmarshal_Plan input = Ok plan →
  json.Unmarshal_Plan input' = Ok plan' →
  sanitize.SanitizePlan plan = Ok sanitizedPlan →
  sanitize.SanitizePlan plan' = Ok sanitizedPlan' →
  filter retained (tfjson.ResourceChanges sanitizedPlan)
  = filter retained (tfjson.ResourceChanges sanitizedPlan') →
  NewPlanData input = NewPlanData input'.
Proof.
  intros Hp Hp' Hs Hs' Hretained. unfold NewPlanData. rewrite Hp, Hp', Hs, Hs'.
  rewrite (loop_on_retained (tfjson.ResourceChanges sanitizedPlan)),
    (loop_on_retained (tfjson.ResourceChanges sanitizedPlan')).
  by rewrite Hretained.
Qed.

(** X5.  A plan whose changes are all skipped, or that has none, gives
    empty plan data, and [Render] writes the summary line with four zeros
    and nothing else, without error. *)
Theorem nothing_to_do (input : string) (plan sanitizedPlan : tfjson.Plan) :
  json.Unmarshal_Plan input = Ok plan →
  sanitize.SanitizePlan plan = Ok sanitizedPlan →
  Forall (λ c, tfjson.NoOp (tfjson.Actions_ (tfjson.Change_ c))
               || tfjson.Read (tfjson.Actions_ (tfjson.Change_ c)) = true)
         (tfjson.ResourceChanges sanitizedPlan) →
  NewPlanData input = Ok PlanData_zero ∧
  PlanData__Render <$> NewPlanData input =
    Ok ("### 0 to add, 0 to change, 0 to destroy, 0 to replace." +:+ LF, None).
Proof.
  intros Hp Hs Hskipped.
  assert (NewPlanData input = Ok PlanData_zero) as ->.
  { unfold NewPlanData. rewrite Hp, Hs.
    assert (foldl NewPlanData_loop PlanData_zero (tfjson.ResourceChanges sanitizedPlan)
            = PlanData_zero) as ->; [|reflexivity].
    induction Hskipped as [|c rcs Hc _ IH]; [reflexivity|].
    cbn [foldl]. unfold NewPlanData_loop at 2. by rewrite Hc. }
  split; [reflexivity|]. cbn [fmap result_fmap].
  rewrite Render_report. reflexivity.
Qed.

(** X6.  [format] changes the text of strings and nothing else: the value
    it returns has the arrays, with their lengths, the objects, with their
    keys, and the numbers, booleans and nulls of its argument, where they
    were. *)
Theorem format_changes_strings_only (v v' : value) :
  ResourceChangeData__format v = Ok v' → skeleton v' = skeleton v.
Proof.
  intros ->%format_Ok_normalize. apply skeleton_normalize.
Qed.

(** X7.  A value none of whose strings is re-encoded (each is refused by
    [json.Valid], or by [json.Unmarshal]) is returned by [format] as it
    is, without error. *)
Theorem format_plain_unchanged (v : value) :
  (∀ s, s ∈ strings_of v → plain s) →
  ResourceChangeData__format v = Ok v.
Proof.
  induction v as [|b|f|s|x IH|x IH] using value_ind'; intros Hplain; try done.
  - cbn [ResourceChangeData__format].
    destruct (Hplain s) as [Hvalid|[e He]]; [left|by rewrite Hvalid|].
    destruct (json.Valid s); cbn [negb]; [|done]. by rewrite He.
  - cbn [ResourceChangeData__format].
    assert (mapM ResourceChangeData__format x = Ok x) as ->; [|done].
    apply mapM_Ok. apply Forall2_same_length_lookup. split; [done|].
    intros i v w Hv Hw. assert (w = v) as -> by congruence.
    rewrite Forall_forall in IH. apply IH; [by eapply list_elem_of_lookup_2|].
    intros s Hs. apply Hplain, elem_of_strings_of_array.
    exists v. split; [by eapply list_elem_of_lookup_2|done].
  - cbn [ResourceChangeData__format].
    assert (map_sequence (ResourceChangeData__format <$> x) = Ok x) as ->; [|done].
    apply map_sequence_Ok, map_eq. intros k. rewrite !lookup_fmap.
    destruct (x !! k) as [v|] eqn:Hv; [|done]. cbn. f_equal.
    apply (IH k v Hv). intros s Hs. apply Hplain, elem_of_strings_of_object. eauto.
Qed.

(** X8.  [format] fails exactly when the value holds, at some depth, a
    string that [json.Valid] and [json.Unmarshal] accept and that
    [json.MarshalIndent] refuses; the error it returns is the one
    [json.MarshalIndent] gave for such a string, not wrapped. *)
Theorem format_fails_on_refused_string (v : value) :
  (is_Ok (ResourceChangeData__format v) ↔
   ∀ s err, s ∈ strings_of v → ¬ refused s err) ∧
  (∀ err, ResourceChangeData__format v = Err err →
          ∃ s, s ∈ strings_of v ∧ refused s err).
Proof.
  split; [split|].
  - apply format_Ok_not_refused.
  - intros Hnone. destruct (ResourceChangeData__format v) as [v'|e] eqn:Hv; [by exists v'|].
    apply format_Err_refused in Hv as (s & Hs & Hrefused).
    destruct (Hnone s e Hs Hrefused).
  - apply format_Err_refused.
Qed.

(** X9.  When [formatJsonString] returns no error, on a retained change
    and on the plan data: the four address lists are as they were, and so
    are the number and the order of the retained changes and the address,
    type, name and actions of each; a before or after value that is an
    array or an object holds every string that is valid JSON written again
    with two spaces of indentation, and one that is itself a string (a
    number, a boolean, nil) is what it was. *)
Theorem formatJsonString_effect :
  (∀ r r', ResourceChangeData__formatJsonString r = Ok r' → r' = record_after_format r) ∧
  (∀ p p', PlanData__formatJsonString p = Ok p' →
           p' = {| CreatedAddresses := CreatedAddresses p;
                   UpdatedAddresses := UpdatedAddresses p;
                   DeletedAddresses := DeletedAddresses p;
                   ReplacedAddresses := ReplacedAddresses p;
                   ResourceChanges := record_after_format <$> ResourceChanges p |}).
Proof.
  split.
  - apply ResourceChangeData__formatJsonString_result.
  - apply PlanData__formatJsonString_result.
Qed.


(** X11.  The header of a diff block names the type and the name of the
    resource, not its address; the address of a retained change is written
    nowhere in the details.  Plan data with the same address lists, whose
    retained changes have, one by one, the same type, name and change,
    render alike. *)
Theorem details_without_address (p p' : PlanData) :
  CreatedAddresses p = CreatedAddresses p' →
  UpdatedAddresses p = UpdatedAddresses p' →
  DeletedAddresses p = DeletedAddresses p' →
  ReplacedAddresses p = ReplacedAddresses p' →
  Forall2 same_block (ResourceChanges p) (ResourceChanges p') →
  PlanData__Render p = PlanData__Render p'.
Proof.
  intros Hc Hu Hd Hr Hrs. rewrite !Render_report. unfold report.
  assert (summary_line p = summary_line p') as ->.
  { unfold summary_line. by rewrite Hc, Hu, Hd, Hr. }
  assert (address_sections p = address_sections p') as ->.
  { unfold address_sections. by rewrite Hc, Hu, Hd, Hr. }
  assert (∀ w, diff_blocks (ResourceChanges p) w = diff_blocks (ResourceChanges p') w)
    as Hblocks.
  { induction Hrs as [|r r' rs rs' (Htype & Hname & Hchange) _ IH]; [done|].
    intros w. cbn [diff_blocks].
    assert (ResourceChangeData__GetUnifiedDiffString r
            = ResourceChangeData__GetUnifiedDiffString r') as ->.
    { unfold ResourceChangeData__GetUnifiedDiffString. by rewrite Hchange. }
    assert (ResourceChangeData__HeaderSuffix r = ResourceChangeData__HeaderSuffix r') as Hsuffix.
    { unfold ResourceChangeData__HeaderSuffix. by rewrite Hchange. }
    unfold diff_block. rewrite Htype, Hname, Hsuffix.
    destruct (ResourceChangeData__GetUnifiedDiffString r'); [apply IH|done]. }
  unfold details. rewrite Hblocks.
  by destruct Hrs.
Qed.

End properties.

(** ** The lines of the report *)

Lemma rev_app_app (a b c : string) : String.rev_app a b +:+ c = String.rev_app a (b +:+ c).
Proof.
  revert b. induction a as [|x a IH]; intros b; [done|].
  cbn [String.rev_app]. by rewrite IH, string_app_cons.
Qed.

Lemma lines_go_no_LF (cur s : string) :
  no_LF s = true → lines_go cur s = [String.rev cur +:+ s].
Proof.
  revert cur. induction s as [|c s IH]; intros cur; cbn [no_LF lines_go].
  - intros _. by rewrite string_app_nil_r.
  - intros [Hc Hs]%andb_true_iff. destruct (Ascii.eqb c "010"); [done|].
    rewrite (IH _ Hs). unfold String.rev. cbn [String.rev_app].
    rewrite !rev_app_app. reflexivity.
Qed.

Lemma lines_go_app_LF (cur a b : string) :
  lines_go cur (a +:+ LF +:+ b) = lines_go cur a ++ lines b.
Proof.
  revert cur. induction a as [|c a IH]; intros cur.
  - reflexivity.
  - rewrite string_app_cons. cbn [lines_go].
    destruct (Ascii.eqb c "010"); [|apply IH].
    rewrite IH. reflexivity.
Qed.

(** A text followed by lines, each after a line feed. *)
Lemma lines_foldr (s t : string) (ls : list string) :
  no_LF s = true → Forall (λ l, no_LF l = true) ls →
  lines (s +:+ foldr (λ l acc, LF +:+ l +:+ acc) (LF +:+ t) ls) = s :: ls ++ lines t.
Proof.
  intros Hs Hls. revert s Hs. induction Hls as [|l ls Hl _ IH]; intros s Hs; cbn [foldr].
  - unfold lines at 1. rewrite lines_go_app_LF, (lines_go_no_LF _ _ Hs). reflexivity.
  - unfold lines at 1. rewrite lines_go_app_LF, (lines_go_no_LF _ _ Hs).
    fold (lines (l +:+ foldr (λ l acc, LF +:+ l +:+ acc) (LF +:+ t) ls)).
    rewrite (IH l Hl). reflexivity.
Qed.

Lemma address_section_foldr (title : string) (addresses : list string) (x : string) :
  address_section title addresses +:+ x
  = foldr (λ l acc, LF +:+ l +:+ acc) x (section_lines title addresses).
Proof.
  assert (∀ l, bullets l +:+ x
               = foldr (λ l acc, LF +:+ l +:+ acc) x ((λ a, "    - " +:+ a) <$> l)) as Hbullets.
  { induction l as [|a l IH]; [done|].
    rewrite fmap_cons. cbn [foldr]. rewrite <- IH. unfold bullets. cbn [foldr].
    by rewrite !string_app_assoc. }
  unfold address_section, section_lines. destruct addresses as [|a l]; [done|].
  cbn [foldr]. rewrite <- Hbullets. by rewrite !string_app_assoc.
Qed.

Lemma no_LF_section_lines (title : string) (addresses : list string) :
  no_LF title = true → Forall (λ a, no_LF a = true) addresses →
  Forall (λ l, no_LF l = true) (section_lines title addresses).
Proof.
  intros Htitle Haddresses. unfold section_lines.
  destruct addresses as [|a l]; [constructor|].
  constructor; [by rewrite no_LF_app, Htitle|].
  apply Forall_fmap. eapply Forall_impl; [exact Haddresses|].
  intros b Hb. cbn. by rewrite no_LF_app, Hb.
Qed.

Section lines_properties.
Context `{!Imports}.

(** X12.  When no address holds a line feed, the report starts with these
    lines: the summary; then, for each of the four lists that is not empty
    and in the order add, change, destroy, replace, a title line and one
    bullet line per address, in the order of the list.  What follows starts
    on a new line, and is empty when no change is retained.  This holds
    also when a diff fails and the rendering stops short. *)
Theorem report_lines (p : PlanData) :
  Forall (λ a, no_LF a = true) (all_addresses p) →
  ∃ rest,
    (PlanData__Render p).1 = summary_line p +:+ address_sections p +:+ LF +:+ rest ∧
    (ResourceChanges p = [] → rest = EmptyString) ∧
    lines (PlanData__Render p).1
    = summary_line p
      :: section_lines "add" (CreatedAddresses p)
      ++ section_lines "change" (UpdatedAddresses p)
      ++ section_lines "destroy" (DeletedAddresses p)
      ++ section_lines "replace" (ReplacedAddresses p)
      ++ lines rest.
Proof.
  unfold all_addresses. rewrite !Forall_app. intros (Hc & Hu & Hd & Hr).
  assert (∃ rest, (PlanData__Render p).1
                  = summary_line p +:+ address_sections p +:+ LF +:+ rest ∧
                  (ResourceChanges p = [] → rest = EmptyString)) as (rest & Hrest & Hnil).
  { rewrite Render_report. unfold report.
    destruct (details_extends (ResourceChanges p)
                (summary_line p +:+ address_sections p +:+ LF)) as [rest Hrest].
    exists rest. split.
    - destruct (details _ _) as [w [e|]]; cbn [fst] in *; subst w;
        by rewrite !string_app_assoc.
    - intros Hrs. rewrite Hrs in Hrest. cbn [details fst] in Hrest.
      symmetry. apply (inj (String.app (summary_line p +:+ address_sections p +:+ LF))).
      by rewrite string_app_nil_r. }
  exists rest. split; [exact Hrest|]. split; [exact Hnil|]. rewrite Hrest.
  unfold address_sections. rewrite !string_app_assoc, !address_section_foldr.
  rewrite <- !foldr_app, <- !app_assoc.
  rewrite lines_foldr; [by rewrite <- !app_assoc|apply no_LF_summary_line|].
  rewrite !Forall_app. repeat split; by apply no_LF_section_lines.
Qed.

End lines_properties.

(** * The properties on the example plans *)

Section properties_examples.
Import examples.
Local Existing Instance ref.imports.

(** X1 on a text that is not JSON, and on a plan with a string that the
    encoder refuses. *)
Lemma NewPlanData_failures_witness :
  NewPlanData "not json" = Err (ErrWrap "cannot parse input: " (ErrLib "json: invalid text")) ∧
  @NewPlanData refusing_imports nested_plan
  = Err (ErrLib "json: error calling MarshalJSON for [1,{}]").
Proof.
  split.
  - apply NewPlanData_failures. left. eexists. split; vm_compute; reflexivity.
  - apply (@NewPlanData_failures refusing_imports). right. right.
    eexists _, _, [], _, []. split; [vm_compute; reflexivity|].
    split; [vm_compute; reflexivity|]. split; [vm_compute; reflexivity|].
    split; [constructor|]. right. split; [eexists|]; vm_compute; reflexivity.
Defined.

(** X2 on the mixed plan. *)
Lemma lists_match_headers_witness :
  ∃ pd, NewPlanData mixed_plan = Ok pd ∧
        CreatedAddresses pd = with_suffix "will be created" (ResourceChanges pd) ∧
        ReplacedAddresses pd = ["aws_instance.web"] ∧
        with_suffix "will be replaced" (ResourceChanges pd) = ["aws_instance.web"].
Proof.
  destruct (NewPlanData mixed_plan) as [pd|e] eqn:Hpd;
    [|vm_compute in Hpd; discriminate Hpd].
  exists pd. split; [reflexivity|].
  destruct (lists_match_headers mixed_plan pd Hpd) as (Hc & _ & _ & Hr).
  split; [exact Hc|]. rewrite <- Hr.
  vm_compute in Hpd. injection Hpd as <-. split; reflexivity.
Defined.

(** X3 on the plan with a change that is forgotten: four zeros, one diff
    block. *)
Lemma counts_add_up_witness :
  ∃ pd, NewPlanData forget_plan = Ok pd ∧
        length (CreatedAddresses pd) + length (UpdatedAddresses pd)
        + length (DeletedAddresses pd) + length (ReplacedAddresses pd)
        + length (with_suffix "" (ResourceChanges pd)) = length (ResourceChanges pd) ∧
        length (ResourceChanges pd) = 1.
Proof.
  destruct (NewPlanData forget_plan) as [pd|e] eqn:Hpd;
    [|vm_compute in Hpd; discriminate Hpd].
  exists pd. split; [reflexivity|].
  split; [exact (counts_add_up forget_plan pd Hpd)|].
  vm_compute in Hpd. injection Hpd as <-. reflexivity.
Defined.

(** X4 on the mixed plan, with and without its no-op change. *)
Lemma skipped_changes_irrelevant_witness :
  NewPlanData mixed_plan = NewPlanData mixed_plan_without_noop.
Proof.
  eapply skipped_changes_irrelevant; vm_compute; reflexivity.
Defined.

(** X5 on a plan whose only change is a no-op. *)
Lemma nothing_to_do_witness :
  NewPlanData noop_plan = Ok PlanData_zero ∧
  PlanData__Render <$> NewPlanData noop_plan =
    Ok ("### 0 to add, 0 to change, 0 to destroy, 0 to replace." +:+ LF, None).
Proof.
  eapply nothing_to_do; [vm_compute; reflexivity..|].
  repeat constructor.
Defined.

(** X6 on a value with strings at several depths. *)
Lemma format_changes_strings_only_witness :
  ∃ v', ResourceChangeData__format sample_value = Ok v' ∧
        skeleton v' = skeleton sample_value.
Proof.
  destruct (ResourceChangeData__format sample_value) as [v'|e] eqn:Hv;
    [|vm_compute in Hv; discriminate Hv].
  exists v'. split; [reflexivity|]. exact (format_changes_strings_only _ _ Hv).
Defined.

(** X7 on a value none of whose strings is JSON. *)
Lemma format_plain_unchanged_witness :
  ResourceChangeData__format plain_value = Ok plain_value.
Proof.
  apply format_plain_unchanged. intros s Hs. left.
  vm_compute in Hs.
  apply elem_of_cons in Hs as [->|Hs]; [vm_compute; reflexivity|].
  apply elem_of_cons in Hs as [->|Hs]; [vm_compute; reflexivity|].
  apply elem_of_nil in Hs. destruct Hs.
Defined.

(** X8 with an encoder that refuses: the error of [format] is the one of
    a string of the value. *)
Lemma format_fails_on_refused_string_witness :
  ∃ s, s ∈ strings_of sample_value ∧
       @refused refusing_json s (ErrLib "json: error calling MarshalJSON for [1,{}]").
Proof.
  apply (@format_fails_on_refused_string refusing_imports sample_value).
  vm_compute. reflexivity.
Defined.

(** X9 on the plan data of the loop for a change whose after value is a
    string holding JSON. *)
Lemma formatJsonString_effect_witness :
  ∃ r, ResourceChangeData__formatJsonString
         {| ResourceChange :=
              change_of "null_resource.raw" "null_resource" "raw" ["create"]
                        (VArray [VString "[1,2]"]) (VString "[1,2]") |} = Ok r ∧
       tfjson.After (tfjson.Change_ (ResourceChange r)) = VString "[1,2]" ∧
       tfjson.Before (tfjson.Change_ (ResourceChange r))
       = VArray [VString ("[" +:+ LF +:+ "  1," +:+ LF +:+ "  2" +:+ LF +:+ "]")].
Proof.
  destruct (ResourceChangeData__formatJsonString _) as [r|e] eqn:Hr;
    [|vm_compute in Hr; discriminate Hr].
  exists r. split; [reflexivity|].
  destruct formatJsonString_effect as [Hrecord _].
  rewrite (Hrecord _ _ Hr). split; vm_compute; reflexivity.
Defined.


(** X11 on a resource at the root and in a module. *)
Lemma details_without_address_witness :
  PlanData__Render root_plan_data = PlanData__Render module_plan_data.
Proof.
  apply details_without_address; try reflexivity.
  repeat constructor.
Defined.

(** X12 on plan data whose rendering stops at the second change. *)
Lemma report_lines_witness :
  ∃ rest,
    lines (PlanData__Render nan_plan_data).1
    = ["### 1 to add, 1 to change, 0 to destroy, 0 to replace.";
       "- add"; "    - aws_instance.foo"; "- change"; "    - aws_instance.nan"]
      ++ lines rest.
Proof.
  destruct (report_lines nan_plan_data) as (rest & _ & _ & Hlines);
    [repeat constructor|].
  exists rest. exact Hlines.
Defined.

End properties_examples.
